(** * flick-finder: the provisioning and verification script, and the route table

    A shallow embedding of [backend/dbTests.js] and [src/app/app.routes.ts].

    [dbTests.js] is a sequential script: it opens one MySQL connection, sends
    six queries (two of them batches of several statements), closes the
    connection, and then drives the REST service through a fixed list of HTTP
    calls.  Its behaviour is the behaviour of the SQL it sends, so the
    development models both:

    - [Sql]: statements as data, and the part of MySQL's (InnoDB's) semantics
      that the script exercises: tables with keys and foreign keys,
      [ON DELETE CASCADE], [AFTER DELETE] triggers, multi-statement queries;
    - [Schema]: the six queries of the script, transcribed;
    - [Script]: the three JavaScript functions, in a monad of state and
      exceptions over a world that holds the server, the connections, the
      REST service and the console;
    - [Routes]: the Angular route table and the router's matching of it;
    - [Invariants], [Hoare], [Examples], [Further]: the states, the
      assertions and the concrete inputs that the theorems speak of.

    The theorems follow: [SqlFacts] on the engine and the queries,
    [ScriptFacts] and [ApiFacts] on the JavaScript, [RoutesFacts] on the
    router, [FurtherFacts] on the account of a run of the setup, on where
    the API test stops and on the constraints of the tables, [Claims], which
    settles the statements of the specification, and [Properties], on what
    the schema and the script do besides: the constraints of the tables,
    the console, the edges of the API test, the pages of the route table.

    Where MySQL decides the outcome, the model follows its reference manual:
    cascaded foreign key actions do not activate triggers; [DROP TABLE]
    drops the triggers of the table; trigger names are unique in a
    database; a table referenced by a foreign key cannot be dropped; a
    multi-statement query stops at its first error and keeps the effects of
    the statements before it.  Values are stored as they are given: the
    model has no conversion between types and no truncation, so it agrees
    with MySQL on the values that fit their columns ([fits]). *)

From Stdlib Require Import ZArith String Ascii List Bool Lia DecimalString Permutation.
From stdpp Require Import base option list gmap strings fin_maps.

Open Scope Z_scope.
Open Scope string_scope.

(** ** Values, rows and table definitions *)

Module Sql.

(** A cell of a row.  [DECIMAL(3,1)] values are kept in tenths ([9.3] is
    [VDec 93]); a [TIMESTAMP] is the server's clock reading. *)
Inductive value :=
| VNull
| VInt (n : Z)
| VStr (s : string)
| VDec (tenths : Z)
| VTime (t : Z).

(** A row maps column names to cells, in the order of the table's columns. *)
Definition row := list (string * value).

Fixpoint row_find (c : string) (r : row) : option value :=
  match r with
  | [] => None
  | (c', v) :: r' => if String.eqb c c' then Some v else row_find c r'
  end.

(** A column that a row does not carry reads as [NULL]. *)
Definition row_get (c : string) (r : row) : value :=
  match row_find c r with Some v => v | None => VNull end.

Definition is_null (v : value) : bool :=
  match v with VNull => true | _ => false end.

(** The collation of a database decides how strings compare.  MySQL has
    many: binary ones, case-insensitive ones, accent-insensitive ones, ones
    that ignore trailing spaces, over one-byte and multi-byte character
    sets.  The model spells out two, [Binary], which compares code units, and
    [CaseInsensitive], which identifies the ASCII letters of both cases, and
    takes every other collation as given by its two comparisons: [equal],
    the equality of two strings (for [=], [UNIQUE] and foreign keys), and
    [matches], which takes a pattern and a string (for [LIKE]). *)
Inductive collation :=
| Binary
| CaseInsensitive
| Collation (equal : string -> string -> bool) (matches : string -> string -> bool).

Definition lower (a : ascii) : ascii :=
  let n := nat_of_ascii a in
  if (Nat.leb 65 n && Nat.leb n 90)%bool then ascii_of_nat (n + 32) else a.

(** The comparison of two characters under the two collations that the
    model spells out. *)
Definition char_eqb (co : collation) (a b : ascii) : bool :=
  match co with
  | CaseInsensitive => Ascii.eqb (lower a) (lower b)
  | _ => Ascii.eqb a b
  end.

Fixpoint chars_eqb (co : collation) (s t : list ascii) : bool :=
  match s, t with
  | [], [] => true
  | a :: s', b :: t' => char_eqb co a b && chars_eqb co s' t'
  | _, _ => false
  end.

(** SQL's [=]: a comparison with [NULL] is never true. *)
Definition sql_eqb (co : collation) (a b : value) : bool :=
  match a, b with
  | VInt x, VInt y => Z.eqb x y
  | VDec x, VDec y => Z.eqb x y
  | VTime x, VTime y => Z.eqb x y
  | VStr x, VStr y =>
    match co with
    | Collation equal _ => equal x y
    | _ => chars_eqb co (list_ascii_of_string x) (list_ascii_of_string y)
    end
  | _, _ => false
  end.

(** [LIKE]: [%] stands for any run of characters, [_] for exactly one, and a
    backslash makes the next pattern character literal. *)
Fixpoint like_chars (co : collation) (p s : list ascii) : bool :=
  match p with
  | [] => match s with [] => true | _ => false end
  | c :: p' =>
    if Ascii.eqb c "%" then
      (fix star (s : list ascii) : bool :=
         like_chars co p' s || match s with [] => false | _ :: s' => star s' end) s
    else if Ascii.eqb c "_" then
      match s with [] => false | _ :: s' => like_chars co p' s' end
    else if Ascii.eqb c "\" then
      match p' with
      | [] => match s with [d] => char_eqb co c d | _ => false end
      | e :: p'' =>
        match s with [] => false | d :: s' => char_eqb co e d && like_chars co p'' s' end
      end
    else
      match s with [] => false | d :: s' => char_eqb co c d && like_chars co p' s' end
  end.

Definition like (co : collation) (pattern : string) (v : value) : bool :=
  match v with
  | VStr s =>
    match co with
    | Collation _ matches => matches pattern s
    | _ => like_chars co (list_ascii_of_string pattern) (list_ascii_of_string s)
    end
  | _ => false
  end.

Inductive sqltype := INT | VARCHAR (n : nat) | TEXT | DECIMAL (p s : nat) | TIMESTAMP.

(** One column of a [CREATE TABLE]: its type and the attributes the script
    writes ([NOT NULL], [AUTO_INCREMENT], [PRIMARY KEY], [UNIQUE],
    [DEFAULT CURRENT_TIMESTAMP]). *)
Record column := Column {
  col_name : string;
  col_type : sqltype;
  col_not_null : bool;
  col_auto_increment : bool;
  col_primary_key : bool;
  col_unique : bool;
  col_default_now : bool
}.

(** [FOREIGN KEY (fk_column) REFERENCES fk_ref_table(fk_ref_column) ON DELETE
    CASCADE]; the script declares no other referential action. *)
Record foreign_key := ForeignKey {
  fk_column : string;
  fk_ref_table : string;
  fk_ref_column : string
}.

Record table_def := TableDef {
  td_columns : list column;
  td_primary_key : list string;      (* the table-level PRIMARY KEY (...) *)
  td_foreign_keys : list foreign_key
}.

Record table := Table {
  t_def : table_def;
  t_rows : list row;
  t_auto_increment : Z                (* the next AUTO_INCREMENT value *)
}.

Definition new_table (d : table_def) : table :=
  {| t_def := d; t_rows := []; t_auto_increment := 1 |}.

Definition with_rows (t : table) (rs : list row) : table :=
  {| t_def := t_def t; t_rows := rs; t_auto_increment := t_auto_increment t |}.

(** A value of a trigger's [INSERT]: [OLD.col], [NOW()] or a constant. *)
Inductive expr := EOld (c : string) | ENow | EConst (v : value).

(** [CREATE TRIGGER trg_name AFTER DELETE ON trg_table FOR EACH ROW BEGIN
    INSERT INTO trg_into (trg_columns) VALUES (trg_values); END]. *)
Record trigger := Trigger {
  trg_name : string;
  trg_table : string;
  trg_into : string;
  trg_columns : list string;
  trg_values : list expr
}.

Record database := Database {
  db_collation : collation;
  db_tables : gmap string table;
  db_triggers : list trigger
}.

(** The server: its databases, the collation a new database gets, and the
    clock that [NOW()] and [CURRENT_TIMESTAMP] read. *)
Record server := Server {
  databases : gmap string database;
  default_collation : collation;
  now : Z
}.

(** The state of one connection: the database selected by [USE]. *)
Record session := Session { current_db : option string }.

Inductive err_code :=
| ER_ACCESS_DENIED_ERROR | ECONNREFUSED | PROTOCOL_CONNECTION_LOST
| ER_DB_CREATE_EXISTS | ER_BAD_DB_ERROR | ER_NO_DB_ERROR
| ER_TABLE_EXISTS_ERROR | ER_BAD_TABLE_ERROR | ER_NO_SUCH_TABLE
| ER_FK_CANNOT_OPEN_PARENT | ER_FK_CANNOT_DROP_PARENT
| ER_TRG_ALREADY_EXISTS | ER_DUP_ENTRY | ER_BAD_NULL_ERROR
| ER_NO_REFERENCED_ROW_2 | ER_BAD_FIELD_ERROR | ER_WRONG_VALUE_COUNT_ON_ROW.

Inductive res (A : Type) := Ok (a : A) | Err (e : err_code).
Arguments Ok {A} a.
Arguments Err {A} e.

Definition bind {A B} (r : res A) (k : A -> res B) : res B :=
  match r with Ok a => k a | Err e => Err e end.

Notation "x <- r ;; k" := (bind r (fun x => k))
  (at level 100, r at next level, right associativity).

Definition from_option {A} (e : err_code) (o : option A) : res A :=
  match o with Some a => Ok a | None => Err e end.

Definition guard (b : bool) (e : err_code) : res unit :=
  if b then Ok tt else Err e.

(** ** Statements *)

(** The [WHERE] clauses: the script's [LIKE], and equalities, with which
    a client of the schema names the rows of one user or of one movie. *)
Inductive cond :=
| CLike (c : string) (pattern : string)
| CEq (c : string) (v : value)
| CAnd (a b : cond).

Fixpoint holds (co : collation) (w : cond) (r : row) : bool :=
  match w with
  | CLike c p => like co p (row_get c r)
  | CEq c v => sql_eqb co (row_get c r) v
  | CAnd a b => holds co a r && holds co b r
  end.

Definition selects (co : collation) (w : option cond) (r : row) : bool :=
  match w with None => true | Some c => holds co c r end.

Inductive stmt :=
| CreateDatabase (if_not_exists : bool) (db : string)
| Use (db : string)
| CreateTable (if_not_exists : bool) (name : string) (d : table_def)
| DropTable (if_exists : bool) (name : string)
| CreateTrigger (t : trigger)
| DeleteFrom (name : string) (where_ : option cond)
| InsertInto (name : string) (cols : list string) (rows : list (list value))
| SelectAll (name : string).

(** What the server answers to one statement: an OK packet or a row set. *)
Inductive answer := Done | Rows (rs : list row).

(** ** INSERT *)

(** The unique keys of a table: the table-level primary key, and every
    column marked [PRIMARY KEY] or [UNIQUE]. *)
Definition keys (d : table_def) : list (list string) :=
  match td_primary_key d with [] => [] | k => [k] end ++
  map (fun c => [col_name c])
      (List.filter (fun c => col_primary_key c || col_unique c) (td_columns d)).

Definition not_null_columns (d : table_def) : list string :=
  td_primary_key d ++
  map col_name (List.filter (fun c => col_not_null c || col_primary_key c) (td_columns d)).

Definition same_key (co : collation) (k : list string) (r1 r2 : row) : bool :=
  forallb (fun c => sql_eqb co (row_get c r1) (row_get c r2)) k.

(** The cell an [INSERT] stores in column [c]: the given value, or the next
    [AUTO_INCREMENT] number, or the clock for an omitted column with
    [DEFAULT CURRENT_TIMESTAMP], or [NULL]. *)
Definition cell (clock : Z) (t : table) (given : row) (c : column) : value :=
  match row_find (col_name c) given with
  | Some VNull => if col_auto_increment c then VInt (t_auto_increment t) else VNull
  | Some v => v
  | None =>
    if col_auto_increment c then VInt (t_auto_increment t)
    else if col_default_now c then VTime clock
    else VNull
  end.

Definition next_auto (t : table) (r : row) : Z :=
  fold_right (fun c acc =>
      if col_auto_increment c then
        match row_get (col_name c) r with VInt n => Z.max acc (n + 1) | _ => acc end
      else acc)
    (t_auto_increment t) (td_columns (t_def t)).

Definition has_parent (co : collation) (tbls : gmap string table) (r : row)
    (fk : foreign_key) : bool :=
  is_null (row_get (fk_column fk) r) ||
  match tbls !! fk_ref_table fk with
  | Some p =>
    existsb (fun pr => sql_eqb co (row_get (fk_column fk) r) (row_get (fk_ref_column fk) pr))
            (t_rows p)
  | None => false
  end.

(** What a column of a type holds without conversion, truncation or
    error: a number within the range of [INT], a string no longer than the
    [VARCHAR] or the [TEXT] (its bytes counted, of which it has at least as
    many as characters), a decimal of no more digits than the [DECIMAL], a
    time, or [NULL]. *)
Definition fits (ty : sqltype) (v : value) : bool :=
  match v, ty with
  | VNull, _ => true
  | VInt n, INT => ((-2147483648 <=? n) && (n <=? 2147483647))%Z
  | VStr s, VARCHAR n => (Z.of_nat (String.length s) <=? Z.of_nat n)%Z
  | VStr s, TEXT => (Z.of_nat (String.length s) <=? 65535)%Z
  | VDec t, DECIMAL p _ => (Z.abs t <? 10 ^ Z.of_nat p)%Z
  | VTime _, TIMESTAMP => true
  | _, _ => false
  end.

(** The values [vals] given for the columns [cols] fit the types that the
    table declares for them. *)
Definition given_fit (d : table_def) (cols : list string) (vals : list value) : bool :=
  forallb (fun cv =>
      match List.find (fun k => String.eqb (fst cv) (col_name k)) (td_columns d) with
      | Some k => fits (col_type k) (snd cv)
      | None => false
      end)
    (combine cols vals).

(** The insertion of one row.  The model stores the values as they are
    given: it has none of MySQL's conversions, and none of the errors of
    its strict mode for a value that does not fit its column (a number out
    of range, a string too long).  Its answer is MySQL's for values that
    fit ([given_fit]); the trigger of the script inserts [OLD] values of
    [INT] columns into [INT] columns. *)
Definition insert_row (co : collation) (clock : Z) (tbls : gmap string table)
    (name : string) (cols : list string) (vals : list value) : res (gmap string table) :=
  t <- from_option ER_NO_SUCH_TABLE (tbls !! name);;
  let d := t_def t in
  _ <- guard (Nat.eqb (length cols) (length vals)) ER_WRONG_VALUE_COUNT_ON_ROW;;
  _ <- guard (forallb (fun c => existsb (fun k => String.eqb c (col_name k)) (td_columns d)) cols)
             ER_BAD_FIELD_ERROR;;
  let r := map (fun c => (col_name c, cell clock t (combine cols vals) c)) (td_columns d) in
  _ <- guard (forallb (fun c => negb (is_null (row_get c r))) (not_null_columns d))
             ER_BAD_NULL_ERROR;;
  _ <- guard (forallb (fun k => negb (existsb (same_key co k r) (t_rows t))) (keys d))
             ER_DUP_ENTRY;;
  _ <- guard (forallb (has_parent co tbls r) (td_foreign_keys d)) ER_NO_REFERENCED_ROW_2;;
  Ok (<[name := {| t_def := d; t_rows := t_rows t ++ [r]; t_auto_increment := next_auto t r |}]> tbls).

(** A multi-row [INSERT] stores its rows in order; the first row that fails
    fails the statement, and the statement then leaves nothing behind. *)
Fixpoint insert_rows (co : collation) (clock : Z) (tbls : gmap string table)
    (name : string) (cols : list string) (rows : list (list value)) : res (gmap string table) :=
  match rows with
  | [] => Ok tbls
  | vals :: rest =>
    tbls' <- insert_row co clock tbls name cols vals;;
    insert_rows co clock tbls' name cols rest
  end.

(** ** DELETE, cascades and triggers *)

Definition refs_to (parent : string) (t : table) : list foreign_key :=
  List.filter (fun fk => String.eqb (fk_ref_table fk) parent) (td_foreign_keys (t_def t)).

(** A row of [t] is orphaned by the removal of the rows [gone] of [parent]
    when one of its foreign keys into [parent] points at one of them. *)
Definition orphaned (co : collation) (parent : string) (gone : list row)
    (t : table) (r : row) : bool :=
  existsb (fun fk =>
      existsb (fun g => sql_eqb co (row_get (fk_column fk) r) (row_get (fk_ref_column fk) g)) gone)
    (refs_to parent t).

Definition survivors (co : collation) (parent : string) (gone : list row) (t : table) : table :=
  with_rows t (List.filter (fun r => negb (orphaned co parent gone t r)) (t_rows t)).

Definition casualties (co : collation) (parent : string) (gone : list row) (t : table) : list row :=
  List.filter (orphaned co parent gone t) (t_rows t).

(** [ON DELETE CASCADE]: removing rows of [parent] removes the rows that
    reference them, in every table, and then the rows that reference those.
    The engine itself removes the dependent rows: no statement is executed
    for them and, as the MySQL manual states for [CREATE TRIGGER] and for
    foreign keys, cascaded foreign key actions do not activate triggers.
    So [cascade] takes no trigger list. *)
Fixpoint cascade (fuel : nat) (co : collation) (parent : string) (gone : list row)
    (tbls : gmap string table) : gmap string table :=
  match fuel with
  | O => tbls
  | S fuel' =>
    fold_right (fun w acc =>
                  match snd w with
                  | [] => acc
                  | _ :: _ => cascade fuel' co (fst w) (snd w) acc
                  end)
               (survivors co parent gone <$> tbls)
               (map_to_list (casualties co parent gone <$> tbls))
  end.

(** InnoDB nests cascading operations at most 15 levels deep. *)
Definition cascade_depth : nat := 15.

Definition eval (clock : Z) (old : row) (e : expr) : value :=
  match e with
  | EOld c => row_get c old
  | ENow => VTime clock
  | EConst v => v
  end.

(** The triggers of table [name] run once for each row that a [DELETE]
    statement removed from it, with that row as [OLD]. *)
Definition fire (co : collation) (clock : Z) (trgs : list trigger) (name : string)
    (old : row) (tbls : gmap string table) : res (gmap string table) :=
  fold_left (fun acc g =>
      tb <- acc;;
      if String.eqb (trg_table g) name
      then insert_row co clock tb (trg_into g) (trg_columns g) (map (eval clock old) (trg_values g))
      else Ok tb)
    trgs (Ok tbls).

Definition fire_all (co : collation) (clock : Z) (trgs : list trigger) (name : string)
    (olds : list row) (tbls : gmap string table) : res (gmap string table) :=
  fold_left (fun acc old => tb <- acc;; fire co clock trgs name old tb) olds (Ok tbls).

(** [DELETE FROM name WHERE w]: the selected rows leave the table, the rows
    that depend on them follow by cascade, and the table's [AFTER DELETE]
    triggers run for the selected rows, in table order.  (The triggers of
    this schema only insert [OLD] values elsewhere, so running them after
    all the removals gives the state that MySQL's row-at-a-time execution
    gives.)  A failing trigger fails the statement. *)
Definition delete_from (clock : Z) (db : database) (name : string) (w : option cond)
    : res database :=
  let co := db_collation db in
  t <- from_option ER_NO_SUCH_TABLE (db_tables db !! name);;
  let gone := List.filter (selects co w) (t_rows t) in
  let kept := List.filter (fun r => negb (selects co w r)) (t_rows t) in
  let tbls1 := <[name := with_rows t kept]> (db_tables db) in
  let tbls2 := cascade cascade_depth co name gone tbls1 in
  tbls3 <- fire_all co clock (db_triggers db) name gone tbls2;;
  Ok {| db_collation := co; db_tables := tbls3; db_triggers := db_triggers db |}.

(** ** Data definition *)

Definition referenced_by_other (tbls : gmap string table) (name : string) : bool :=
  existsb (fun nt => negb (String.eqb (fst nt) name) &&
                     match refs_to name (snd nt) with [] => false | _ => true end)
          (map_to_list tbls).

(** [CREATE TABLE]: the referenced tables must exist (a table may reference
    itself). *)
Definition create_table (db : database) (if_not_exists : bool) (name : string)
    (d : table_def) : res database :=
  match db_tables db !! name with
  | Some _ => if if_not_exists then Ok db else Err ER_TABLE_EXISTS_ERROR
  | None =>
    _ <- guard (forallb (fun fk => String.eqb (fk_ref_table fk) name ||
                                   bool_decide (is_Some (db_tables db !! fk_ref_table fk)))
                        (td_foreign_keys d))
               ER_FK_CANNOT_OPEN_PARENT;;
    Ok {| db_collation := db_collation db;
          db_tables := <[name := new_table d]> (db_tables db);
          db_triggers := db_triggers db |}
  end.

(** [DROP TABLE]: refused while another table references this one; the
    table goes with its rows and, as the manual states for [DROP TABLE],
    with its triggers.  No row is deleted by a [DELETE], so no trigger
    runs. *)
Definition drop_table (db : database) (if_exists : bool) (name : string) : res database :=
  match db_tables db !! name with
  | None => if if_exists then Ok db else Err ER_BAD_TABLE_ERROR
  | Some _ =>
    _ <- guard (negb (referenced_by_other (db_tables db) name)) ER_FK_CANNOT_DROP_PARENT;;
    Ok {| db_collation := db_collation db;
          db_tables := delete name (db_tables db);
          db_triggers := List.filter (fun g => negb (String.eqb (trg_table g) name))
                                     (db_triggers db) |}
  end.

(** [CREATE TRIGGER] has no [IF NOT EXISTS] here: a trigger of that name in
    the database is an error, whatever table it is on. *)
Definition create_trigger (db : database) (g : trigger) : res database :=
  _ <- guard (negb (existsb (fun h => String.eqb (trg_name h) (trg_name g)) (db_triggers db)))
             ER_TRG_ALREADY_EXISTS;;
  _ <- guard (bool_decide (is_Some (db_tables db !! trg_table g))) ER_NO_SUCH_TABLE;;
  Ok {| db_collation := db_collation db;
        db_tables := db_tables db;
        db_triggers := db_triggers db ++ [g] |}.

(** ** Statements and multi-statement queries *)

Definition new_database (co : collation) : database :=
  {| db_collation := co; db_tables := ∅; db_triggers := [] |}.

Definition with_database (sv : server) (name : string) (db : database) : server :=
  {| databases := <[name := db]> (databases sv);
     default_collation := default_collation sv;
     now := now sv |}.

(** A statement on tables works on the database selected by [USE]. *)
Definition on_db (ss : session) (sv : server) (f : database -> res (answer * database))
    : res (answer * session * server) :=
  name <- from_option ER_NO_DB_ERROR (current_db ss);;
  db <- from_option ER_BAD_DB_ERROR (databases sv !! name);;
  ad <- f db;;
  Ok (fst ad, ss, with_database sv name (snd ad)).

Definition finish (r : res database) : res (answer * database) :=
  db <- r;; Ok (Done, db).

Definition exec_stmt (st : stmt) (ss : session) (sv : server)
    : res (answer * session * server) :=
  match st with
  | CreateDatabase if_not_exists name =>
    match databases sv !! name with
    | Some _ => if if_not_exists then Ok (Done, ss, sv) else Err ER_DB_CREATE_EXISTS
    | None => Ok (Done, ss, with_database sv name (new_database (default_collation sv)))
    end
  | Use name =>
    match databases sv !! name with
    | Some _ => Ok (Done, {| current_db := Some name |}, sv)
    | None => Err ER_BAD_DB_ERROR
    end
  | CreateTable if_not_exists name d =>
    on_db ss sv (fun db => finish (create_table db if_not_exists name d))
  | DropTable if_exists name =>
    on_db ss sv (fun db => finish (drop_table db if_exists name))
  | CreateTrigger g =>
    on_db ss sv (fun db => finish (create_trigger db g))
  | DeleteFrom name w =>
    on_db ss sv (fun db => finish (delete_from (now sv) db name w))
  | InsertInto name cols rows =>
    on_db ss sv (fun db =>
      tbls <- insert_rows (db_collation db) (now sv) (db_tables db) name cols rows;;
      Ok (Done, {| db_collation := db_collation db;
                   db_tables := tbls;
                   db_triggers := db_triggers db |}))
  | SelectAll name =>
    on_db ss sv (fun db =>
      t <- from_option ER_NO_SUCH_TABLE (db_tables db !! name);;
      Ok (Rows (t_rows t), db))
  end.

(** A query with [multipleStatements] runs its statements in order and
    stops at the first that fails; the statements before it have taken
    effect (each statement commits on its own). *)
Fixpoint exec_batch (sts : list stmt) (ss : session) (sv : server)
    : res (list answer) * session * server :=
  match sts with
  | [] => (Ok [], ss, sv)
  | st :: rest =>
    match exec_stmt st ss sv with
    | Err e => (Err e, ss, sv)
    | Ok (a, ss', sv') =>
      let '(r, ss'', sv'') := exec_batch rest ss' sv' in
      (match r with Ok l => Ok (a :: l) | Err e => Err e end, ss'', sv'')
    end
  end.

End Sql.

(** ** The SQL of the script *)

Module Schema.
Import Sql.

Definition app_db : string := "movie_recommendation_app".

(** [CREATE TABLE IF NOT EXISTS users (...)]. *)
Definition users_def : table_def :=
  {| td_columns :=
       [ Column "id" INT false true true false false;
         Column "username" (VARCHAR 255) true false false true false;
         Column "password" (VARCHAR 255) true false false false false;
         Column "created_at" TIMESTAMP false false false false true ];
     td_primary_key := [];
     td_foreign_keys := [] |}.

(** [CREATE TABLE movies (...)]. *)
Definition movies_def : table_def :=
  {| td_columns :=
       [ Column "id" INT false true true false false;
         Column "tmdb_id" INT false false false true false;
         Column "title" (VARCHAR 255) true false false false false;
         Column "overview" TEXT false false false false false;
         Column "poster_path" (VARCHAR 255) false false false false false;
         Column "vote_average" (DECIMAL 3 1) false false false false false;
         Column "created_at" TIMESTAMP false false false false true ];
     td_primary_key := [];
     td_foreign_keys := [] |}.

(** [CREATE TABLE user_movies (...)]. *)
Definition user_movies_def : table_def :=
  {| td_columns :=
       [ Column "user_id" INT true false false false false;
         Column "movie_id" INT true false false false false;
         Column "created_at" TIMESTAMP false false false false true ];
     td_primary_key := ["user_id"; "movie_id"];
     td_foreign_keys :=
       [ ForeignKey "user_id" "users" "id";
         ForeignKey "movie_id" "movies" "id" ] |}.

(** [CREATE TABLE IF NOT EXISTS user_moods (...)]. *)
Definition user_moods_def : table_def :=
  {| td_columns :=
       [ Column "id" INT false true true false false;
         Column "user_id" INT true false false false false;
         Column "mood" (VARCHAR 50) true false false false false;
         Column "created_at" TIMESTAMP false false false false true ];
     td_primary_key := [];
     td_foreign_keys := [ ForeignKey "user_id" "users" "id" ] |}.

(** [CREATE TABLE IF NOT EXISTS deletion_logs (...)]. *)
Definition deletion_logs_def : table_def :=
  {| td_columns :=
       [ Column "id" INT false true true false false;
         Column "user_id" INT true false false false false;
         Column "movie_id" INT true false false false false;
         Column "deleted_at" TIMESTAMP false false false false true ];
     td_primary_key := [];
     td_foreign_keys := [] |}.

(** [CREATE TRIGGER after_movie_delete AFTER DELETE ON user_movies FOR EACH
    ROW BEGIN INSERT INTO deletion_logs (user_id, movie_id, deleted_at)
    VALUES (OLD.user_id, OLD.movie_id, NOW()); END]. *)
Definition after_movie_delete : trigger :=
  {| trg_name := "after_movie_delete";
     trg_table := "user_movies";
     trg_into := "deletion_logs";
     trg_columns := ["user_id"; "movie_id"; "deleted_at"];
     trg_values := [EOld "user_id"; EOld "movie_id"; ENow] |}.

(** The six queries of [setupTestDatabase], in the order it sends them. *)
Definition create_database_sql : list stmt :=
  [ CreateDatabase true app_db ].

Definition use_sql : list stmt :=
  [ Use app_db ].

Definition create_tables_sql : list stmt :=
  [ CreateTable true "users" users_def;
    DropTable true "user_movies";
    DropTable true "movies";
    CreateTable false "movies" movies_def;
    CreateTable false "user_movies" user_movies_def;
    CreateTable true "user_moods" user_moods_def;
    CreateTable true "deletion_logs" deletion_logs_def;
    CreateTrigger after_movie_delete ].

Definition clear_sql : list stmt :=
  [ DeleteFrom "user_movies" None;
    DeleteFrom "user_moods" None;
    DeleteFrom "users" (Some (CLike "username" "testuser%"));
    DeleteFrom "movies" None ].

Definition seed_columns : list string :=
  ["title"; "tmdb_id"; "overview"; "poster_path"; "vote_average"].

Definition seed_rows : list (list value) :=
  [ [ VStr "The Shawshank Redemption"; VInt 278;
      VStr "Two imprisoned men bond over a number of years.";
      VStr "/path/to/poster1.jpg"; VDec 93 ];
    [ VStr "The Godfather"; VInt 238;
      VStr "The aging patriarch of an organized crime dynasty.";
      VStr "/path/to/poster2.jpg"; VDec 92 ];
    [ VStr "The Dark Knight"; VInt 155;
      VStr "Batman raises the stakes in his war on crime.";
      VStr "/path/to/poster3.jpg"; VDec 90 ] ].

Definition insert_movies_sql : list stmt :=
  [ InsertInto "movies" seed_columns seed_rows ].

Definition select_movies_sql : list stmt :=
  [ SelectAll "movies" ].

End Schema.

(** ** The JavaScript of the script *)

Module Script.
Import Sql Schema.

(** *** JavaScript values *)

#[local] Set Warnings "-register-all".

Inductive json :=
| JUndefined
| JNull
| JBool (b : bool)
| JNum (n : Z)
| JStr (s : string)
| JArr (l : list json)
| JObj (fields : list (string * json)).

Definition nullish (v : json) : bool :=
  match v with JUndefined | JNull => true | _ => false end.

Definition truthy (v : json) : bool :=
  match v with
  | JUndefined | JNull | JBool false | JStr "" => false
  | JNum n => negb (Z.eqb n 0)
  | _ => true
  end.

(** [a || b]. *)
Definition js_or (a b : json) : json := if truthy a then a else b.

Fixpoint field (k : string) (fs : list (string * json)) : json :=
  match fs with
  | [] => JUndefined
  | (k', v) :: fs' => if String.eqb k k' then v else field k fs'
  end.

(** [v.k] for a [v] that is neither [undefined] nor [null]: the own
    properties of objects; anything else has no property of the names the
    script reads. *)
Definition prop (v : json) (k : string) : json :=
  match v with
  | JObj fs => field k fs
  | _ => JUndefined
  end.

(** [v[0]]. *)
Definition first (v : json) : json :=
  match v with
  | JArr (x :: _) => x
  | JObj fs => field "0" fs
  | JStr (String c _) => JStr (String c "")
  | _ => JUndefined
  end.

Definition string_of_Z (n : Z) : string := NilZero.string_of_int (Z.to_int n).

(** The text a value contributes to a template literal: [String(v)], where
    an array joins its elements with commas and shows [null] and
    [undefined] elements as nothing. *)
Fixpoint to_string (v : json) : string :=
  match v with
  | JUndefined => "undefined"
  | JNull => "null"
  | JBool true => "true"
  | JBool false => "false"
  | JNum n => string_of_Z n
  | JStr s => s
  | JArr l =>
    (fix join (l : list json) : string :=
       match l with
       | [] => ""
       | x :: l' =>
         (if nullish x then "" else to_string x) ++
         match l' with [] => "" | _ :: _ => "," ++ join l' end
       end) l
  | JObj _ => "[object Object]"
  end.

(** [v === n] for a number [n]. *)
Definition is_number (v : json) (n : Z) : bool :=
  match v with JNum m => Z.eqb m n | _ => false end.

(** [v === s] for a string [s]. *)
Definition is_string (v : json) (s : string) : bool :=
  match v with JStr x => String.eqb x s | _ => false end.

(** *** HTTP, as axios presents it *)

Record request := Request {
  req_method : string;
  req_url : string;
  req_data : json
}.

Record response := Response { status : Z; data : json }.

(** What the network returns for a request: a response with a status, or
    nothing at all. *)
Inductive http_outcome :=
| Answer (r : response)
| NoAnswer (message : string).

(** What a JavaScript [catch] can receive here. *)
Inductive exn :=
| DbError (code : err_code)
| AxiosError (message : string) (resp : option response) (config : request)
| TypeError (message : string).

(** *** The world *)

Record conn_config := ConnConfig {
  host : string;
  user : string;
  password : option string;
  multipleStatements : bool
}.

Inductive db_event :=
| Connect (cfg : conn_config) (id : option nat)
| Query (id : nat) (sql : list stmt)
| EndConnection (id : nat).

Inductive level := LOG | ERROR.

Record entry := Entry { lvl : level; text : string; args : list json }.

(** Everything the script touches.  [faults] holds, for each call to the
    database still to come, a failure from outside the SQL (access denied,
    connection refused, connection lost); [api] is the REST service, any
    function of the requests it has received. *)
Record world := World {
  env : gmap string string;
  mysqld : server;
  faults : list (option err_code);
  sessions : gmap nat session;
  next_conn : nat;
  db_log : list db_event;
  api : list request -> request -> http_outcome;
  sent : list request;
  date_now : Z;
  console : list entry
}.

(** *** The monad of the script: state and exceptions *)

Inductive outcome (A : Type) := Return (a : A) | Throw (e : exn).
Arguments Return {A} a.
Arguments Throw {A} e.

Definition M (S A : Type) : Type := S -> outcome A * S.

Definition ret {S A} (a : A) : M S A := fun s => (Return a, s).

Definition throw {S A} (e : exn) : M S A := fun s => (Throw e, s).

Definition mbind {S A B} (m : M S A) (k : A -> M S B) : M S B :=
  fun s => match m s with
           | (Return a, s') => k a s'
           | (Throw e, s') => (Throw e, s')
           end.

Declare Scope js_scope.
Delimit Scope js_scope with js.
Notation "'let*' x := m 'in' k" := (mbind m (fun x => k))
  (at level 10, x name, m at level 100, k at level 200) : js_scope.
Notation "m ;;; k" := (mbind m (fun _ => k))
  (at level 100, k at level 200, right associativity) : js_scope.
Open Scope js_scope.

(** [try { body } catch (e) { handler e }]. *)
Definition try_catch {S A} (body : M S A) (handler : exn -> M S A) : M S A :=
  fun s => match body s with
           | (Throw e, s') => handler e s'
           | r => r
           end.

(** [... finally { fin }]: [fin] runs on every path out of [body]; the
    result of [body] stands unless [fin] itself throws. *)
Definition finally {S A} (body : M S A) (fin : M S unit) : M S A :=
  fun s => let '(r, s') := body s in
           match fin s' with
           | (Return _, s'') => (r, s'')
           | (Throw e, s'') => (Throw e, s'')
           end.

(** A function body with one local variable of type [L]. *)
Definition lift {L A} (m : M world A) : M (L * world) A :=
  fun s => let '(r, w') := m (snd s) in (r, (fst s, w')).

Definition get_local {L} : M (L * world) L := fun s => (Return (fst s), s).

Definition set_local {L} (l : L) : M (L * world) unit := fun s => (Return tt, (l, snd s)).

Definition scope {L A} (l0 : L) (m : M (L * world) A) : M world A :=
  fun w => let '(r, s') := m (l0, w) in (r, snd s').

(** *** The script's effects *)

Definition say (l : level) (t : string) (a : list json) : M world unit :=
  fun w => (Return tt,
            {| env := env w; mysqld := mysqld w; faults := faults w;
               sessions := sessions w; next_conn := next_conn w; db_log := db_log w;
               api := api w; sent := sent w; date_now := date_now w;
               console := console w ++ [Entry l t a] |}).

(** [console.log] and [console.error]. *)
Definition console_log (t : string) (a : list json) : M world unit := say LOG t a.
Definition console_error (t : string) (a : list json) : M world unit := say ERROR t a.

(** [process.env.K || dflt]: the default stands in for an unset variable
    and for an empty one. *)
Definition env_or (k dflt : string) (w : world) : string :=
  match env w !! k with
  | Some "" | None => dflt
  | Some s => s
  end.

Definition after_db_call (w : world) (sv : server) (ss : gmap nat session) (n : nat)
    (ev : db_event) : world :=
  {| env := env w; mysqld := sv; faults := tail (faults w);
     sessions := ss; next_conn := n; db_log := db_log w ++ [ev];
     api := api w; sent := sent w; date_now := date_now w; console := console w |}.

(** [mysql.createConnection(cfg)]: a new connection with no database
    selected, unless the attempt fails. *)
Definition createConnection (cfg : conn_config) : M world nat :=
  fun w =>
    match faults w with
    | Some e :: _ =>
      (Throw (DbError e),
       after_db_call w (mysqld w) (sessions w) (next_conn w) (Connect cfg None))
    | _ =>
      let id := next_conn w in
      (Return id,
       after_db_call w (mysqld w) (<[id := {| current_db := None |}]> (sessions w)) (S id)
                     (Connect cfg (Some id)))
    end.

(** [connection.query(sql)]: the statements run on the server; a failure
    rejects with the server's error code. *)
Definition query (id : nat) (sql : list stmt) : M world (list answer) :=
  fun w =>
    match faults w with
    | Some e :: _ =>
      (Throw (DbError e),
       after_db_call w (mysqld w) (sessions w) (next_conn w) (Query id sql))
    | _ =>
      match sessions w !! id with
      | None =>
        (Throw (DbError PROTOCOL_CONNECTION_LOST),
         after_db_call w (mysqld w) (sessions w) (next_conn w) (Query id sql))
      | Some ss =>
        let '(r, ss', sv') := exec_batch sql ss (mysqld w) in
        (match r with Ok l => Return l | Err e => Throw (DbError e) end,
         after_db_call w sv' (<[id := ss']> (sessions w)) (next_conn w) (Query id sql))
      end
    end.

(** [connection.end()]: closes the connection; the promise always
    resolves. *)
Definition end_connection (id : nat) : M world unit :=
  fun w =>
    (Return tt,
     {| env := env w; mysqld := mysqld w; faults := faults w;
        sessions := delete id (sessions w); next_conn := next_conn w;
        db_log := db_log w ++ [EndConnection id];
        api := api w; sent := sent w; date_now := date_now w; console := console w |}).

(** axios rejects when there is no response or when the status is not 2xx;
    the error carries the request as its [config] (axios keeps the body
    there as the JSON text that it sent; the model keeps the value). *)
Definition axios (r : request) : M world response :=
  fun w =>
    let w' := {| env := env w; mysqld := mysqld w; faults := faults w;
                 sessions := sessions w; next_conn := next_conn w; db_log := db_log w;
                 api := api w; sent := sent w ++ [r]; date_now := date_now w;
                 console := console w |} in
    match api w (sent w) r with
    | Answer rsp =>
      if ((200 <=? status rsp) && (status rsp <? 300))%Z
      then (Return rsp, w')
      else (Throw (AxiosError ("Request failed with status code " ++ string_of_Z (status rsp))
                              (Some rsp) r), w')
    | NoAnswer msg => (Throw (AxiosError msg None r), w')
    end.

Definition axios_post (url : string) (body : json) : M world response :=
  axios (Request "post" url body).
Definition axios_get (url : string) : M world response :=
  axios (Request "get" url JUndefined).
Definition axios_delete (url : string) : M world response :=
  axios (Request "delete" url JUndefined).
Definition axios_put (url : string) (body : json) : M world response :=
  axios (Request "put" url body).

(** [Date.now()]. *)
Definition Date_now : M world Z := fun w => (Return (date_now w), w).

(** [v.k], which throws on [undefined] and [null]. *)
Definition get {S} (v : json) (k : string) : M S json :=
  if nullish v
  then throw (TypeError ("Cannot read properties of " ++ to_string v ++ " (reading '" ++ k ++ "')"))
  else ret (prop v k).

(** [v[0]]. *)
Definition get_first {S} (v : json) : M S json :=
  if nullish v
  then throw (TypeError ("Cannot read properties of " ++ to_string v ++ " (reading '0')"))
  else ret (first v).

(** [l.some(movie => movie.id === n)] over the elements of an array: it
    stops at the first element whose [id] is [n]. *)
Fixpoint some_id_is {S} (n : Z) (l : list json) : M S bool :=
  match l with
  | [] => ret false
  | m :: l' =>
    let* i := get m "id" in
    if is_number i n then ret true else some_id_is n l'
  end.

(** [v.some(movie => movie.id === n)]. *)
Definition some_with_id {S} (v : json) (n : Z) : M S bool :=
  match v with
  | JArr l => some_id_is n l
  | JUndefined | JNull =>
    throw (TypeError ("Cannot read properties of " ++ to_string v ++ " (reading 'some')"))
  | _ => throw (TypeError "updatedMovies.some is not a function")
  end.

(** *** What the console is shown *)

Definition code_name (c : err_code) : string :=
  match c with
  | ER_ACCESS_DENIED_ERROR => "ER_ACCESS_DENIED_ERROR"
  | ECONNREFUSED => "ECONNREFUSED"
  | PROTOCOL_CONNECTION_LOST => "PROTOCOL_CONNECTION_LOST"
  | ER_DB_CREATE_EXISTS => "ER_DB_CREATE_EXISTS"
  | ER_BAD_DB_ERROR => "ER_BAD_DB_ERROR"
  | ER_NO_DB_ERROR => "ER_NO_DB_ERROR"
  | ER_TABLE_EXISTS_ERROR => "ER_TABLE_EXISTS_ERROR"
  | ER_BAD_TABLE_ERROR => "ER_BAD_TABLE_ERROR"
  | ER_NO_SUCH_TABLE => "ER_NO_SUCH_TABLE"
  | ER_FK_CANNOT_OPEN_PARENT => "ER_FK_CANNOT_OPEN_PARENT"
  | ER_FK_CANNOT_DROP_PARENT => "ER_FK_CANNOT_DROP_PARENT"
  | ER_TRG_ALREADY_EXISTS => "ER_TRG_ALREADY_EXISTS"
  | ER_DUP_ENTRY => "ER_DUP_ENTRY"
  | ER_BAD_NULL_ERROR => "ER_BAD_NULL_ERROR"
  | ER_NO_REFERENCED_ROW_2 => "ER_NO_REFERENCED_ROW_2"
  | ER_BAD_FIELD_ERROR => "ER_BAD_FIELD_ERROR"
  | ER_WRONG_VALUE_COUNT_ON_ROW => "ER_WRONG_VALUE_COUNT_ON_ROW"
  end.

(** mysql2 hands a [DECIMAL] over as a string. *)
Definition json_of_value (v : value) : json :=
  match v with
  | VNull => JNull
  | VInt n => JNum n
  | VStr s => JStr s
  | VDec t => JStr (string_of_Z (t / 10) ++ "." ++ string_of_Z (t mod 10))
  | VTime t => JNum t
  end.

Definition json_of_row (r : row) : json :=
  JObj (map (fun cv => (fst cv, json_of_value (snd cv))) r).

Definition json_of_answer (a : answer) : json :=
  match a with
  | Done => JObj []
  | Rows rs => JArr (map json_of_row rs)
  end.

(** The first component of what [connection.query] resolves to: the result
    of a single statement, or the list of results of several. *)
Definition results (l : list answer) : json :=
  match l with
  | [a] => json_of_answer a
  | _ => JArr (map json_of_answer l)
  end.

Definition json_of_response (r : response) : json :=
  JObj [("status", JNum (status r)); ("data", data r)].

Definition json_of_request (r : request) : json :=
  JObj [("url", JStr (req_url r)); ("method", JStr (req_method r)); ("data", req_data r)].

(** An error as an object: the properties that the script reads. *)
Definition json_of_exn (e : exn) : json :=
  match e with
  | DbError c => JObj [("code", JStr (code_name c))]
  | AxiosError m r c =>
    JObj [("message", JStr m);
          ("response", match r with Some x => json_of_response x | None => JUndefined end);
          ("config", json_of_request c)]
  | TypeError m => JObj [("message", JStr m)]
  end.

(** [a?.k]. *)
Definition opt (v : json) (k : string) : json :=
  if nullish v then JUndefined else prop v k.

Definition nl : string := String (ascii_of_nat 10) "".

Definition API_URL : string := "http://localhost:3000".

(** *** [setupTestDatabase] *)

Definition connection_config (w : world) : conn_config :=
  {| host := env_or "DB_HOST" "localhost" w;
     user := env_or "DB_USER" "root" w;
     password := env w !! "DB_PASSWORD";
     multipleStatements := true |}.

Definition read {A} (f : world -> A) : M world A := fun w => (Return (f w), w).

(** The [try] block.  The local variable is [connection]. *)
Definition setup_try : M (option nat * world) bool :=
  lift (console_log "Attempting to connect to MySQL..." []) ;;;
  let* h := lift (read (env_or "DB_HOST" "localhost")) in
  lift (console_log "Using host:" [JStr h]) ;;;
  let* u := lift (read (env_or "DB_USER" "root")) in
  lift (console_log "Using user:" [JStr u]) ;;;
  let* cfg := lift (read connection_config) in
  let* connection := lift (createConnection cfg) in
  set_local (Some connection) ;;;
  lift (console_log "Successfully connected to MySQL" []) ;;;
  lift (console_log "Creating database if it doesn't exist..." []) ;;;
  lift (query connection create_database_sql) ;;;
  lift (console_log "Switching to movie_recommendation_app database..." []) ;;;
  lift (query connection use_sql) ;;;
  lift (console_log "Creating tables..." []) ;;;
  lift (query connection create_tables_sql) ;;;
  lift (console_log "Clearing existing test data..." []) ;;;
  lift (query connection clear_sql) ;;;
  lift (console_log "Inserting test movies..." []) ;;;
  lift (query connection insert_movies_sql) ;;;
  let* movies := lift (query connection select_movies_sql) in
  lift (console_log "Inserted movies:" [results movies]) ;;;
  lift (console_log "Database setup completed successfully" []) ;;;
  ret true.

(** The [catch] block. *)
Definition setup_catch (error : exn) : M (option nat * world) bool :=
  lift (console_error "Detailed database setup error:" [json_of_exn error]) ;;;
  (if is_string (prop (json_of_exn error) "code") "ER_ACCESS_DENIED_ERROR"
   then lift (console_error
     "Access denied. Please check your MySQL username and password in .env file" [])
   else if is_string (prop (json_of_exn error) "code") "ECONNREFUSED"
   then lift (console_error "Connection refused. Please check if MySQL is running" [])
   else ret tt) ;;;
  ret false.

(** The [finally] block. *)
Definition setup_finally : M (option nat * world) unit :=
  let* connection := get_local in
  match connection with
  | Some id => lift (end_connection id)
  | None => ret tt
  end.

Definition setupTestDatabase : M world bool :=
  scope None (finally (try_catch setup_try setup_catch) setup_finally).

(** *** [testAPI] *)

Definition movieId : Z := 1.

Definition test_try : M world unit :=
  console_log (nl ++ "=== Starting API Tests ===" ++ nl) [] ;;;
  let* t := Date_now in
  let username := "testuser_" ++ string_of_Z t in
  let testUser := JObj [("username", JStr username); ("password", JStr "password123")] in
  console_log "1. Testing user creation..." [] ;;;
  let* createUserResponse := axios_post (API_URL ++ "/users") testUser in
  console_log "User created:" [data createUserResponse] ;;;
  console_log (nl ++ "2. Testing login...") [] ;;;
  let* loginResponse := axios_post (API_URL ++ "/login") testUser in
  console_log "Login successful:" [data loginResponse] ;;;
  let* userId := get (data createUserResponse) "userId" in
  console_log (nl ++ "3. Testing get users...") [] ;;;
  let* usersResponse := axios_get (API_URL ++ "/users") in
  console_log "Users retrieved:" [data usersResponse] ;;;
  console_log (nl ++ "4. Testing get all movies...") [] ;;;
  let* moviesResponse := axios_get (API_URL ++ "/movies") in
  console_log "Available movies:" [data moviesResponse] ;;;
  console_log (nl ++ "5. Testing adding movie to user...") [] ;;;
  let* movieToAdd := get_first (data moviesResponse) in
  let* tmdb_id := get movieToAdd "tmdb_id" in
  let* title := get movieToAdd "title" in
  let* overview := get movieToAdd "overview" in
  let* poster_path := get movieToAdd "poster_path" in
  let* vote_average := get movieToAdd "vote_average" in
  let* addMovieResponse :=
    axios_post (API_URL ++ "/user/" ++ to_string userId ++ "/movies")
      (JObj [("movieId", tmdb_id);
             ("movieDetails",
              JObj [("title", title);
                    ("overview", js_or overview (JStr ""));
                    ("poster_path", js_or poster_path (JStr ""));
                    ("vote_average", js_or vote_average (JNum 0))])]) in
  console_log "Movie added:" [data addMovieResponse] ;;;
  console_log (nl ++ "6. Testing get user movies...") [] ;;;
  let* userMoviesResponse := axios_get (API_URL ++ "/user/" ++ to_string userId ++ "/movies") in
  console_log "User movies:" [data userMoviesResponse] ;;;
  console_log (nl ++ "6. Testing delete movie from user...") [] ;;;
  let* deleteResponse :=
    axios_delete (API_URL ++ "/user/" ++ to_string userId ++ "/movies/" ++ string_of_Z movieId) in
  console_log "Movie deleted:" [data deleteResponse] ;;;
  let* updatedUserMoviesResponse :=
    axios_get (API_URL ++ "/user/" ++ to_string userId ++ "/movies") in
  let updatedMovies := data updatedUserMoviesResponse in
  console_log "Updated user movies list:" [updatedMovies] ;;;
  let* movieStillExists := some_with_id updatedMovies movieId in
  (if movieStillExists
   then console_error "Test failed: Movie was not deleted." []
   else console_log "Test passed: Movie successfully deleted." []) ;;;
  console_log (nl ++ "8. Testing update user password...") [] ;;;
  let* updatePasswordResponse :=
    axios_put (API_URL ++ "/user/" ++ to_string userId ++ "/password")
      (JObj [("newPassword", JStr "newpassword456")]) in
  console_log "Password updated:" [data updatePasswordResponse] ;;;
  console_log (nl ++ "9. Testing login with updated password...") [] ;;;
  let* newLoginResponse :=
    axios_post (API_URL ++ "/login")
      (JObj [("username", JStr username); ("password", JStr "newpassword456")]) in
  console_log "Login with updated password successful:" [data newLoginResponse] ;;;
  console_log (nl ++ "=== All tests completed successfully ===") [].

(** The object that the [catch] block prints. *)
Definition failure_report (error : exn) : json :=
  let e := json_of_exn error in
  JObj [("message", js_or (opt (opt (prop e "response") "data") "message") (prop e "message"));
        ("status", opt (prop e "response") "status");
        ("endpoint", opt (prop e "config") "url");
        ("method", opt (prop e "config") "method");
        ("data", opt (prop e "config") "data")].

Definition test_catch (error : exn) : M world unit :=
  console_error (nl ++ "Test failed:") [failure_report error].

Definition testAPI : M world unit := try_catch test_try test_catch.

(** *** [runTests] *)

Definition runTests : M world unit :=
  console_log "Setting up test database..." [] ;;;
  let* dbSetupSuccess := setupTestDatabase in
  if (dbSetupSuccess : bool)
  then console_log (nl ++ "Starting API tests...") [] ;;; testAPI
  else console_log "Skipping API tests due to database setup failure" [].

End Script.

(** ** The route table of the frontend *)

Module Routes.

Inductive component := LoginComponent | MoviesComponent | SignupComponent.

Inductive path_match := prefix_match | full.

(** One entry of Angular's [Routes]: the properties that the table uses. *)
Record route := Route {
  path : string;
  component_of : option component;
  redirectTo : option string;
  pathMatch : option path_match
}.

Definition routes : list route :=
  [ {| path := ""; component_of := None; redirectTo := Some "login"; pathMatch := Some full |};
    {| path := "login"; component_of := Some LoginComponent; redirectTo := None; pathMatch := None |};
    {| path := "signup"; component_of := Some SignupComponent; redirectTo := None; pathMatch := None |};
    {| path := "movies"; component_of := Some MoviesComponent; redirectTo := None; pathMatch := None |} ].

(** The segments of a path: its pieces between slashes; the empty path has
    none. *)
Fixpoint split_path (acc : string) (s : string) : list string :=
  match s with
  | EmptyString => match acc with "" => [] | _ => [acc] end
  | String c s' =>
    if Ascii.eqb c "/"
    then match acc with "" => split_path "" s' | _ => acc :: split_path "" s' end
    else split_path (acc ++ String c "") s'
  end.

Definition segments (p : string) : list string := split_path "" p.

Fixpoint same_segments (a b : list string) : bool :=
  match a, b with
  | [], [] => true
  | x :: a', y :: b' => String.eqb x y && same_segments a' b'
  | _, _ => false
  end.

(** The router's default matcher on a route without parameters: the
    route's segments must open the URL (and be all of it under
    [pathMatch: 'full']); what is left of the URL is returned. *)
Definition consume (r : route) (url : list string) : option (list string) :=
  let parts := segments (path r) in
  if Nat.ltb (length url) (length parts) then None
  else if match pathMatch r with
          | Some full => Nat.ltb (length parts) (length url)
          | _ => false
          end then None
  else if same_segments parts (firstn (length parts) url)
  then Some (skipn (length parts) url)
  else None.

(** A route without children is taken only when it leaves nothing of the
    URL; the router takes the first route of the table that matches. *)
Definition accepts (url : list string) (r : route) : bool :=
  match consume r url with
  | Some [] => true
  | _ => false
  end.

Definition recognize (table : list route) (url : list string) : option route :=
  List.find (accepts url) table.

(** The router follows at most this many redirects in one navigation. *)
Definition MAX_ALLOWED_REDIRECTS : nat := 31.

(** The component that a URL leads to: the matched route's component, or
    what the target of its redirect leads to. *)
Fixpoint navigate (fuel : nat) (table : list route) (url : list string) : option component :=
  match recognize table url with
  | None => None
  | Some r =>
    match redirectTo r with
    | Some target =>
      match fuel with
      | O => None
      | S fuel' => navigate fuel' table (segments target)
      end
    | None => component_of r
    end
  end.

Definition page (table : list route) (url : list string) : option component :=
  navigate MAX_ALLOWED_REDIRECTS table url.

End Routes.

(** ** States of the database that the theorems speak of *)

Module Invariants.
Import Sql Schema.

(** No table of [tbls] has a foreign key into [name]. *)
Definition unreferenced (tbls : gmap string table) (name : string) : Prop :=
  forall n t, tbls !! n = Some t -> refs_to name t = [].

Definition script_def (n : string) : option table_def :=
  if String.eqb n "users" then Some users_def
  else if String.eqb n "movies" then Some movies_def
  else if String.eqb n "user_movies" then Some user_movies_def
  else if String.eqb n "user_moods" then Some user_moods_def
  else if String.eqb n "deletion_logs" then Some deletion_logs_def
  else None.

(** Every table of the database is one of the script's five and has the
    definition that the script gives it. *)
Definition script_schema (tbls : gmap string table) : Prop :=
  forall n t, tbls !! n = Some t -> script_def n = Some (t_def t).

(** The row that [after_movie_delete] stores for the deleted row [old]. *)
Definition log_row (id : Z) (clock : Z) (old : row) : row :=
  [("id", VInt id); ("user_id", row_get "user_id" old);
   ("movie_id", row_get "movie_id" old); ("deleted_at", VTime clock)].

Fixpoint log_rows (clock start : Z) (olds : list row) : list row :=
  match olds with
  | [] => []
  | old :: rest => log_row start clock old :: log_rows clock (start + 1) rest
  end.

(** What [NOT NULL] guarantees of a row of [user_movies]. *)
Definition keyed (r : row) : Prop :=
  row_get "user_id" r <> VNull /\ row_get "movie_id" r <> VNull.

(** What [AUTO_INCREMENT] guarantees of a table: the counter is above
    every [id] in use. *)
Definition numbered (t : table) : Prop :=
  forall r n, r ∈ t_rows t -> row_get "id" r = VInt n -> n < t_auto_increment t.

(** The five tables of the script, and nothing else. *)
Definition five (u m um md dl : table) : gmap string table :=
  <["users" := u]> (<["movies" := m]> (<["user_movies" := um]>
    (<["user_moods" := md]> {["deletion_logs" := dl]}))).

(** The database as [setupTestDatabase] provisions it: its five tables
    with their definitions and its one trigger. *)
Record provisioned (db : database) (u m um md dl : table) : Prop := {
  prov_tables : db_tables db = five u m um md dl;
  prov_users : t_def u = users_def;
  prov_movies : t_def m = movies_def;
  prov_user_movies : t_def um = user_movies_def;
  prov_user_moods : t_def md = user_moods_def;
  prov_deletion_logs : t_def dl = deletion_logs_def;
  prov_triggers : db_triggers db = [after_movie_delete]
}.

(** The three rows of the seed, as the table stores them. *)
Definition seeded (clock id : Z) : list row :=
  [ [("id", VInt id); ("tmdb_id", VInt 278); ("title", VStr "The Shawshank Redemption");
     ("overview", VStr "Two imprisoned men bond over a number of years.");
     ("poster_path", VStr "/path/to/poster1.jpg"); ("vote_average", VDec 93);
     ("created_at", VTime clock)];
    [("id", VInt (id + 1)); ("tmdb_id", VInt 238); ("title", VStr "The Godfather");
     ("overview", VStr "The aging patriarch of an organized crime dynasty.");
     ("poster_path", VStr "/path/to/poster2.jpg"); ("vote_average", VDec 92);
     ("created_at", VTime clock)];
    [("id", VInt (id + 2)); ("tmdb_id", VInt 155); ("title", VStr "The Dark Knight");
     ("overview", VStr "Batman raises the stakes in his war on crime.");
     ("poster_path", VStr "/path/to/poster3.jpg"); ("vote_average", VDec 90);
     ("created_at", VTime clock)] ].

(** The table of [deletion_logs] after every row of [um] has been deleted
    by a [DELETE]. *)
Definition logged (clock : Z) (um dl : table) : table :=
  {| t_def := deletion_logs_def;
     t_rows := t_rows dl ++ log_rows clock (t_auto_increment dl) (t_rows um);
     t_auto_increment := t_auto_increment dl + Z.of_nat (length (t_rows um)) |}.

(** [CREATE TABLE IF NOT EXISTS] on the map of tables. *)
Definition ensure (n : string) (t : table) (tbls : gmap string table) : gmap string table :=
  match tbls !! n with Some _ => tbls | None => <[n := t]> tbls end.

Definition parents_exist (tbls : gmap string table) (n : string) (d : table_def) : Prop :=
  forall fk, fk ∈ td_foreign_keys d -> fk_ref_table fk = n \/ is_Some (tbls !! fk_ref_table fk).

Definition off_table (n : string) (trgs : list trigger) : list trigger :=
  List.filter (fun g => negb (String.eqb (trg_table g) n)) trgs.

(** Every trigger of the database is on a table of the database. *)
Definition triggers_placed (db : database) : Prop :=
  forall g, g ∈ db_triggers db -> is_Some (db_tables db !! trg_table g).

(** The tables after the third query of the script, step by step. *)
Definition recreated (tbls : gmap string table) : gmap string table :=
  ensure "deletion_logs" (new_table deletion_logs_def)
    (ensure "user_moods" (new_table user_moods_def)
      (<["user_movies" := new_table user_movies_def]>
        (<["movies" := new_table movies_def]>
          (delete "movies" (delete "user_movies"
            (ensure "users" (new_table users_def) tbls)))))).

(** The triggers that the third query does not drop with their tables. *)
Definition kept_triggers (db : database) : list trigger :=
  off_table "movies" (off_table "user_movies" (db_triggers db)).

Definition name_taken (db : database) : bool :=
  existsb (fun h => String.eqb (trg_name h) "after_movie_delete") (kept_triggers db).

Definition recreated_db (db : database) (trgs : list trigger) : database :=
  {| db_collation := db_collation db;
     db_tables := recreated (db_tables db);
     db_triggers := trgs |}.

(** A statement on tables, on the selected database alone. *)
Definition db_stmt (clock : Z) (st : stmt) (db : database) : res (answer * database) :=
  match st with
  | CreateTable i n d => finish (create_table db i n d)
  | DropTable i n => finish (drop_table db i n)
  | CreateTrigger g => finish (create_trigger db g)
  | DeleteFrom n w => finish (delete_from clock db n w)
  | InsertInto n cols rows =>
    tbls <- insert_rows (db_collation db) clock (db_tables db) n cols rows;;
    Ok (Done, {| db_collation := db_collation db; db_tables := tbls;
                 db_triggers := db_triggers db |})
  | SelectAll n =>
    t <- from_option ER_NO_SUCH_TABLE (db_tables db !! n);;
    Ok (Rows (t_rows t), db)
  | _ => Ok (Done, db)
  end.

Definition on_tables (st : stmt) : Prop :=
  match st with CreateDatabase _ _ | Use _ => False | _ => True end.

Fixpoint db_batch (clock : Z) (sts : list stmt) (db : database)
    : res (list answer) * database :=
  match sts with
  | [] => (Ok [], db)
  | st :: rest =>
    match db_stmt clock st db with
    | Err e => (Err e, db)
    | Ok (a, db') =>
      let '(r, db'') := db_batch clock rest db' in
      (match r with Ok l => Ok (a :: l) | Err e => Err e end, db'')
    end
  end.

(** The statements that name [deletion_logs] as the table to drop or to
    delete from; the script has none. *)
Definition spares_logs (st : stmt) : Prop :=
  match st with
  | DropTable _ n | DeleteFrom n _ => n <> "deletion_logs"
  | _ => True
  end.

(** [deletion_logs], when it has no foreign key, is still there afterwards,
    with the same definition and with its old rows first. *)
Definition logs_kept (tbls tbls' : gmap string table) : Prop :=
  forall t, tbls !! "deletion_logs" = Some t -> td_foreign_keys (t_def t) = [] ->
    exists t', tbls' !! "deletion_logs" = Some t' /\ t_def t' = t_def t /\
               t_rows t `prefix_of` t_rows t'.

Definition logs_kept_on (sv sv' : server) : Prop :=
  forall db, databases sv !! app_db = Some db ->
    exists db', databases sv' !! app_db = Some db' /\
                logs_kept (db_tables db) (db_tables db').

(** The database holds nothing but what the script itself puts there:
    tables of the script, no trigger but the script's own (which sits on
    [user_movies]), and a [deletion_logs] whose counter is ahead of its
    rows. *)
Definition script_state (db : database) : Prop :=
  script_schema (db_tables db) /\
  (forall g, g ∈ db_triggers db ->
     g = after_movie_delete /\ is_Some (db_tables db !! "user_movies")) /\
  (forall t, db_tables db !! "deletion_logs" = Some t -> numbered t).

Definition script_state_on (sv : server) : Prop :=
  forall db, databases sv !! app_db = Some db -> script_state db.

(** The application's database after a run of [setupTestDatabase] in which
    nothing failed, in terms of the server [sv] that the run found: the
    users other than the test users, the three movies numbered from 1, no
    association, no mood, and the deletion log as it was. *)
Definition reset_database (sv : server) : database :=
  let co := match databases sv !! app_db with
            | Some db => db_collation db
            | None => default_collation sv
            end in
  let old := match databases sv !! app_db with
             | Some db => db_tables db
             | None => ∅
             end in
  let u := default (new_table users_def) (old !! "users") in
  {| db_collation := co;
     db_tables :=
       five (with_rows u (List.filter
                (fun r => negb (like co "testuser%" (row_get "username" r))) (t_rows u)))
            {| t_def := movies_def; t_rows := seeded (now sv) 1; t_auto_increment := 4 |}
            (new_table user_movies_def)
            (with_rows (default (new_table user_moods_def) (old !! "user_moods")) [])
            (default (new_table deletion_logs_def) (old !! "deletion_logs"));
     db_triggers := [after_movie_delete] |}.

(** The rows of a table of a database. *)
Definition rows_of (name : string) (db : database) : list row :=
  match db_tables db !! name with
  | Some t => t_rows t
  | None => []
  end.

(** Between [db] and [db'], as many rows have come to [deletion_logs] as
    have left [user_movies]. *)
Definition audited (db db' : database) : Prop :=
  (length (rows_of "deletion_logs" db') + length (rows_of "user_movies" db') =
   length (rows_of "deletion_logs" db) + length (rows_of "user_movies" db))%nat.

End Invariants.

(** ** Specifications of script code *)

Module Hoare.
Import Sql Schema Invariants Script.

(** From a state in [P], [m] returns [a] into a state in [Q a], or throws
    [e] into a state in [E e]. *)
Definition triple {S A} (P : S -> Prop) (m : M S A)
    (Q : A -> S -> Prop) (E : exn -> S -> Prop) : Prop :=
  forall s, P s ->
    match m s with
    | (Return a, s') => Q a s'
    | (Throw e, s') => E e s'
    end.

(** The calls to the database of a run of [setupTestDatabase] in which
    nothing fails, on connection [id]. *)
Definition plan (id : nat) (cfg : conn_config) : list db_event :=
  [ Connect cfg (Some id);
    Query id create_database_sql;
    Query id use_sql;
    Query id create_tables_sql;
    Query id clear_sql;
    Query id insert_movies_sql;
    Query id select_movies_sql ].

(** What no call to the database changes. *)
Definition same_outside (w0 w : world) : Prop :=
  env w = env w0 /\ api w = api w0 /\ sent w = sent w0 /\ date_now w = date_now w0.

(** The state of [setupTestDatabase], started in [w0], before it connects. *)
Definition unconnected (w0 : world) (s : option nat * world) : Prop :=
  fst s = None /\ db_log (snd s) = db_log w0 /\ sessions (snd s) = sessions w0 /\
  next_conn (snd s) = next_conn w0 /\ mysqld (snd s) = mysqld w0 /\
  same_outside w0 (snd s).

(** Its state when the connection was refused. *)
Definition refused (w0 : world) (w : world) : Prop :=
  db_log w = (db_log w0 ++ [Connect (connection_config w0) None])%list /\
  sessions w = sessions w0 /\ next_conn w = next_conn w0 /\
  mysqld w = mysqld w0 /\ same_outside w0 w.

(** Its state after the first [k] calls of the plan, the connection open
    and held in the local variable. *)
Definition connected (w0 : world) (k : nat) (s : option nat * world) : Prop :=
  fst s = Some (next_conn w0) /\
  db_log (snd s) = (db_log w0 ++ take k (plan (next_conn w0) (connection_config w0)))%list /\
  delete (next_conn w0) (sessions (snd s)) = delete (next_conn w0) (sessions w0) /\
  next_conn (snd s) = S (next_conn w0) /\
  same_outside w0 (snd s) /\
  logs_kept_on (mysqld w0) (mysqld (snd s)).

(** Its state after the connection was closed. *)
Definition closed (w0 : world) (k : nat) (w : world) : Prop :=
  db_log w = (db_log w0 ++ take k (plan (next_conn w0) (connection_config w0))
                        ++ [EndConnection (next_conn w0)])%list /\
  sessions w = delete (next_conn w0) (sessions w0) /\
  next_conn w = S (next_conn w0) /\
  same_outside w0 w /\
  logs_kept_on (mysqld w0) (mysqld w).

(** The state of a run without failures from outside: connection [id] is
    open with session [ss], the local variable holds it, and the server
    is [sv]. *)
Definition at_server (id : nat) (ss : session) (sv : server)
    (s : option nat * world) : Prop :=
  fst s = Some id /\ faults (snd s) = [] /\
  sessions (snd s) !! id = Some ss /\ mysqld (snd s) = sv.

(** The same run before it connects. *)
Definition ready (w0 : world) (s : option nat * world) : Prop :=
  fst s = None /\ faults (snd s) = [] /\ mysqld (snd s) = mysqld w0 /\
  next_conn (snd s) = next_conn w0.

(** Its state when its [try] block has thrown. *)
Definition failing (w0 : world) (s : option nat * world) : Prop :=
  (fst s = None /\ refused w0 (snd s)) \/
  exists k, (1 <= k <= 7)%nat /\ connected w0 k s.

(** How a run of [setupTestDatabase] from [w0] ends: with [false] and the
    connection refused, or with the connection closed after [k] calls of
    the plan, all seven of them when it ends with [true]. *)
Definition finished (w0 : world) (b : bool) (w : world) : Prop :=
  (b = false /\ refused w0 w) \/
  exists k, (1 <= k <= 7)%nat /\ (b = true -> k = 7%nat) /\ closed w0 k w.

(** *** [testAPI] *)

(** The error with which axios rejects a request, if it does. *)
Definition rejection (o : http_outcome) (r : request) : option exn :=
  match o with
  | Answer rsp =>
    if ((200 <=? status rsp) && (status rsp <? 300))%Z then None
    else Some (AxiosError ("Request failed with status code " ++ string_of_Z (status rsp))
                          (Some rsp) r)
  | NoAnswer msg => Some (AxiosError msg None r)
  end.

(** The service, having received [hist], answers each of [reqs] in turn
    with a 2xx response. *)
Fixpoint answered (f : list request -> request -> http_outcome)
    (hist reqs : list request) : Prop :=
  match reqs with
  | [] => True
  | r :: rest => rejection (f hist r) r = None /\ answered f (hist ++ [r])%list rest
  end.

(** The heading under which [testAPI] reports the error it caught. *)
Definition report_heading : string := nl ++ "Test failed:".

(** The state of [testAPI], started in [w1], after it has sent [reqs]: it
    has touched nothing but the list of requests and the console, and has
    reported no error. *)
Definition trail (w1 : world) (reqs : list request) (w : world) : Prop :=
  sent w = (sent w1 ++ reqs)%list /\
  (exists entries, console w = (console w1 ++ entries)%list /\
                   Forall (fun en => text en <> report_heading) entries) /\
  api w = api w1 /\ date_now w = date_now w1 /\ env w = env w1 /\
  mysqld w = mysqld w1 /\ faults w = faults w1 /\ sessions w = sessions w1 /\
  next_conn w = next_conn w1 /\ db_log w = db_log w1.

Definition testing (w1 : world) (reqs : list request) (w : world) : Prop :=
  trail w1 reqs w /\ answered (api w1) (sent w1) reqs.

(** Its state when [r], sent after [pre], was rejected with [e]. *)
Definition rejected (w1 : world) (pre : list request) (r : request) (e : exn)
    (w : world) : Prop :=
  trail w1 (pre ++ [r]) w /\ answered (api w1) (sent w1) pre /\
  rejection (api w1 (sent w1 ++ pre)%list r) r = Some e.

(** The requests of a run of [testAPI] in which nothing fails, for the
    user id [userId] that the service returned and the first movie [movie]
    of its list. *)
Definition scenario (t : Z) (userId movie : json) : list request :=
  let username := "testuser_" ++ string_of_Z t in
  let testUser := JObj [("username", JStr username); ("password", JStr "password123")] in
  let user := API_URL ++ "/user/" ++ to_string userId in
  [ Request "post" (API_URL ++ "/users") testUser;
    Request "post" (API_URL ++ "/login") testUser;
    Request "get" (API_URL ++ "/users") JUndefined;
    Request "get" (API_URL ++ "/movies") JUndefined;
    Request "post" (user ++ "/movies")
      (JObj [("movieId", prop movie "tmdb_id");
             ("movieDetails",
              JObj [("title", prop movie "title");
                    ("overview", js_or (prop movie "overview") (JStr ""));
                    ("poster_path", js_or (prop movie "poster_path") (JStr ""));
                    ("vote_average", js_or (prop movie "vote_average") (JNum 0))])]);
    Request "get" (user ++ "/movies") JUndefined;
    Request "delete" (user ++ "/movies/1") JUndefined;
    Request "get" (user ++ "/movies") JUndefined;
    Request "put" (user ++ "/password") (JObj [("newPassword", JStr "newpassword456")]);
    Request "post" (API_URL ++ "/login")
      (JObj [("username", JStr username); ("password", JStr "newpassword456")]) ].

(** The scenario in the words of the specification: create the user, log
    in, list the movies, add the first to the user, fetch the user's list,
    delete the association with movie 1, fetch the list again, update the
    password, log in with the new password, log in with the old one. *)
Definition specified_scenario (t : Z) (userId movie : json) : list request :=
  let username := "testuser_" ++ string_of_Z t in
  let testUser := JObj [("username", JStr username); ("password", JStr "password123")] in
  let user := API_URL ++ "/user/" ++ to_string userId in
  [ Request "post" (API_URL ++ "/users") testUser;
    Request "post" (API_URL ++ "/login") testUser;
    Request "get" (API_URL ++ "/movies") JUndefined;
    Request "post" (user ++ "/movies")
      (JObj [("movieId", prop movie "tmdb_id");
             ("movieDetails",
              JObj [("title", prop movie "title");
                    ("overview", js_or (prop movie "overview") (JStr ""));
                    ("poster_path", js_or (prop movie "poster_path") (JStr ""));
                    ("vote_average", js_or (prop movie "vote_average") (JNum 0))])]);
    Request "get" (user ++ "/movies") JUndefined;
    Request "delete" (user ++ "/movies/1") JUndefined;
    Request "get" (user ++ "/movies") JUndefined;
    Request "put" (user ++ "/password") (JObj [("newPassword", JStr "newpassword456")]);
    Request "post" (API_URL ++ "/login")
      (JObj [("username", JStr username); ("password", JStr "newpassword456")]);
    Request "post" (API_URL ++ "/login") testUser ].

(** In a run from [w1] that sent [reqs], request number [k] got the
    response [rsp]. *)
Definition returned (w1 : world) (reqs : list request) (k : nat) (rsp : response) : Prop :=
  exists r, reqs !! k = Some r /\ api w1 (sent w1 ++ take k reqs)%list r = Answer rsp.

(** The state in which its [try] block returns: the whole scenario was
    sent and answered, for the user id of the first response and the first
    movie of the fourth. *)
Definition completed (w1 : world) (w : world) : Prop :=
  exists r1 r4,
    let reqs := scenario (date_now w1) (prop (data r1) "userId") (first (data r4)) in
    returned w1 reqs 0 r1 /\ returned w1 reqs 3 r4 /\ testing w1 reqs w.

(** Its state when its [try] block has thrown [e]: a read of a property of
    [undefined] or [null] between two requests, or a rejected request. *)
Definition broken (w1 : world) (e : exn) (w : world) : Prop :=
  (exists reqs m, e = TypeError m /\ testing w1 reqs w) \/
  (exists pre r, rejected w1 pre r e w).

(** The world in which [runTests] calls [setupTestDatabase]: [w] with the
    first line on the console. *)
Definition announced (w : world) : world :=
  snd (console_log "Setting up test database..." [] w).

(** The report of an error of axios, field by field. *)
Definition axios_report (message : string) (resp : option response) (r : request) : json :=
  JObj [("message",
         js_or (match resp with Some x => opt (data x) "message" | None => JUndefined end)
               (JStr message));
        ("status", match resp with Some x => JNum (status x) | None => JUndefined end);
        ("endpoint", JStr (req_url r));
        ("method", JStr (req_method r));
        ("data", req_data r)].

End Hoare.

(** ** Concrete states *)

Module Examples.
Import Sql Schema Invariants Script Hoare Routes.

Definition alice : row :=
  [("id", VInt 1); ("username", VStr "alice"); ("password", VStr "secret");
   ("created_at", VTime 0)].

Definition tester : row :=
  [("id", VInt 2); ("username", VStr "TestUser_1"); ("password", VStr "password123");
   ("created_at", VTime 0)].

(** User 1 has saved movie 1. *)
Definition saved : row :=
  [("user_id", VInt 1); ("movie_id", VInt 1); ("created_at", VTime 0)].

Definition example_users : table :=
  {| t_def := users_def; t_rows := [alice; tester]; t_auto_increment := 3 |}.

Definition example_movies : table :=
  {| t_def := movies_def; t_rows := seeded 0 1; t_auto_increment := 4 |}.

Definition example_user_movies : table :=
  {| t_def := user_movies_def; t_rows := [saved]; t_auto_increment := 1 |}.

(** A provisioned database in use: two users, the three movies, one
    association, nothing logged yet. *)
Definition example_db : database :=
  {| db_collation := CaseInsensitive;
     db_tables := five example_users example_movies example_user_movies
                       (new_table user_moods_def) (new_table deletion_logs_def);
     db_triggers := [after_movie_delete] |}.

(** [example_db] after [DELETE FROM user_movies]: the association is
    gone and logged. *)
Definition logged_db : database :=
  {| db_collation := CaseInsensitive;
     db_tables := five example_users example_movies
                       {| t_def := user_movies_def; t_rows := []; t_auto_increment := 1 |}
                       (new_table user_moods_def)
                       {| t_def := deletion_logs_def;
                          t_rows := [log_row 1 5 saved];
                          t_auto_increment := 2 |};
     db_triggers := [after_movie_delete] |}.

Definition example_server : server :=
  {| databases := {[ app_db := example_db ]};
     default_collation := CaseInsensitive;
     now := 5 |}.

(** The same database with a trigger of the script's name on [users]. *)
Definition squatter : trigger :=
  {| trg_name := "after_movie_delete";
     trg_table := "users";
     trg_into := "deletion_logs";
     trg_columns := ["user_id"; "movie_id"];
     trg_values := [EOld "id"; EConst (VInt 0)] |}.

Definition squatted_db : database :=
  {| db_collation := CaseInsensitive;
     db_tables := db_tables example_db;
     db_triggers := [squatter] |}.

Definition example_movie : json :=
  JObj [("id", JNum 1); ("tmdb_id", JNum 278); ("title", JStr "The Shawshank Redemption");
        ("overview", JStr "Two imprisoned men bond over a number of years.");
        ("poster_path", JStr "/path/to/poster1.jpg"); ("vote_average", JStr "9.3")].

(** A service that accepts every request: it numbers the new user 7, lists
    one movie, and shows every user's list as empty. *)
Definition example_api (hist : list request) (r : request) : http_outcome :=
  if String.eqb (req_url r) (API_URL ++ "/users") && String.eqb (req_method r) "post"
  then Answer {| status := 201; data := JObj [("userId", JNum 7)] |}
  else if String.eqb (req_url r) (API_URL ++ "/movies")
  then Answer {| status := 200; data := JArr [example_movie] |}
  else if String.eqb (req_method r) "get"
  then Answer {| status := 200; data := JArr [] |}
  else Answer {| status := 200; data := JObj [("message", JStr "ok")] |}.

Definition world_on (sv : server) : world :=
  {| env := ∅; mysqld := sv; faults := []; sessions := ∅; next_conn := 0;
     db_log := []; api := example_api; sent := []; date_now := 1700000000000;
     console := [] |}.

(** A server on which the script has never run. *)
Definition new_server : server :=
  {| databases := ∅; default_collation := CaseInsensitive; now := 5 |}.

Definition fresh_world : world := world_on new_server.

(** The world after one whole run of the script. *)
Definition second_world : world := world_on (mysqld (snd (runTests fresh_world))).

(** A world whose database has the squatting trigger. *)
Definition squatted_world : world :=
  world_on {| databases := {[ app_db := squatted_db ]};
              default_collation := CaseInsensitive;
              now := 5 |}.

Definition reversed_routes : list route := rev routes.

End Examples.

(** ** Rows and states of the further properties *)

Module Further.
Import Sql Schema Invariants Script Hoare Examples.

(** The row that [INSERT INTO users (username, password)] stores. *)
Definition user_row (id : Z) (name pw : string) (clock : Z) : row :=
  [("id", VInt id); ("username", VStr name); ("password", VStr pw);
   ("created_at", VTime clock)].

(** The row that [INSERT INTO user_movies (user_id, movie_id)] stores. *)
Definition association (uid mid clock : Z) : row :=
  [("user_id", VInt uid); ("movie_id", VInt mid); ("created_at", VTime clock)].

(** The row that [INSERT INTO movies (title, tmdb_id)] stores. *)
Definition movie_row (id : Z) (tmdb : value) (title : string) (clock : Z) : row :=
  [("id", VInt id); ("tmdb_id", tmdb); ("title", VStr title); ("overview", VNull);
   ("poster_path", VNull); ("vote_average", VNull); ("created_at", VTime clock)].

(** A row of [table] has the number [n] in column [c]. *)
Definition has_number (co : collation) (c : string) (n : Z) (t : table) : bool :=
  existsb (fun r => sql_eqb co (VInt n) (row_get c r)) (t_rows t).

(** [user_movies] holds the pair of user [uid] and movie [mid]. *)
Definition paired (co : collation) (uid mid : Z) (um : table) : bool :=
  existsb (fun r => sql_eqb co (VInt uid) (row_get "user_id" r) &&
                    sql_eqb co (VInt mid) (row_get "movie_id" r)) (t_rows um).

(** The lines that [setupTestDatabase], started in [w], prints up to its
    last query. *)
Definition setup_lines (w : world) : list entry :=
  [ Entry LOG "Attempting to connect to MySQL..." [];
    Entry LOG "Using host:" [JStr (env_or "DB_HOST" "localhost" w)];
    Entry LOG "Using user:" [JStr (env_or "DB_USER" "root" w)];
    Entry LOG "Successfully connected to MySQL" [];
    Entry LOG "Creating database if it doesn't exist..." [];
    Entry LOG "Switching to movie_recommendation_app database..." [];
    Entry LOG "Creating tables..." [];
    Entry LOG "Clearing existing test data..." [];
    Entry LOG "Inserting test movies..." [] ].

(** The two lines that follow them when every query has succeeded. *)
Definition success_lines (movies : json) : list entry :=
  [ Entry LOG "Inserted movies:" [movies];
    Entry LOG "Database setup completed successfully" [] ].

(** The hint that the [catch] block adds for the two codes it knows. *)
Definition hint (c : err_code) : list entry :=
  match c with
  | ER_ACCESS_DENIED_ERROR =>
    [Entry ERROR "Access denied. Please check your MySQL username and password in .env file" []]
  | ECONNREFUSED =>
    [Entry ERROR "Connection refused. Please check if MySQL is running" []]
  | _ => []
  end.

(** What the [catch] block prints for an error with code [c]. *)
Definition error_lines (c : err_code) : list entry :=
  Entry ERROR "Detailed database setup error:" [JObj [("code", JStr (code_name c))]] :: hint c.

(** How many of the [setup_lines] are on the console when call number [k]
    to the database is made: the attempt to connect is call 1, the six
    queries are calls 2 to 7. *)
Definition lines_before (k : nat) : nat :=
  match k with
  | 0 => 0 | 1 => 3 | 2 => 5 | 3 => 6 | 4 => 7 | 5 => 8 | _ => 9
  end%nat.

(** *** The account of a run of [setupTestDatabase] *)

(** The failure that the schedule of faults holds for the next call. *)
Definition fault_at (fs : list (option err_code)) : option err_code :=
  match fs with
  | Some e :: _ => Some e
  | _ => None
  end.

(** The six queries, in the order of the script. *)
Definition queries : list (list stmt) :=
  [ create_database_sql; use_sql; create_tables_sql; clear_sql; insert_movies_sql;
    select_movies_sql ].

(** What became of a sequence of queries: how many of them were sent, the
    error of the last of these if it failed, the answers of the last that
    succeeded, and the session and the server in the end. *)
Record account := Account {
  acc_queries : nat;
  acc_failure : option err_code;
  acc_answers : list answer;
  acc_session : session;
  acc_server : server
}.

(** The queries [qs] are sent one after the other until one fails, from
    outside (the schedule [fs]) or on the server. *)
Fixpoint run (qs : list (list stmt)) (fs : list (option err_code)) (ss : session)
    (sv : server) (last : list answer) : account :=
  match qs with
  | [] => Account 0 None last ss sv
  | q :: qs' =>
    match fault_at fs with
    | Some e => Account 1 (Some e) last ss sv
    | None =>
      match exec_batch q ss sv with
      | (Err e, ss', sv') => Account 1 (Some e) last ss' sv'
      | (Ok l, ss', sv') =>
        let a := run qs' (tail fs) ss' sv' l in
        Account (S (acc_queries a)) (acc_failure a) (acc_answers a)
                (acc_session a) (acc_server a)
      end
    end
  end.

(** The account of the six queries of a run that starts in [w] and gets
    its connection. *)
Definition setup_account (w : world) : account :=
  run queries (tail (faults w)) {| current_db := None |} (mysqld w) [].

(** What such a run prints. *)
Definition account_lines (w : world) (a : account) : list entry :=
  match acc_failure a with
  | None => setup_lines w ++ success_lines (results (acc_answers a))
  | Some c => take (lines_before (S (acc_queries a))) (setup_lines w) ++ error_lines c
  end.

(** The account [a] of some queries, [k] others having gone before. *)
Definition later (k : nat) (a : account) : account :=
  Account (k + acc_queries a) (acc_failure a) (acc_answers a) (acc_session a) (acc_server a).

(** A state of [setupTestDatabase], started in [w0]: the local variable,
    the calls made, the sessions, the next connection, the server, the
    schedule of faults and the lines printed. *)
Definition amid (w0 : world) (c : option nat) (log : list db_event) (ss : gmap nat session)
    (n : nat) (sv : server) (fs : list (option err_code)) (entries : list entry)
    (s : option nat * world) : Prop :=
  fst s = c /\ db_log (snd s) = (db_log w0 ++ log)%list /\
  sessions (snd s) = ss /\ next_conn (snd s) = n /\
  mysqld (snd s) = sv /\ faults (snd s) = fs /\
  console (snd s) = (console w0 ++ entries)%list /\
  same_outside w0 (snd s).

(** Its state before it connects, and after the connection was refused
    ([log] then holds the refused attempt). *)
Definition off_line (w0 : world) (log : list db_event) (fs : list (option err_code))
    (entries : list entry) (s : option nat * world) : Prop :=
  amid w0 None log (sessions w0) (next_conn w0) (mysqld w0) fs entries s.

(** Its state after [k] calls of the plan that have left the session [ss],
    the server [sv] and the schedule [fs]. *)
Definition at_call (w0 : world) (c : option nat) (k : nat) (ss : session) (sv : server)
    (fs : list (option err_code)) (entries : list entry) (s : option nat * world) : Prop :=
  amid w0 c (take k (plan (next_conn w0) (connection_config w0)))
       (<[next_conn w0 := ss]> (sessions w0)) (S (next_conn w0)) sv fs entries s.

(** Its state after the connection and [k] queries, the last of which
    returned [last]: what is still to come completes the account. *)
Definition querying (w0 : world) (k : nat) (last : list answer) (entries : list entry)
    (s : option nat * world) : Prop :=
  fault_at (faults w0) = None /\
  exists ss sv fs,
    at_call w0 (Some (next_conn w0)) (S k) ss sv fs entries s /\
    setup_account w0 = later k (run (drop k queries) fs ss sv last).

(** Its state when its [try] block has thrown [e], and then printed
    [suffix]: the connection was refused with the code that [e] carries, or
    the last query of the account failed with that code. *)
Definition halted (w0 : world) (suffix : list entry) (e : exn)
    (s : option nat * world) : Prop :=
  match fault_at (faults w0) with
  | Some c =>
    e = DbError c /\
    off_line w0 [Connect (connection_config w0) None] (tail (faults w0))
             (take 3 (setup_lines w0) ++ suffix) s
  | None =>
    let a := setup_account w0 in
    exists c fs,
      e = DbError c /\ acc_failure a = Some c /\
      at_call w0 (Some (next_conn w0)) (S (acc_queries a)) (acc_session a) (acc_server a) fs
              (take (lines_before (S (acc_queries a))) (setup_lines w0) ++ suffix) s
  end.

(** How a run of [setupTestDatabase] from [w] ends, in terms of its
    account: what it returns, the calls it has made, the sessions, the
    server and the console. *)
Definition accounted (w : world) (b : bool) (w' : world) : Prop :=
  let id := next_conn w in
  let cfg := connection_config w in
  same_outside w w' /\
  match fault_at (faults w) with
  | Some c =>
    b = false /\
    db_log w' = (db_log w ++ [Connect cfg None])%list /\
    sessions w' = sessions w /\ mysqld w' = mysqld w /\
    console w' = (console w ++ take 3 (setup_lines w) ++ error_lines c)%list
  | None =>
    let a := setup_account w in
    b = match acc_failure a with Some _ => false | None => true end /\
    db_log w' = (db_log w ++ take (S (acc_queries a)) (plan id cfg) ++ [EndConnection id])%list /\
    sessions w' = delete id (sessions w) /\ mysqld w' = acc_server a /\
    console w' = (console w ++ account_lines w a)%list
  end.

(** The application's database as the first query of the script leaves
    it: the one that the server [sv] had, or a new one. *)
Definition found (sv : server) : database :=
  default (new_database (default_collation sv)) (databases sv !! app_db).

(** The users that [DELETE FROM users WHERE username LIKE 'testuser%']
    leaves of the users of [sv]. *)
Definition other_users (sv : server) : list row :=
  List.filter (fun r => negb (like (db_collation (found sv)) "testuser%" (row_get "username" r)))
              (rows_of "users" (found sv)).

(** The application's database as the fourth query leaves it, on a server
    that held nothing but what the script puts there. *)
Definition cleared_database (sv : server) : database :=
  let u := default (new_table users_def) (db_tables (found sv) !! "users") in
  {| db_collation := db_collation (found sv);
     db_tables :=
       five (with_rows u (other_users sv))
            (new_table movies_def)
            (new_table user_movies_def)
            (with_rows (default (new_table user_moods_def)
                                (db_tables (found sv) !! "user_moods")) [])
            (default (new_table deletion_logs_def) (db_tables (found sv) !! "deletion_logs"));
     db_triggers := [after_movie_delete] |}.

(** *** [testAPI] *)

Definition accepted (rsp : response) : bool :=
  ((200 <=? status rsp) && (status rsp <? 300))%Z.

(** The service of [w], having received [pre] after the requests sent
    before, answers [r] with the 2xx response [rsp]. *)
Definition replied (w : world) (pre : list request) (r : request) (rsp : response) : Prop :=
  api w (sent w ++ pre)%list r = Answer rsp /\ accepted rsp = true.

(** The service [f], having received [hist], answers the requests [reqs]
    in turn with the 2xx responses [rs]. *)
Fixpoint replies (f : list request -> request -> http_outcome)
    (hist reqs : list request) (rs : list response) : Prop :=
  match reqs, rs with
  | [], [] => True
  | r :: reqs', rsp :: rs' =>
    f hist r = Answer rsp /\ accepted rsp = true /\ replies f (hist ++ [r])%list reqs' rs'
  | _, _ => False
  end.

(** An array has an element whose [id] is the number [n]. *)
Definition has_id (n : Z) (v : json) : bool :=
  match v with
  | JArr l => existsb (fun m => is_number (prop m "id") n) l
  | _ => false
  end.

(** The body of response number [i], counted from 0. *)
Definition shown (rs : list response) (i : nat) : json :=
  match rs !! i with Some r => data r | None => JUndefined end.

(** What a run of [testAPI] in which nothing throws prints, given the
    responses to its ten requests. *)
Definition transcript (rs : list response) : list entry :=
  [ Entry LOG (nl ++ "=== Starting API Tests ===" ++ nl) [];
    Entry LOG "1. Testing user creation..." [];
    Entry LOG "User created:" [shown rs 0];
    Entry LOG (nl ++ "2. Testing login...") [];
    Entry LOG "Login successful:" [shown rs 1];
    Entry LOG (nl ++ "3. Testing get users...") [];
    Entry LOG "Users retrieved:" [shown rs 2];
    Entry LOG (nl ++ "4. Testing get all movies...") [];
    Entry LOG "Available movies:" [shown rs 3];
    Entry LOG (nl ++ "5. Testing adding movie to user...") [];
    Entry LOG "Movie added:" [shown rs 4];
    Entry LOG (nl ++ "6. Testing get user movies...") [];
    Entry LOG "User movies:" [shown rs 5];
    Entry LOG (nl ++ "6. Testing delete movie from user...") [];
    Entry LOG "Movie deleted:" [shown rs 6];
    Entry LOG "Updated user movies list:" [shown rs 7];
    (if has_id 1 (shown rs 7)
     then Entry ERROR "Test failed: Movie was not deleted." []
     else Entry LOG "Test passed: Movie successfully deleted." []);
    Entry LOG (nl ++ "8. Testing update user password...") [];
    Entry LOG "Password updated:" [shown rs 8];
    Entry LOG (nl ++ "9. Testing login with updated password...") [];
    Entry LOG "Login with updated password successful:" [shown rs 9];
    Entry LOG (nl ++ "=== All tests completed successfully ===") [] ].

(** The state of [testAPI], started in [w1], after it has sent [reqs] and
    printed [entries]. *)
Definition told (w1 : world) (reqs : list request) (entries : list entry) (w : world) : Prop :=
  sent w = (sent w1 ++ reqs)%list /\ console w = (console w1 ++ entries)%list /\
  api w = api w1 /\ date_now w = date_now w1.

(** The first [n] requests of the scenario of [testAPI], started in [w1],
    for the responses [rs] that it has had. *)
Definition upto (w1 : world) (n : nat) (rs : list response) : list request :=
  take n (scenario (date_now w1) (prop (shown rs 0) "userId") (first (shown rs 3))).

(** None of [entries] is the report of an error. *)
Definition unreported (entries : list entry) : Prop :=
  Forall (fun en => text en <> report_heading) entries.

(** The state of [testAPI], started in [w1], after it has sent the first
    [n] requests of the scenario, had the responses [rs] to them, and
    printed [entries]. *)
Definition heard (w1 : world) (n : nat) (rs : list response) (entries : list entry)
    (w : world) : Prop :=
  told w1 (upto w1 n rs) entries w /\ replies (api w1) (sent w1) (upto w1 n rs) rs /\
  unreported entries.

(** Its state when its [try] block has thrown [e]: after [n] requests with
    their responses, fewer than the ten of the scenario, either the script
    has read a property of [undefined] or [null], or the next request of
    the scenario was sent and rejected; nothing else was sent. *)
Definition ended (w1 : world) (e : exn) (w : world) : Prop :=
  exists n rs entries,
    (n < 10)%nat /\ replies (api w1) (sent w1) (upto w1 n rs) rs /\ unreported entries /\
    ((exists m, e = TypeError m /\ told w1 (upto w1 n rs) entries w) \/
     (exists msg resp r,
        e = AxiosError msg resp r /\
        upto w1 (S n) rs = (upto w1 n rs ++ [r])%list /\
        rejection (api w1 (sent w1 ++ upto w1 n rs)%list r) r = Some e /\
        told w1 (upto w1 (S n) rs) entries w)).

(** The first request of [testAPI]. *)
Definition create_user_request (w : world) : request :=
  Request "post" (API_URL ++ "/users")
    (JObj [("username", JStr ("testuser_" ++ string_of_Z (date_now w)));
           ("password", JStr "password123")]).

(** Its state when its [try] block has thrown: the first request has been
    sent. *)
Definition begun (w1 : world) (s : world) : Prop :=
  exists reqs entries, told w1 (create_user_request w1 :: reqs) entries s.

(** The next three. *)
Definition login_request (w : world) : request :=
  Request "post" (API_URL ++ "/login")
    (JObj [("username", JStr ("testuser_" ++ string_of_Z (date_now w)));
           ("password", JStr "password123")]).

Definition list_users_request : request := Request "get" (API_URL ++ "/users") JUndefined.

Definition list_movies_request : request := Request "get" (API_URL ++ "/movies") JUndefined.

(** The report of a [TypeError]: a message and nothing else. *)
Definition type_error_report (message : string) : json :=
  JObj [("message", JStr message); ("status", JUndefined); ("endpoint", JUndefined);
        ("method", JUndefined); ("data", JUndefined)].

(** The server [sv] at the time [t]. *)
Definition at_time (t : Z) (sv : server) : server :=
  {| databases := databases sv; default_collation := default_collation sv; now := t |}.

(** *** Concrete states *)

Definition mood_of (id uid : Z) (mood : string) : row :=
  [("id", VInt id); ("user_id", VInt uid); ("mood", VStr mood); ("created_at", VTime 0)].

Definition example_moods : table :=
  {| t_def := user_moods_def;
     t_rows := [mood_of 1 1 "happy"; mood_of 2 2 "tense"];
     t_auto_increment := 3 |}.

(** [example_db] with a mood of each of its two users. *)
Definition moody_db : database :=
  {| db_collation := CaseInsensitive;
     db_tables := five example_users example_movies example_user_movies example_moods
                       (new_table deletion_logs_def);
     db_triggers := [after_movie_delete] |}.

(** A service as [example_api], but with no movie to list. *)
Definition empty_catalogue_api (hist : list request) (r : request) : http_outcome :=
  if String.eqb (req_url r) (API_URL ++ "/movies")
  then Answer {| status := 200; data := JArr [] |}
  else example_api hist r.

(** A service as [example_api], but whose answer to the creation of the
    user names no [userId]. *)
Definition anonymous_api (hist : list request) (r : request) : http_outcome :=
  if String.eqb (req_url r) (API_URL ++ "/users") && String.eqb (req_method r) "post"
  then Answer {| status := 201; data := JObj [("message", JStr "created")] |}
  else example_api hist r.

(** A table of another application that refers to [movies]. *)
Definition ratings_def : table_def :=
  {| td_columns :=
       [ Column "id" INT false true true false false;
         Column "movie_id" INT true false false false false;
         Column "stars" INT true false false false false ];
     td_primary_key := [];
     td_foreign_keys := [ ForeignKey "movie_id" "movies" "id" ] |}.

(** [example_db] with that table in it. *)
Definition rated_db : database :=
  {| db_collation := CaseInsensitive;
     db_tables := <["ratings" := new_table ratings_def]> (db_tables example_db);
     db_triggers := [after_movie_delete] |}.

Definition rated_world : world :=
  world_on {| databases := {[ app_db := rated_db ]};
              default_collation := CaseInsensitive;
              now := 5 |}.

(** A service as [example_api], but whose first movie has a title and a
    [tmdb_id] and nothing else. *)
Definition bare_api (hist : list request) (r : request) : http_outcome :=
  if String.eqb (req_url r) (API_URL ++ "/movies")
  then Answer {| status := 200;
                 data := JArr [JObj [("tmdb_id", JNum 155);
                                     ("title", JStr "The Dark Knight")]] |}
  else example_api hist r.

(** A service as [example_api], but whose answer to the creation of the
    user has the body [null]. *)
Definition silent_api (hist : list request) (r : request) : http_outcome :=
  if String.eqb (req_url r) (API_URL ++ "/users") && String.eqb (req_method r) "post"
  then Answer {| status := 201; data := JNull |}
  else example_api hist r.

Definition with_api (f : list request -> request -> http_outcome) (w : world) : world :=
  {| env := env w; mysqld := mysqld w; faults := faults w; sessions := sessions w;
     next_conn := next_conn w; db_log := db_log w; api := f; sent := sent w;
     date_now := date_now w; console := console w |}.

(** The world [w] with the schedule [fs] of failures from outside. *)
Definition with_faults (fs : list (option err_code)) (w : world) : world :=
  {| env := env w; mysqld := mysqld w; faults := fs; sessions := sessions w;
     next_conn := next_conn w; db_log := db_log w; api := api w; sent := sent w;
     date_now := date_now w; console := console w |}.

(** [example_server], the connection being lost at call number [k] (from
    0) of the script to the database. *)
Definition interrupted (k : nat) : world :=
  with_faults (replicate k None ++ [Some PROTOCOL_CONNECTION_LOST]) (world_on example_server).

End Further.

(** * Facts about the SQL of the script *)

Module SqlFacts.
Import Sql Schema Invariants.

#[local] Arguments String.eqb !s1 !s2 : simpl nomatch.
#[local] Arguments Z.eqb !x !y : simpl nomatch.

Lemma fold_right_fixed {A B} (f : A -> B -> B) (b : B) (l : list A) :
  (forall x, x ∈ l -> f x b = b) -> fold_right f b l = b.
Proof.
  induction l as [|x l IH]; intros H; simpl; [done|].
  rewrite IH; [apply H; left | intros y Hy; apply H; by right].
Qed.

Lemma filter_all {A} (p : A -> bool) (l : list A) :
  (forall x, x ∈ l -> p x = true) -> List.filter p l = l.
Proof.
  induction l as [|x l IH]; intros H; simpl; [done|].
  rewrite H by left. f_equal. apply IH. intros y Hy. apply H. by right.
Qed.

Lemma filter_none {A} (p : A -> bool) (l : list A) :
  (forall x, x ∈ l -> p x = false) -> List.filter p l = [].
Proof.
  induction l as [|x l IH]; intros H; simpl; [done|].
  rewrite H by left. apply IH. intros y Hy. apply H. by right.
Qed.

Lemma with_rows_same (t : table) : with_rows t (t_rows t) = t.
Proof. by destruct t. Qed.

Lemma orphaned_no_refs co parent gone t r :
  refs_to parent t = [] -> orphaned co parent gone t r = false.
Proof. unfold orphaned. by intros ->. Qed.

Lemma survivors_no_refs co parent gone t :
  refs_to parent t = [] -> survivors co parent gone t = t.
Proof.
  intros H. unfold survivors. rewrite filter_all; [apply with_rows_same|].
  intros r _. by rewrite orphaned_no_refs.
Qed.

Lemma casualties_no_refs co parent gone t :
  refs_to parent t = [] -> casualties co parent gone t = [].
Proof.
  intros H. unfold casualties. apply filter_none.
  intros r _. by apply orphaned_no_refs.
Qed.

Lemma casualties_refs co parent gone t :
  casualties co parent gone t <> [] -> refs_to parent t <> [].
Proof. intros H E. by apply H, casualties_no_refs. Qed.

Lemma cascade_unfold fuel co parent gone tbls :
  cascade (S fuel) co parent gone tbls =
  fold_right (fun w acc =>
                match snd w with
                | [] => acc
                | _ :: _ => cascade fuel co (fst w) (snd w) acc
                end)
             (survivors co parent gone <$> tbls)
             (map_to_list (casualties co parent gone <$> tbls)).
Proof. reflexivity. Qed.

Lemma survivors_unreferenced co parent gone tbls :
  unreferenced tbls parent -> survivors co parent gone <$> tbls = tbls.
Proof.
  intros H. apply map_eq. intros n. rewrite lookup_fmap.
  destruct (tbls !! n) as [t|] eqn:E; simpl; [|done].
  f_equal. apply survivors_no_refs. by eapply H.
Qed.

(** Removing rows that nothing references removes nothing else. *)
Lemma cascade_unreferenced fuel co parent gone tbls :
  unreferenced tbls parent -> cascade fuel co parent gone tbls = tbls.
Proof.
  intros H. destruct fuel as [|fuel]; [done|].
  rewrite cascade_unfold, survivors_unreferenced by done.
  apply fold_right_fixed. intros [n l] Hw. simpl.
  apply elem_of_map_to_list in Hw. rewrite lookup_fmap in Hw.
  destruct (tbls !! n) as [t|] eqn:E; simplify_eq/=.
  by rewrite casualties_no_refs by (by eapply H).
Qed.

Lemma unreferenced_fmap (f : table -> table) tbls name :
  (forall t, t_def (f t) = t_def t) ->
  unreferenced tbls name -> unreferenced (f <$> tbls) name.
Proof.
  intros Hf H n t. rewrite lookup_fmap.
  destruct (tbls !! n) as [t0|] eqn:E; intros; simplify_eq/=.
  unfold refs_to. rewrite Hf. by eapply H.
Qed.

(** One level is all there is when the tables that reference [parent] are
    themselves referenced by nothing. *)
Lemma cascade_one_level fuel co parent gone tbls :
  (forall n t, tbls !! n = Some t -> refs_to parent t <> [] -> unreferenced tbls n) ->
  cascade (S fuel) co parent gone tbls = survivors co parent gone <$> tbls.
Proof.
  intros H. rewrite cascade_unfold.
  apply fold_right_fixed. intros [n l] Hw. simpl.
  apply elem_of_map_to_list in Hw. rewrite lookup_fmap in Hw.
  destruct (tbls !! n) as [t|] eqn:E; simplify_eq/=.
  destruct (casualties co parent gone t) as [|r l] eqn:Ec; [done|].
  apply cascade_unreferenced, unreferenced_fmap; [done|].
  eapply H; [done|]. apply (casualties_refs co parent gone). by rewrite Ec.
Qed.

(** A table without foreign keys loses no row to any cascade. *)
Lemma cascade_fk_free fuel co parent gone tbls n t :
  tbls !! n = Some t -> td_foreign_keys (t_def t) = [] ->
  cascade fuel co parent gone tbls !! n = Some t.
Proof.
  revert parent gone tbls.
  induction fuel as [|fuel IH]; intros parent gone tbls Hn Hfk; [done|].
  rewrite cascade_unfold.
  induction (map_to_list (casualties co parent gone <$> tbls)) as [|[c l] ws IHws]; simpl.
  - rewrite lookup_fmap, Hn. simpl. f_equal. apply survivors_no_refs.
    unfold refs_to. by rewrite Hfk.
  - destruct l; [done|]. by apply IH.
Qed.

(** *** The tables of the script *)

Lemma script_def_cases n d :
  script_def n = Some d ->
  (n = "users" /\ d = users_def) \/ (n = "movies" /\ d = movies_def) \/
  (n = "user_movies" /\ d = user_movies_def) \/ (n = "user_moods" /\ d = user_moods_def) \/
  (n = "deletion_logs" /\ d = deletion_logs_def).
Proof.
  unfold script_def. intros H.
  repeat match type of H with
  | (if String.eqb ?a ?b then _ else _) = _ =>
    destruct (String.eqb_spec a b); [simplify_eq; tauto|]
  end.
  discriminate.
Qed.

Lemma script_refs parent n t :
  script_def n = Some (t_def t) -> refs_to parent t <> [] ->
  (n = "user_movies" /\ (parent = "users" \/ parent = "movies")) \/
  (n = "user_moods" /\ parent = "users").
Proof.
  intros Hd Hr. unfold refs_to in Hr.
  destruct (script_def_cases _ _ Hd) as [[-> E]|[[-> E]|[[-> E]|[[-> E]|[-> E]]]]];
    rewrite E in Hr; simpl in Hr; try done.
  - left. split; [done|].
    destruct (String.eqb_spec "users" parent); [subst; auto|].
    destruct (String.eqb_spec "movies" parent); [subst; auto|]. done.
  - right. split; [done|].
    destruct (String.eqb_spec "users" parent); [subst; auto|]. done.
Qed.

Lemma script_unreferenced tbls name :
  script_schema tbls -> name <> "users" -> name <> "movies" -> unreferenced tbls name.
Proof.
  intros Hs H1 H2 n t Hn.
  destruct (refs_to name t) eqn:E; [done|].
  assert (refs_to name t <> []) as Hr by (by rewrite E).
  destruct (script_refs name n t (Hs n t Hn) Hr) as [[_ [?|?]]|[_ ?]]; congruence.
Qed.

(** In the script's schema every cascade has one level. *)
Lemma script_cascade co parent gone tbls :
  script_schema tbls ->
  cascade cascade_depth co parent gone tbls = survivors co parent gone <$> tbls.
Proof.
  intros Hs. apply cascade_one_level. intros n t Hn Hr.
  destruct (script_refs parent n t (Hs n t Hn) Hr) as [[-> _]|[-> _]];
    by apply script_unreferenced.
Qed.

(** *** The audit trigger *)

Lemma fresh_id co (t : table) (r : row) :
  numbered t ->
  existsb (same_key co ["id"] (("id", VInt (t_auto_increment t)) :: r)) (t_rows t) = false.
Proof.
  intros Hn. apply not_true_is_false. intros H.
  apply existsb_exists in H as (r' & Hin & Hk).
  unfold same_key in Hk. simpl in Hk. rewrite andb_true_r in Hk.
  change (row_get "id" (("id", VInt (t_auto_increment t)) :: r)) with (VInt (t_auto_increment t)) in Hk.
  destruct (row_get "id" r') as [|n| | |] eqn:E; simpl in Hk; try done.
  apply Z.eqb_eq in Hk. subst n.
  apply list_elem_of_In in Hin. specialize (Hn r' _ Hin E). lia.
Qed.

Lemma insert_log co clock tbls t old :
  tbls !! "deletion_logs" = Some t -> t_def t = deletion_logs_def ->
  numbered t -> keyed old ->
  insert_row co clock tbls (trg_into after_movie_delete) (trg_columns after_movie_delete)
             (map (eval clock old) (trg_values after_movie_delete)) =
  Ok (<["deletion_logs" :=
         {| t_def := deletion_logs_def;
            t_rows := t_rows t ++ [log_row (t_auto_increment t) clock old];
            t_auto_increment := t_auto_increment t + 1 |}]> tbls).
Proof.
  intros Ht Hd Hn [Hu Hm].
  unfold insert_row. simpl trg_into. rewrite Ht. simpl.
  rewrite Hd. simpl.
  destruct (row_get "user_id" old) eqn:Eu; [done|..];
  destruct (row_get "movie_id" old) eqn:Em; try done;
  unfold cell; simpl;
  (rewrite fresh_id by done); simpl;
  unfold next_auto; rewrite Hd; simpl;
  unfold row_get; simpl;
  (rewrite Z.max_r by lia); unfold log_row; rewrite Eu, Em; reflexivity.
Qed.

Lemma numbered_log (t : table) clock old :
  t_def t = deletion_logs_def -> numbered t ->
  numbered {| t_def := deletion_logs_def;
              t_rows := t_rows t ++ [log_row (t_auto_increment t) clock old];
              t_auto_increment := t_auto_increment t + 1 |}.
Proof.
  intros Hd Hn r n Hr Hid. simpl in *.
  apply elem_of_app in Hr as [Hr|Hr].
  - specialize (Hn r n Hr Hid). lia.
  - apply list_elem_of_singleton in Hr. subst r.
    change (VInt (t_auto_increment t) = VInt n) in Hid. simplify_eq. lia.
Qed.

(** A [DELETE] on [user_movies] stores one row per deleted row. *)
Lemma fire_all_logs co clock olds : forall tbls t,
  tbls !! "deletion_logs" = Some t -> t_def t = deletion_logs_def ->
  numbered t -> Forall keyed olds ->
  fire_all co clock [after_movie_delete] "user_movies" olds tbls =
  Ok (<["deletion_logs" :=
         {| t_def := deletion_logs_def;
            t_rows := t_rows t ++ log_rows clock (t_auto_increment t) olds;
            t_auto_increment := t_auto_increment t + Z.of_nat (length olds) |}]> tbls).
Proof.
  unfold fire_all.
  induction olds as [|old olds IH]; intros tbls t Ht Hd Hn Hk.
  - simpl. f_equal. rewrite app_nil_r, Z.add_0_r, <- Hd.
    symmetry. apply insert_id. rewrite Ht. by destruct t.
  - apply Forall_cons in Hk as [Hk Hks].
    cbn [fold_left]. unfold fire at 2. cbn [fold_left bind].
    change (String.eqb (trg_table after_movie_delete) "user_movies") with true. cbv iota.
    rewrite (insert_log co clock tbls t old) by done.
    erewrite IH; [|apply lookup_insert_eq|done|by apply numbered_log|done].
    rewrite insert_insert_eq. cbn [t_rows t_auto_increment log_rows length].
    rewrite <- app_assoc. cbn [app]. do 3 f_equal. lia.
Qed.

(** A [DELETE] on another table runs no trigger. *)
Lemma fire_all_other co clock name olds tbls :
  name <> "user_movies" ->
  fire_all co clock [after_movie_delete] name olds tbls = Ok tbls.
Proof.
  intros Hne. unfold fire_all.
  induction olds as [|old olds IH]; [done|].
  cbn [fold_left]. unfold fire at 2. cbn [fold_left bind].
  change (trg_table after_movie_delete) with "user_movies".
  destruct (String.eqb_spec "user_movies" name); [congruence|]. apply IH.
Qed.

(** *** The provisioned database *)

Lemma five_lookup u m um md dl n t :
  five u m um md dl !! n = Some t ->
  (n = "users" /\ t = u) \/ (n = "movies" /\ t = m) \/ (n = "user_movies" /\ t = um) \/
  (n = "user_moods" /\ t = md) \/ (n = "deletion_logs" /\ t = dl).
Proof.
  unfold five. intros H.
  repeat (apply lookup_insert_Some in H as [[<- <-]|[_ H]]; [tauto|]).
  apply lookup_singleton_Some in H as [<- <-]. tauto.
Qed.

Lemma five_schema u m um md dl :
  t_def u = users_def -> t_def m = movies_def -> t_def um = user_movies_def ->
  t_def md = user_moods_def -> t_def dl = deletion_logs_def ->
  script_schema (five u m um md dl).
Proof.
  intros H1 H2 H3 H4 H5 n t Hn.
  destruct (five_lookup _ _ _ _ _ _ _ Hn) as [[-> ->]|[[-> ->]|[[-> ->]|[[-> ->]|[-> ->]]]]];
    unfold script_def; simpl; congruence.
Qed.

Lemma five_fmap (f : table -> table) u m um md dl :
  f <$> five u m um md dl = five (f u) (f m) (f um) (f md) (f dl).
Proof. unfold five. by rewrite !fmap_insert, map_fmap_singleton. Qed.

Lemma five_users u' u m um md dl :
  <["users" := u']> (five u m um md dl) = five u' m um md dl.
Proof. unfold five. by rewrite insert_insert_eq. Qed.

Lemma five_movies m' u m um md dl :
  <["movies" := m']> (five u m um md dl) = five u m' um md dl.
Proof.
  unfold five. rewrite (insert_insert_ne _ "movies" "users") by done.
  by rewrite insert_insert_eq.
Qed.

Lemma five_user_movies um' u m um md dl :
  <["user_movies" := um']> (five u m um md dl) = five u m um' md dl.
Proof.
  unfold five. rewrite (insert_insert_ne _ "user_movies" "users") by done.
  rewrite (insert_insert_ne _ "user_movies" "movies") by done.
  by rewrite insert_insert_eq.
Qed.

Lemma five_user_moods md' u m um md dl :
  <["user_moods" := md']> (five u m um md dl) = five u m um md' dl.
Proof.
  unfold five. rewrite (insert_insert_ne _ "user_moods" "users") by done.
  rewrite (insert_insert_ne _ "user_moods" "movies") by done.
  rewrite (insert_insert_ne _ "user_moods" "user_movies") by done.
  by rewrite insert_insert_eq.
Qed.

Lemma five_deletion_logs dl' u m um md dl :
  <["deletion_logs" := dl']> (five u m um md dl) = five u m um md dl'.
Proof.
  unfold five. rewrite (insert_insert_ne _ "deletion_logs" "users") by done.
  rewrite (insert_insert_ne _ "deletion_logs" "movies") by done.
  rewrite (insert_insert_ne _ "deletion_logs" "user_movies") by done.
  rewrite (insert_insert_ne _ "deletion_logs" "user_moods") by done.
  by rewrite insert_singleton_eq.
Qed.

Section Delete.
Variables (clock : Z) (db : database) (u m um md dl : table).
Hypothesis Hp : provisioned db u m um md dl.

Let co := db_collation db.

Lemma refs_users_users : refs_to "users" u = [].
Proof. unfold refs_to. by rewrite (prov_users _ _ _ _ _ _ Hp). Qed.
Lemma refs_users_movies : refs_to "users" m = [].
Proof. unfold refs_to. by rewrite (prov_movies _ _ _ _ _ _ Hp). Qed.
Lemma refs_users_logs : refs_to "users" dl = [].
Proof. unfold refs_to. by rewrite (prov_deletion_logs _ _ _ _ _ _ Hp). Qed.
Lemma refs_movies_users : refs_to "movies" u = [].
Proof. unfold refs_to. by rewrite (prov_users _ _ _ _ _ _ Hp). Qed.
Lemma refs_movies_movies : refs_to "movies" m = [].
Proof. unfold refs_to. by rewrite (prov_movies _ _ _ _ _ _ Hp). Qed.
Lemma refs_movies_moods : refs_to "movies" md = [].
Proof. unfold refs_to. by rewrite (prov_user_moods _ _ _ _ _ _ Hp). Qed.
Lemma refs_movies_logs : refs_to "movies" dl = [].
Proof. unfold refs_to. by rewrite (prov_deletion_logs _ _ _ _ _ _ Hp). Qed.


(** [DELETE FROM user_movies WHERE w]. *)
Lemma delete_user_movies (w : option cond) :
  Forall keyed (t_rows um) -> numbered dl ->
  delete_from clock db "user_movies" w =
  Ok {| db_collation := co;
        db_tables :=
          five u m
            (with_rows um (List.filter (fun r => negb (selects co w r)) (t_rows um)))
            md
            {| t_def := deletion_logs_def;
               t_rows := t_rows dl ++
                 log_rows clock (t_auto_increment dl) (List.filter (selects co w) (t_rows um));
               t_auto_increment := t_auto_increment dl +
                 Z.of_nat (length (List.filter (selects co w) (t_rows um))) |};
        db_triggers := [after_movie_delete] |}.
Proof.
  intros Hk Hn. unfold delete_from. fold co.
  rewrite (prov_tables _ _ _ _ _ _ Hp), (prov_triggers _ _ _ _ _ _ Hp).
  replace (five u m um md dl !! "user_movies") with (Some um) by done.
  cbn [from_option bind]. rewrite five_user_movies.
  rewrite cascade_unreferenced.
  2:{ apply script_unreferenced; [|done..].
      destruct Hp. by apply five_schema. }
  erewrite fire_all_logs; [|done|by destruct Hp|done|].
  - cbn [bind]. by rewrite five_deletion_logs.
  - apply Forall_forall. intros r Hr. apply list_elem_of_In, filter_In in Hr as [Hr _].
    rewrite Forall_forall in Hk. by apply Hk, list_elem_of_In.
Qed.

(** [DELETE FROM users WHERE w]: the rows of [user_movies] and
    [user_moods] that belong to the deleted users go by cascade, and
    [deletion_logs] stays as it is. *)
Lemma delete_users (w : option cond) :
  let gone := List.filter (selects co w) (t_rows u) in
  delete_from clock db "users" w =
  Ok {| db_collation := co;
        db_tables :=
          five (with_rows u (List.filter (fun r => negb (selects co w r)) (t_rows u)))
               m (survivors co "users" gone um) (survivors co "users" gone md) dl;
        db_triggers := [after_movie_delete] |}.
Proof.
  intros gone. unfold delete_from. fold co.
  rewrite (prov_tables _ _ _ _ _ _ Hp), (prov_triggers _ _ _ _ _ _ Hp).
  replace (five u m um md dl !! "users") with (Some u) by done.
  cbn [from_option bind]. rewrite five_users.
  rewrite script_cascade by (destruct Hp; by apply five_schema).
  rewrite fire_all_other by done. cbn [bind].
  rewrite five_fmap. fold gone.
  rewrite (survivors_no_refs _ _ _ (with_rows u _)) by apply refs_users_users.
  by rewrite (survivors_no_refs _ _ _ m), (survivors_no_refs _ _ _ dl)
    by (apply refs_users_movies || apply refs_users_logs).
Qed.

(** [DELETE FROM movies WHERE w]. *)
Lemma delete_movies (w : option cond) :
  let gone := List.filter (selects co w) (t_rows m) in
  delete_from clock db "movies" w =
  Ok {| db_collation := co;
        db_tables :=
          five u (with_rows m (List.filter (fun r => negb (selects co w r)) (t_rows m)))
               (survivors co "movies" gone um) md dl;
        db_triggers := [after_movie_delete] |}.
Proof.
  intros gone. unfold delete_from. fold co.
  rewrite (prov_tables _ _ _ _ _ _ Hp), (prov_triggers _ _ _ _ _ _ Hp).
  replace (five u m um md dl !! "movies") with (Some m) by done.
  cbn [from_option bind]. rewrite five_movies.
  rewrite script_cascade by (destruct Hp; by apply five_schema).
  rewrite fire_all_other by done. cbn [bind].
  rewrite five_fmap. fold gone.
  rewrite (survivors_no_refs _ _ _ (with_rows m _)) by apply refs_movies_movies.
  by rewrite (survivors_no_refs _ _ _ u), (survivors_no_refs _ _ _ md),
    (survivors_no_refs _ _ _ dl)
    by (apply refs_movies_users || apply refs_movies_moods || apply refs_movies_logs).
Qed.

(** [DELETE FROM user_moods WHERE w]. *)
Lemma delete_user_moods (w : option cond) :
  delete_from clock db "user_moods" w =
  Ok {| db_collation := co;
        db_tables :=
          five u m um
               (with_rows md (List.filter (fun r => negb (selects co w r)) (t_rows md))) dl;
        db_triggers := [after_movie_delete] |}.
Proof.
  unfold delete_from. fold co.
  rewrite (prov_tables _ _ _ _ _ _ Hp), (prov_triggers _ _ _ _ _ _ Hp).
  replace (five u m um md dl !! "user_moods") with (Some md) by done.
  cbn [from_option bind]. rewrite five_user_moods.
  rewrite cascade_unreferenced.
  2:{ apply script_unreferenced; [|done..].
      destruct Hp. by apply five_schema. }
  by rewrite fire_all_other by done.
Qed.

End Delete.

(** *** Statements on the selected database *)

Lemma on_db_ok ss sv n db f a db' :
  current_db ss = Some n -> databases sv !! n = Some db -> f db = Ok (a, db') ->
  on_db ss sv f = Ok (a, ss, with_database sv n db').
Proof. intros Hc Hd Hf. unfold on_db. rewrite Hc. simpl. rewrite Hd. simpl. by rewrite Hf. Qed.

Lemma on_db_err ss sv n db f e :
  current_db ss = Some n -> databases sv !! n = Some db -> f db = Err e ->
  on_db ss sv f = Err e.
Proof. intros Hc Hd Hf. unfold on_db. rewrite Hc. simpl. rewrite Hd. simpl. by rewrite Hf. Qed.

Lemma with_database_twice sv n a b :
  with_database (with_database sv n a) n b = with_database sv n b.
Proof. unfold with_database. simpl. by rewrite insert_insert_eq. Qed.

Lemma with_database_lookup sv n a : databases (with_database sv n a) !! n = Some a.
Proof. apply lookup_insert_eq. Qed.

Lemma with_database_other sv n a k :
  k <> n -> databases (with_database sv n a) !! k = databases sv !! k.
Proof. intros. by apply lookup_insert_ne. Qed.

(** The seed on an empty [movies] table. *)
Lemma insert_seed co clock u m um md dl :
  t_def m = movies_def -> t_rows m = [] ->
  insert_rows co clock (five u m um md dl) "movies" seed_columns seed_rows =
  Ok (five u {| t_def := movies_def;
                t_rows := seeded clock (t_auto_increment m);
                t_auto_increment := t_auto_increment m + 3 |} um md dl).
Proof.
  intros Hd Hr. destruct m as [d rows a]. simpl in *. subst d rows.
  unfold seed_rows, insert_rows.
  do 3 (unfold insert_row at 1;
        match goal with |- context [five u ?t um md dl !! "movies"] =>
          replace (five u t um md dl !! "movies") with (Some t) by done end;
        cbn -[five Z.add Z.max];
        repeat match goal with
        | |- context [Z.max ?x ?y] => rewrite (Z.max_r x y) by lia
        | |- context [(?x =? ?y)%Z] =>
          replace (x =? y)%Z with false by (symmetry; apply Z.eqb_neq; lia)
        end;
        cbn -[five Z.add Z.max]; rewrite five_movies).
  unfold seeded. do 3 f_equal; [|lia].
  by replace (a + 1 + 1) with (a + 2) by lia.
Qed.

Lemma exec_batch_ok st rest ss sv a ss1 sv1 l ss2 sv2 :
  exec_stmt st ss sv = Ok (a, ss1, sv1) ->
  exec_batch rest ss1 sv1 = (Ok l, ss2, sv2) ->
  exec_batch (st :: rest) ss sv = (Ok (a :: l), ss2, sv2).
Proof. intros H1 H2. cbn [exec_batch]. by rewrite H1, H2. Qed.



Lemma exec_delete ss sv n db name w db' :
  current_db ss = Some n -> databases sv !! n = Some db ->
  delete_from (now sv) db name w = Ok db' ->
  exec_stmt (DeleteFrom name w) ss sv = Ok (Done, ss, with_database sv n db').
Proof.
  intros Hc Hd Hf. cbn [exec_stmt]. eapply on_db_ok; [done..|].
  unfold finish. by rewrite Hf.
Qed.

Lemma filter_selects_all co (l : list row) : List.filter (selects co None) l = l.
Proof. by apply filter_all. Qed.

Lemma filter_selects_none co (l : list row) :
  List.filter (fun r => negb (selects co None r)) l = [].
Proof. by apply filter_none. Qed.

(** The second batch of the script on a provisioned database. *)
Lemma clear_batch ss sv db u m um md dl :
  current_db ss = Some app_db -> databases sv !! app_db = Some db ->
  provisioned db u m um md dl -> Forall keyed (t_rows um) -> numbered dl ->
  exec_batch clear_sql ss sv =
  (Ok [Done; Done; Done; Done], ss,
   with_database sv app_db
     {| db_collation := db_collation db;
        db_tables :=
          five (with_rows u (List.filter
                  (fun r => negb (like (db_collation db) "testuser%" (row_get "username" r)))
                  (t_rows u)))
               (with_rows m []) (with_rows um []) (with_rows md [])
               (logged (now sv) um dl);
        db_triggers := [after_movie_delete] |}).
Proof.
  intros Hc Hd Hp Hk Hn. unfold clear_sql.
  pose proof Hp as [Ht Hu Hm Hum Hmd Hdl Htr].
  erewrite exec_batch_ok; [reflexivity| |].
  { eapply exec_delete; [done..|]. by apply delete_user_movies. }
  rewrite filter_selects_all, filter_selects_none. fold (logged (now sv) um dl).
  erewrite exec_batch_ok; [reflexivity| |].
  { eapply exec_delete; [done|apply with_database_lookup|].
    eapply delete_user_moods. by constructor. }
  rewrite with_database_twice, filter_selects_none. cbn [db_collation].
  erewrite exec_batch_ok; [reflexivity| |].
  { eapply exec_delete; [done|apply with_database_lookup|].
    eapply delete_users. by constructor. }
  rewrite with_database_twice. cbn [db_collation].
  erewrite exec_batch_ok; [reflexivity| |].
  { eapply exec_delete; [done|apply with_database_lookup|].
    eapply delete_movies. by constructor. }
  rewrite with_database_twice, filter_selects_none. cbn [db_collation].
  reflexivity.
Qed.

Lemma seed_batch ss sv db u m um md dl :
  current_db ss = Some app_db -> databases sv !! app_db = Some db ->
  db_tables db = five u m um md dl -> t_def m = movies_def -> t_rows m = [] ->
  exec_batch insert_movies_sql ss sv =
  (Ok [Done], ss,
   with_database sv app_db
     {| db_collation := db_collation db;
        db_tables :=
          five u {| t_def := movies_def;
                    t_rows := seeded (now sv) (t_auto_increment m);
                    t_auto_increment := t_auto_increment m + 3 |} um md dl;
        db_triggers := db_triggers db |}).
Proof.
  intros Hc Hd Ht Hm Hr. unfold insert_movies_sql.
  erewrite exec_batch_ok; [reflexivity| |reflexivity].
  cbn [exec_stmt]. eapply on_db_ok; [done..|].
  by rewrite Ht, insert_seed.
Qed.

(** *** Data definition on a database of the script *)

Lemma lookup_ensure n t tbls k :
  ensure n t tbls !! k =
  if decide (n = k) then Some (default t (tbls !! n)) else tbls !! k.
Proof.
  unfold ensure. case_decide as E.
  - subst k. destruct (tbls !! n) eqn:E; [by rewrite E|by rewrite lookup_insert_eq].
  - destruct (tbls !! n) eqn:E'; [done|by rewrite lookup_insert_ne].
Qed.

Lemma parents_guard tbls n d :
  parents_exist tbls n d ->
  forallb (fun fk => String.eqb (fk_ref_table fk) n ||
                     bool_decide (is_Some (tbls !! fk_ref_table fk)))
          (td_foreign_keys d) = true.
Proof.
  intros H. apply forallb_forall. intros fk Hfk.
  destruct (H fk) as [->|Hs]; [by apply list_elem_of_In| |].
  - by rewrite String.eqb_refl.
  - apply orb_true_iff. right. by apply bool_decide_eq_true.
Qed.

Lemma create_table_ensure db n d :
  parents_exist (db_tables db) n d ->
  create_table db true n d =
  Ok {| db_collation := db_collation db;
        db_tables := ensure n (new_table d) (db_tables db);
        db_triggers := db_triggers db |}.
Proof.
  intros H. unfold create_table, ensure.
  destruct (db_tables db !! n); [by destruct db|].
  by rewrite parents_guard.
Qed.

Lemma create_table_new db n d :
  db_tables db !! n = None -> parents_exist (db_tables db) n d ->
  create_table db false n d =
  Ok {| db_collation := db_collation db;
        db_tables := <[n := new_table d]> (db_tables db);
        db_triggers := db_triggers db |}.
Proof. intros E H. unfold create_table. rewrite E. by rewrite parents_guard. Qed.

Lemma referenced_by_other_false tbls n :
  (forall k t, tbls !! k = Some t -> k <> n -> refs_to n t = []) ->
  referenced_by_other tbls n = false.
Proof.
  intros H. unfold referenced_by_other. apply not_true_is_false. intros E.
  apply existsb_exists in E as ([k t] & Hin & E). simpl in E.
  apply list_elem_of_In, elem_of_map_to_list in Hin.
  apply andb_true_iff in E as [E1 E2].
  rewrite (H k t Hin) in E2; [done|].
  intros ->. by rewrite String.eqb_refl in E1.
Qed.

Lemma off_table_absent db n :
  triggers_placed db -> db_tables db !! n = None -> off_table n (db_triggers db) = db_triggers db.
Proof.
  intros Hp Hn. apply filter_all. intros g Hg.
  destruct (String.eqb_spec (trg_table g) n) as [E|]; [|done].
  destruct (Hp g Hg) as [t Ht]. congruence.
Qed.

Lemma drop_table_if_exists db n :
  triggers_placed db ->
  (forall k t, db_tables db !! k = Some t -> k <> n -> refs_to n t = []) ->
  drop_table db true n =
  Ok {| db_collation := db_collation db;
        db_tables := delete n (db_tables db);
        db_triggers := off_table n (db_triggers db) |}.
Proof.
  intros Hp Hr. unfold drop_table.
  destruct (db_tables db !! n) eqn:E.
  - by rewrite referenced_by_other_false.
  - rewrite off_table_absent, delete_id by done. by destruct db.
Qed.

Lemma create_trigger_spec db g :
  is_Some (db_tables db !! trg_table g) ->
  create_trigger db g =
  if existsb (fun h => String.eqb (trg_name h) (trg_name g)) (db_triggers db)
  then Err ER_TRG_ALREADY_EXISTS
  else Ok {| db_collation := db_collation db;
             db_tables := db_tables db;
             db_triggers := db_triggers db ++ [g] |}.
Proof.
  intros H. unfold create_trigger.
  destruct (existsb _ _); [done|]. simpl.
  by rewrite bool_decide_eq_true_2.
Qed.

Lemma script_schema_names tbls k :
  script_schema tbls ->
  k <> "users" -> k <> "movies" -> k <> "user_movies" -> k <> "user_moods" ->
  k <> "deletion_logs" -> tbls !! k = None.
Proof.
  intros Hs. intros. destruct (tbls !! k) as [t|] eqn:E; [|done].
  destruct (script_def_cases _ _ (Hs k t E)) as [[? _]|[[? _]|[[? _]|[[? _]|[? _]]]]]; done.
Qed.

Lemma recreated_five tbls :
  script_schema tbls ->
  recreated tbls =
  five (default (new_table users_def) (tbls !! "users"))
       (new_table movies_def) (new_table user_movies_def)
       (default (new_table user_moods_def) (tbls !! "user_moods"))
       (default (new_table deletion_logs_def) (tbls !! "deletion_logs")).
Proof.
  intros Hs. apply map_eq. intros k. unfold recreated, five.
  repeat (rewrite ?lookup_ensure, ?lookup_insert, ?lookup_delete, ?lookup_empty;
          repeat case_decide; simplify_eq; try done).
  rewrite lookup_singleton_ne by done. by apply script_schema_names.
Qed.



Lemma off_table_elem n trgs g :
  g ∈ off_table n trgs <-> g ∈ trgs /\ trg_table g <> n.
Proof.
  unfold off_table. rewrite (list_elem_of_In trgs g), list_elem_of_In, filter_In, negb_true_iff.
  destruct (String.eqb_spec (trg_table g) n); intuition congruence.
Qed.

Lemma with_database_same sv n db :
  databases sv !! n = Some db -> with_database sv n db = sv.
Proof. intros H. unfold with_database. rewrite insert_id by done. by destruct sv. Qed.

Lemma exec_stmt_db st ss sv n db :
  on_tables st -> current_db ss = Some n -> databases sv !! n = Some db ->
  exec_stmt st ss sv =
  (ad <- db_stmt (now sv) st db;; Ok (fst ad, ss, with_database sv n (snd ad))).
Proof.
  intros Ht Hc Hd. destruct st; try done; cbn [exec_stmt db_stmt];
    unfold on_db; rewrite Hc; cbn [from_option bind]; rewrite Hd; reflexivity.
Qed.

(** A batch of statements on tables only moves the selected database. *)
Lemma exec_batch_db sts : forall ss sv n db,
  Forall on_tables sts -> current_db ss = Some n -> databases sv !! n = Some db ->
  exec_batch sts ss sv =
  (fst (db_batch (now sv) sts db), ss, with_database sv n (snd (db_batch (now sv) sts db))).
Proof.
  induction sts as [|st rest IH]; intros ss sv n db Hf Hc Hd.
  - cbn. by rewrite with_database_same.
  - apply Forall_cons in Hf as [Hst Hf]. cbn [exec_batch db_batch].
    rewrite (exec_stmt_db st ss sv n db) by done.
    destruct (db_stmt (now sv) st db) as [[a db']|e]; cbn [bind fst snd].
    + rewrite (IH ss (with_database sv n db') n db' Hf Hc (with_database_lookup _ _ _)).
      cbn [now with_database]. rewrite with_database_twice.
      by destruct (db_batch (now sv) rest db') as [[l|e] db''].
    + by rewrite with_database_same.
Qed.

Lemma create_tables_db clock db :
  script_schema (db_tables db) -> triggers_placed db ->
  db_batch clock create_tables_sql db =
  if name_taken db
  then (Err ER_TRG_ALREADY_EXISTS, recreated_db db (kept_triggers db))
  else (Ok [Done; Done; Done; Done; Done; Done; Done; Done],
        recreated_db db (kept_triggers db ++ [after_movie_delete])).
Proof.
  intros Hs Hp. unfold create_tables_sql, recreated_db, recreated.
  set (t1 := ensure "users" (new_table users_def) (db_tables db)).
  assert (script_schema t1) as Hs1.
  { intros k t. unfold t1. rewrite lookup_ensure. case_decide; [|apply Hs].
    subst k. destruct (db_tables db !! "users") as [t0|] eqn:E; simpl; intros; simplify_eq.
    - by apply Hs.
    - done. }
  assert (is_Some (t1 !! "users")) as Hu.
  { unfold t1. rewrite lookup_ensure. by case_decide. }
  cbn [db_batch db_stmt].
  rewrite create_table_ensure by (intros fk Hfk; by apply elem_of_nil in Hfk).
  fold t1. cbn [finish bind].
  rewrite drop_table_if_exists; cbn [db_tables db_triggers db_collation].
  2:{ intros g Hg. cbn [db_tables db_triggers] in *.
      unfold t1. rewrite lookup_ensure. case_decide; [done|]. by apply Hp. }
  2:{ cbn [db_tables]. intros k t Hk _. by eapply script_unreferenced. }
  cbn [finish bind].
  rewrite drop_table_if_exists; cbn [db_tables db_triggers db_collation].
  2:{ intros g Hg. cbn [db_tables db_triggers] in *.
      apply off_table_elem in Hg as [Hg Hne].
      rewrite lookup_delete_ne by done. unfold t1. rewrite lookup_ensure.
      case_decide; [done|]. by apply Hp. }
  2:{ cbn [db_tables]. intros k t Hk Hne. apply lookup_delete_Some in Hk as [Hne' Hk].
      destruct (refs_to "movies" t) eqn:Er; [done|].
      assert (refs_to "movies" t <> []) as Hr by (by rewrite Er).
      destruct (script_refs "movies" k t (Hs1 k t Hk) Hr) as [[? _]|[_ ?]]; done. }
  cbn [finish bind]. fold (kept_triggers db).
  rewrite create_table_new; cbn [db_tables db_triggers db_collation].
  2:{ apply lookup_delete_eq. }
  2:{ intros fk Hfk. by apply elem_of_nil in Hfk. }
  cbn [finish bind].
  rewrite create_table_new; cbn [db_tables db_triggers db_collation].
  2:{ rewrite lookup_insert_ne, lookup_delete_ne by done. apply lookup_delete_eq. }
  2:{ intros fk Hfk. right.
      apply elem_of_cons in Hfk as [->|Hfk]; [|apply list_elem_of_singleton in Hfk as ->];
        cbn [fk_ref_table].
      - by rewrite lookup_insert_ne, !lookup_delete_ne by done.
      - by rewrite lookup_insert_eq. }
  cbn [finish bind].
  rewrite create_table_ensure; cbn [db_tables db_triggers db_collation].
  2:{ intros fk Hfk. right. apply list_elem_of_singleton in Hfk as ->. cbn [fk_ref_table].
      by rewrite !lookup_insert_ne, !lookup_delete_ne by done. }
  cbn [finish bind].
  rewrite create_table_ensure; cbn [db_tables db_triggers db_collation].
  2:{ intros fk Hfk. by apply elem_of_nil in Hfk. }
  cbn [finish bind].
  rewrite create_trigger_spec; cbn [db_tables db_triggers db_collation].
  2:{ rewrite !lookup_ensure. repeat case_decide; try done. by rewrite lookup_insert_eq. }
  fold (name_taken db). change (existsb _ (kept_triggers db)) with (name_taken db).
  by destruct (name_taken db).
Qed.

(** *** Nothing in the script removes a row of [deletion_logs] *)

Lemma logs_kept_refl tbls : logs_kept tbls tbls.
Proof. intros t Ht _. by exists t. Qed.

Lemma logs_kept_trans a b c : logs_kept a b -> logs_kept b c -> logs_kept a c.
Proof.
  intros H1 H2 t Ht Hfk.
  destruct (H1 t Ht Hfk) as (t1 & Ht1 & Hd1 & Hp1).
  destruct (H2 t1 Ht1) as (t2 & Ht2 & Hd2 & Hp2); [congruence|].
  exists t2. split; [done|]. split; [congruence|]. by etrans.
Qed.

Lemma insert_row_keeps co clock tbls name cols vals tbls' :
  insert_row co clock tbls name cols vals = Ok tbls' -> logs_kept tbls tbls'.
Proof.
  unfold insert_row, guard. intros H.
  destruct (tbls !! name) as [t0|] eqn:E; [|done]. cbn [from_option bind] in H.
  repeat match type of H with
  | context [if ?b then _ else _] => destruct b; cbn [bind] in H; [|done]
  end.
  simplify_eq. intros t Ht _.
  destruct (decide (name = "deletion_logs")) as [->|Hne].
  - rewrite lookup_insert_eq. eexists. split; [done|]. simplify_eq. split; [done|].
    by apply prefix_app_r.
  - rewrite lookup_insert_ne by done. by exists t.
Qed.

Lemma insert_rows_keeps co clock name cols rows : forall tbls tbls',
  insert_rows co clock tbls name cols rows = Ok tbls' -> logs_kept tbls tbls'.
Proof.
  induction rows as [|vals rows IH]; intros tbls tbls' H; cbn [insert_rows] in H.
  - simplify_eq. apply logs_kept_refl.
  - destruct (insert_row co clock tbls name cols vals) as [tb|] eqn:E; [|done].
    cbn [bind] in H. eapply logs_kept_trans; [by eapply insert_row_keeps|by apply IH].
Qed.

Lemma fold_left_err {A B} (f : res A -> B -> res A) (l : list B) e :
  (forall b, f (Err e) b = Err e) -> fold_left f l (Err e) = Err e.
Proof. intros H. induction l as [|b l IH]; [done|]. cbn. by rewrite H. Qed.

Lemma fire_keeps co clock trgs name old : forall tbls tbls',
  fire co clock trgs name old tbls = Ok tbls' -> logs_kept tbls tbls'.
Proof.
  unfold fire. induction trgs as [|g trgs IH]; intros tbls tbls' H; cbn [fold_left bind] in H.
  - simplify_eq. apply logs_kept_refl.
  - destruct (String.eqb (trg_table g) name).
    + destruct (insert_row co clock tbls (trg_into g) (trg_columns g)
                  (map (eval clock old) (trg_values g))) as [tb|e] eqn:E.
      * eapply logs_kept_trans; [by eapply insert_row_keeps|by apply IH].
      * by rewrite fold_left_err in H.
    + by apply IH.
Qed.

Lemma fire_all_keeps co clock trgs name olds : forall tbls tbls',
  fire_all co clock trgs name olds tbls = Ok tbls' -> logs_kept tbls tbls'.
Proof.
  unfold fire_all. induction olds as [|old olds IH]; intros tbls tbls' H;
    cbn [fold_left bind] in H.
  - simplify_eq. apply logs_kept_refl.
  - destruct (fire co clock trgs name old tbls) as [tb|e] eqn:E.
    + eapply logs_kept_trans; [by eapply fire_keeps|by apply IH].
    + by rewrite fold_left_err in H.
Qed.

Lemma delete_from_keeps clock db name w db' :
  name <> "deletion_logs" ->
  delete_from clock db name w = Ok db' -> logs_kept (db_tables db) (db_tables db').
Proof.
  intros Hne H. unfold delete_from in H.
  destruct (db_tables db !! name) as [t0|] eqn:E; [|done]. cbn [from_option bind] in H.
  match type of H with context [fire_all ?co ?c ?g ?n ?o ?tb] =>
    destruct (fire_all co c g n o tb) as [tb3|e] eqn:Ef; [|done] end.
  cbn [bind] in H. simplify_eq. cbn [db_tables].
  eapply logs_kept_trans; [|by eapply fire_all_keeps].
  intros t Ht Hfk. exists t. split; [|done].
  apply cascade_fk_free; [|done]. by rewrite lookup_insert_ne.
Qed.

Lemma db_stmt_keeps clock st db a db' :
  spares_logs st -> db_stmt clock st db = Ok (a, db') ->
  logs_kept (db_tables db) (db_tables db').
Proof.
  intros Hs H. destruct st as [| |i n d|i n|g|n w|n cols rows|n]; cbn [db_stmt] in H.
  - simplify_eq. apply logs_kept_refl.
  - simplify_eq. apply logs_kept_refl.
  - unfold finish, create_table in H.
    destruct (db_tables db !! n) eqn:E.
    + destruct i; cbn [bind] in H; simplify_eq. apply logs_kept_refl.
    + unfold guard in H.
      match type of H with context [if ?b then _ else _] => destruct b end;
        cbn [bind] in H; simplify_eq. cbn [db_tables].
      intros tl Htl _. exists tl. split; [|done].
      rewrite lookup_insert_ne; [done|congruence].
  - unfold finish, drop_table in H.
    destruct (db_tables db !! n) eqn:E.
    + unfold guard in H.
      match type of H with context [if ?b then _ else _] => destruct b end;
        cbn [bind] in H; simplify_eq. cbn [db_tables].
      intros tl Htl _. exists tl. split; [|done]. by rewrite lookup_delete_ne.
    + destruct i; cbn [bind] in H; simplify_eq. apply logs_kept_refl.
  - unfold finish, create_trigger, guard in H.
    repeat match type of H with
    | context [if ?b then _ else _] => destruct b; cbn [bind] in H; [|done]
    end.
    simplify_eq. apply logs_kept_refl.
  - unfold finish in H.
    destruct (delete_from clock db n w) as [d|] eqn:E; cbn [bind] in H; simplify_eq.
    by eapply delete_from_keeps.
  - destruct (insert_rows (db_collation db) clock (db_tables db) n cols rows) as [tb|] eqn:E;
      cbn [bind] in H; simplify_eq. cbn [db_tables]. by eapply insert_rows_keeps.
  - destruct (db_tables db !! n); cbn [from_option bind] in H; simplify_eq.
    apply logs_kept_refl.
Qed.

Lemma logs_kept_on_refl sv : logs_kept_on sv sv.
Proof. intros db Hd. exists db. split; [done|apply logs_kept_refl]. Qed.

Lemma logs_kept_on_trans a b c : logs_kept_on a b -> logs_kept_on b c -> logs_kept_on a c.
Proof.
  intros H1 H2 db Hd. destruct (H1 db Hd) as (db1 & Hd1 & Hk1).
  destruct (H2 db1 Hd1) as (db2 & Hd2 & Hk2).
  exists db2. split; [done|]. by eapply logs_kept_trans.
Qed.

Lemma exec_stmt_keeps st ss sv a ss' sv' :
  spares_logs st -> exec_stmt st ss sv = Ok (a, ss', sv') -> logs_kept_on sv sv'.
Proof.
  intros Hs H.
  assert (on_tables st -> logs_kept_on sv sv') as Hgen.
  { intros Ht. destruct (current_db ss) as [n|] eqn:Hc.
    2:{ destruct st; try done; cbn [exec_stmt] in H; unfold on_db in H;
          by rewrite Hc in H. }
    destruct (databases sv !! n) as [db|] eqn:Hd.
    2:{ destruct st; try done; cbn [exec_stmt] in H; unfold on_db in H;
          rewrite Hc in H; cbn [from_option bind] in H; by rewrite Hd in H. }
    rewrite (exec_stmt_db st ss sv n db) in H by done.
    destruct (db_stmt (now sv) st db) as [[a0 db0]|] eqn:E; cbn [bind] in H; simplify_eq.
    intros db1 Hd1. cbn [fst snd].
    destruct (decide (n = app_db)) as [->|Hne].
    + exists db0. rewrite with_database_lookup. split; [done|].
      simplify_eq. by eapply db_stmt_keeps.
    + exists db1. rewrite with_database_other by done.
      split; [done|apply logs_kept_refl]. }
  destruct st as [i n|n| | | | | |]; try (by apply Hgen); cbn [exec_stmt] in H.
  - destruct (databases sv !! n) eqn:E.
    + destruct i; simplify_eq. apply logs_kept_on_refl.
    + simplify_eq. intros db Hd. exists db.
      rewrite with_database_other by congruence. split; [done|apply logs_kept_refl].
  - destruct (databases sv !! n); simplify_eq. apply logs_kept_on_refl.
Qed.

Lemma exec_batch_keeps sts : forall ss sv,
  Forall spares_logs sts -> logs_kept_on sv (snd (exec_batch sts ss sv)).
Proof.
  induction sts as [|st rest IH]; intros ss sv Hf; cbn [exec_batch].
  - apply logs_kept_on_refl.
  - apply Forall_cons in Hf as [Hst Hf].
    destruct (exec_stmt st ss sv) as [[[a ss1] sv1]|] eqn:E; [|apply logs_kept_on_refl].
    specialize (IH ss1 sv1 Hf).
    destruct (exec_batch rest ss1 sv1) as [[r ss2] sv2]. cbn [snd] in *.
    eapply logs_kept_on_trans; [by eapply exec_stmt_keeps|done].
Qed.

(** *** The six queries in a row *)

Lemma create_database_batch ss sv :
  exec_batch create_database_sql ss sv =
  (Ok [Done], ss,
   with_database sv app_db
     (default (new_database (default_collation sv)) (databases sv !! app_db))).
Proof.
  unfold create_database_sql. cbn [exec_batch exec_stmt].
  destruct (databases sv !! app_db) as [db|] eqn:E; cbn [default].
  - by rewrite with_database_same.
  - done.
Qed.

Lemma use_batch ss sv :
  is_Some (databases sv !! app_db) ->
  exec_batch use_sql ss sv = (Ok [Done], {| current_db := Some app_db |}, sv).
Proof.
  intros [db E]. unfold use_sql. cbn [exec_batch exec_stmt]. by rewrite E.
Qed.

Lemma select_batch ss sv db t :
  current_db ss = Some app_db -> databases sv !! app_db = Some db ->
  db_tables db !! "movies" = Some t ->
  exec_batch select_movies_sql ss sv = (Ok [Rows (t_rows t)], ss, sv).
Proof.
  intros Hc Hd Ht. unfold select_movies_sql. cbn [exec_batch exec_stmt].
  unfold on_db. rewrite Hc. cbn [from_option bind]. rewrite Hd. cbn [from_option bind].
  rewrite Ht. cbn [from_option bind fst snd]. by rewrite with_database_same.
Qed.

Lemma script_state_new co : script_state (new_database co).
Proof.
  unfold script_state, script_schema, new_database. cbn [db_tables db_triggers].
  split; [|split].
  - intros n t H. by rewrite lookup_empty in H.
  - intros g H. by apply elem_of_nil in H.
  - intros t H. by rewrite lookup_empty in H.
Qed.

Lemma script_state_placed db : script_state db -> triggers_placed db.
Proof. intros (_ & Hg & _) g Hin. by destruct (Hg g Hin) as [-> ?]. Qed.

Lemma script_state_kept db : script_state db -> kept_triggers db = [].
Proof.
  intros (_ & Hg & _). unfold kept_triggers.
  assert (off_table "user_movies" (db_triggers db) = []) as ->; [|done].
  apply filter_none. intros g Hin. by destruct (Hg g Hin) as [-> ?].
Qed.

Lemma script_state_free db : script_state db -> name_taken db = false.
Proof. intros H. unfold name_taken. by rewrite script_state_kept. Qed.

Lemma script_def_default tbls n d :
  script_schema tbls -> script_def n = Some d ->
  t_def (default (new_table d) (tbls !! n)) = d.
Proof.
  intros Hs Hd. destruct (tbls !! n) as [t|] eqn:E; [|done].
  specialize (Hs n t E). simpl. congruence.
Qed.

Lemma numbered_new d : numbered (new_table d).
Proof. intros r n H. by apply elem_of_nil in H. Qed.

Lemma logged_nothing clock um dl :
  t_rows um = [] -> t_def dl = deletion_logs_def -> logged clock um dl = dl.
Proof.
  intros Hr Hd. unfold logged. rewrite Hr. cbn [log_rows length].
  rewrite app_nil_r, Z.add_0_r, <- Hd. by destruct dl.
Qed.

(** A database in [script_state], after the third query. *)
Lemma recreated_provisioned db :
  script_state db ->
  provisioned (recreated_db db [after_movie_delete])
    (default (new_table users_def) (db_tables db !! "users"))
    (new_table movies_def) (new_table user_movies_def)
    (default (new_table user_moods_def) (db_tables db !! "user_moods"))
    (default (new_table deletion_logs_def) (db_tables db !! "deletion_logs")).
Proof.
  intros (Hs & Hg & Hn). constructor; try done.
  - by apply recreated_five.
  - by apply script_def_default.
  - by apply script_def_default.
  - by apply script_def_default.
Qed.

(** The six queries of [setupTestDatabase] on a server in
    [script_state_on]: none fails, and they leave [reset_database]. *)
Lemma six_queries sv :
  script_state_on sv ->
  let ss := {| current_db := Some app_db |} in
  exists sv1 sv3 sv4,
    exec_batch create_database_sql {| current_db := None |} sv =
      (Ok [Done], {| current_db := None |}, sv1) /\
    exec_batch use_sql {| current_db := None |} sv1 = (Ok [Done], ss, sv1) /\
    exec_batch create_tables_sql ss sv1 =
      (Ok [Done; Done; Done; Done; Done; Done; Done; Done], ss, sv3) /\
    exec_batch clear_sql ss sv3 = (Ok [Done; Done; Done; Done], ss, sv4) /\
    exec_batch insert_movies_sql ss sv4 =
      (Ok [Done], ss, with_database sv app_db (reset_database sv)) /\
    exec_batch select_movies_sql ss (with_database sv app_db (reset_database sv)) =
      (Ok [Rows (seeded (now sv) 1)], ss, with_database sv app_db (reset_database sv)).
Proof.
  intros Hst ss.
  set (db1 := default (new_database (default_collation sv)) (databases sv !! app_db)).
  assert (script_state db1) as H1.
  { unfold db1. destruct (databases sv !! app_db) as [db|] eqn:E; cbn [default].
    - by apply Hst.
    - apply script_state_new. }
  pose proof (recreated_provisioned db1 H1) as Hp.
  set (u := default (new_table users_def) (db_tables db1 !! "users")) in *.
  set (md := default (new_table user_moods_def) (db_tables db1 !! "user_moods")) in *.
  set (dl := default (new_table deletion_logs_def) (db_tables db1 !! "deletion_logs")) in *.
  eexists _, _, _.
  split; [apply create_database_batch|]. fold db1.
  split; [apply use_batch; by rewrite with_database_lookup|].
  split.
  { assert (Forall on_tables create_tables_sql) as Hon by (repeat constructor).
    rewrite (exec_batch_db _ ss _ app_db db1 Hon eq_refl (with_database_lookup _ _ _)).
    rewrite create_tables_db; [|by destruct H1|by apply script_state_placed].
    rewrite script_state_free, script_state_kept by done.
    cbn [fst snd app]. by rewrite with_database_twice. }
  split.
  { erewrite clear_batch; [reflexivity|done|apply with_database_lookup|exact Hp|done|].
    destruct H1 as (Hs & _ & Hn). unfold dl.
    destruct (db_tables db1 !! "deletion_logs") as [t|] eqn:E; cbn [default];
      [by apply Hn|apply numbered_new]. }
  rewrite with_database_twice. cbn [now with_database db_collation recreated_db].
  rewrite logged_nothing by (done || apply Hp).
  assert (reset_database sv =
          {| db_collation := db_collation db1;
             db_tables :=
               five (with_rows u (List.filter
                        (fun r => negb (like (db_collation db1) "testuser%"
                                             (row_get "username" r))) (t_rows u)))
                    {| t_def := movies_def; t_rows := seeded (now sv) 1;
                       t_auto_increment := 4 |}
                    (new_table user_movies_def) (with_rows md []) dl;
             db_triggers := [after_movie_delete] |}) as Hreset.
  { unfold reset_database, u, md, dl, db1.
    by destruct (databases sv !! app_db) as [db|]. }
  split.
  { erewrite seed_batch; [|done|apply with_database_lookup|reflexivity|done|done].
    rewrite with_database_twice. cbn [now with_database db_collation db_triggers].
    by rewrite Hreset. }
  eapply (select_batch _ _ _ {| t_def := movies_def; t_rows := seeded (now sv) 1;
                                t_auto_increment := 4 |});
    [done|apply with_database_lookup|].
  rewrite Hreset. done.
Qed.

End SqlFacts.

(** * Facts about the script *)

Module ScriptFacts.
Import Sql Schema Invariants Script Hoare SqlFacts.

(** *** Rules *)

Lemma triple_ret {S A} (a : A) (Q : A -> S -> Prop) E : triple (Q a) (ret a) Q E.
Proof. intros s H. exact H. Qed.

Lemma triple_bind {S A B} (P : S -> Prop) (m : M S A) (k : A -> M S B)
    (R : A -> S -> Prop) (Q : B -> S -> Prop) (E : exn -> S -> Prop) :
  triple P m R E -> (forall a, triple (R a) (k a) Q E) -> triple P (mbind m k) Q E.
Proof.
  intros Hm Hk s Hs. unfold mbind. specialize (Hm s Hs).
  destruct (m s) as [[a|e] s']; [by apply Hk|done].
Qed.

Lemma triple_weaken {S A} (P P' : S -> Prop) (m : M S A)
    (Q Q' : A -> S -> Prop) (E E' : exn -> S -> Prop) :
  triple P' m Q' E' ->
  (forall s, P s -> P' s) -> (forall a s, Q' a s -> Q a s) -> (forall e s, E' e s -> E e s) ->
  triple P m Q E.
Proof.
  intros Hm HP HQ HE s Hs. specialize (Hm s (HP s Hs)).
  destruct (m s) as [[a|e] s']; auto.
Qed.

Lemma triple_pure {S A} (F : Prop) (P : S -> Prop) (m : M S A) Q E :
  (F -> triple P m Q E) -> triple (fun s => F /\ P s) m Q E.
Proof. intros H s [HF HP]. by apply H. Qed.

Lemma triple_try_catch {S A} (P : S -> Prop) (body : M S A) (h : exn -> M S A)
    (Q : A -> S -> Prop) (E1 E : exn -> S -> Prop) :
  triple P body Q E1 -> (forall e, triple (E1 e) (h e) Q E) ->
  triple P (try_catch body h) Q E.
Proof.
  intros Hb Hh s Hs. unfold try_catch. specialize (Hb s Hs).
  destruct (body s) as [[a|e] s']; [done|by apply Hh].
Qed.

Lemma triple_finally {S A} (P : S -> Prop) (body : M S A) (fin : M S unit)
    (Q1 Q : A -> S -> Prop) (E1 E : exn -> S -> Prop) :
  triple P body Q1 E1 ->
  (forall a, triple (Q1 a) fin (fun _ => Q a) E) ->
  (forall e, triple (E1 e) fin (fun _ => E e) E) ->
  triple P (finally body fin) Q E.
Proof.
  intros Hb Hq He s Hs. unfold finally. specialize (Hb s Hs).
  destruct (body s) as [[a|e] s'].
  - specialize (Hq a s' Hb). by destruct (fin s') as [[[]|e] s''].
  - specialize (He e s' Hb). by destruct (fin s') as [[[]|e'] s''].
Qed.

Lemma triple_scope {L A} (l0 : L) (P : world -> Prop) (m : M (L * world) A)
    (Q : A -> world -> Prop) (E : exn -> world -> Prop) :
  triple (fun s => fst s = l0 /\ P (snd s)) m (fun a s => Q a (snd s)) (fun e s => E e (snd s)) ->
  triple P (scope l0 m) Q E.
Proof.
  intros Hm w Hw. unfold scope. specialize (Hm (l0, w) (conj eq_refl Hw)).
  by destruct (m (l0, w)) as [[a|e] [l w']].
Qed.

(** *** The calls of [setupTestDatabase] *)

Section Setup.
Variable w0 : world.

Let id := next_conn w0.
Let cfg := connection_config w0.

Lemma unconnected_say l t a (E : exn -> option nat * world -> Prop) :
  triple (unconnected w0) (lift (say l t a)) (fun _ => unconnected w0) E.
Proof. intros [c w] H. exact H. Qed.

Lemma connected_say k l t a (E : exn -> option nat * world -> Prop) :
  triple (connected w0 k) (lift (say l t a)) (fun _ => connected w0 k) E.
Proof. intros [c w] H. exact H. Qed.


Lemma unconnected_read {A} (f : world -> A) (E : exn -> option nat * world -> Prop) :
  triple (unconnected w0) (lift (read f))
         (fun a s => a = f (snd s) /\ unconnected w0 s) E.
Proof. intros [c w] H. by split. Qed.

Lemma unconnected_config s : unconnected w0 s -> connection_config (snd s) = cfg.
Proof.
  intros (_ & _ & _ & _ & _ & He & _). unfold cfg, connection_config, env_or.
  by rewrite He.
Qed.

Lemma connect_spec :
  triple (unconnected w0) (lift (createConnection cfg))
         (fun c s => c = id /\ fst s = None /\ connected w0 1 (Some id, snd s))
         (fun _ s => fst s = None /\ refused w0 (snd s)).
Proof.
  intros [c w] (Hl & Hlog & Hs & Hn & Hsv & Ho). simpl in *. subst c.
  unfold lift, createConnection. simpl.
  destruct (faults w) as [|[e|] f]; simpl;
    try (split; [by rewrite Hn|split; [done|]];
         unfold connected; simpl; rewrite Hlog, Hs, Hn, Hsv;
         split; [done|]; split; [done|]; split; [by rewrite delete_insert_eq|];
         split; [done|]; split; [done|apply logs_kept_on_refl]).
  split; [done|]. unfold refused. simpl. by rewrite Hlog, Hs, Hn, Hsv.
Qed.

Lemma set_local_spec (E : exn -> option nat * world -> Prop) :
  triple (fun s => fst s = None /\ connected w0 1 (Some id, snd s))
         (set_local (Some id)) (fun _ => connected w0 1) E.
Proof. intros [c w] [_ H]. exact H. Qed.

Lemma query_spec k sql :
  plan id cfg !! k = Some (Query id sql) -> Forall spares_logs sql ->
  triple (connected w0 k) (lift (query id sql))
         (fun _ => connected w0 (S k)) (fun _ => connected w0 (S k)).
Proof.
  intros Hk Hsql [c w] (Hl & Hlog & Hs & Hn & Ho & Hkeep). simpl in *.
  assert (forall sv ss,
            delete id ss = delete id (sessions w0) -> logs_kept_on (mysqld w0) sv ->
            connected w0 (S k) (c, after_db_call w sv ss (next_conn w) (Query id sql))) as Hgo.
  { intros sv ss Hss Hsv. unfold connected, after_db_call.
    cbn [fst snd db_log sessions next_conn mysqld]. fold id cfg.
    by rewrite Hlog, (take_S_r _ _ _ Hk), app_assoc. }
  unfold lift, query. simpl.
  destruct (faults w) as [|[e|] f]; simpl; try by apply Hgo.
  - destruct (sessions w !! id) as [ss|] eqn:Es; simpl; [|by apply Hgo].
    pose proof (exec_batch_keeps sql ss (mysqld w) Hsql) as Hx.
    destruct (exec_batch sql ss (mysqld w)) as [[r ss'] sv']. simpl in *.
    destruct r; simpl; (apply Hgo; [by rewrite delete_insert_eq|by eapply logs_kept_on_trans]).
  - destruct (sessions w !! id) as [ss|] eqn:Es; simpl; [|by apply Hgo].
    pose proof (exec_batch_keeps sql ss (mysqld w) Hsql) as Hx.
    destruct (exec_batch sql ss (mysqld w)) as [[r ss'] sv']. simpl in *.
    destruct r; simpl; (apply Hgo; [by rewrite delete_insert_eq|by eapply logs_kept_on_trans]).
Qed.

Lemma query_step k sql {B} (rest : list answer -> M (option nat * world) B) Q :
  plan id cfg !! k = Some (Query id sql) -> Forall spares_logs sql -> (1 <= S k <= 7)%nat ->
  (forall a, triple (connected w0 (S k)) (rest a) Q (fun _ => failing w0)) ->
  triple (connected w0 k) (mbind (lift (query id sql)) rest) Q (fun _ => failing w0).
Proof.
  intros Hk Hsql Hle Hrest. eapply triple_bind; [|exact Hrest].
  eapply triple_weaken; [by apply query_spec|done|done|].
  intros e s Hs. right. by exists (S k).
Qed.

Lemma say_step k l t a {B} (rest : unit -> M (option nat * world) B) Q E :
  (forall u, triple (connected w0 k) (rest u) Q E) ->
  triple (connected w0 k) (mbind (lift (say l t a)) rest) Q E.
Proof. intros Hrest. eapply triple_bind; [apply connected_say|exact Hrest]. Qed.

Lemma say_first (P : option nat * world -> Prop) l t a {B}
    (rest : unit -> M (option nat * world) B) Q E :
  (forall s, P s -> unconnected w0 s) ->
  (forall u, triple (unconnected w0) (rest u) Q E) ->
  triple P (mbind (lift (say l t a)) rest) Q E.
Proof.
  intros HP Hrest. eapply triple_bind; [|exact Hrest].
  eapply triple_weaken; [apply unconnected_say|exact HP|done|done].
Qed.

Lemma script_spares : Forall (Forall spares_logs)
  [create_database_sql; use_sql; create_tables_sql; clear_sql; insert_movies_sql;
   select_movies_sql].
Proof. repeat (constructor; try done). Qed.

Lemma setup_try_spec :
  triple (unconnected w0) setup_try
         (fun b s => b = true /\ connected w0 7 s) (fun _ => failing w0).
Proof.
  pose proof script_spares as Hsp.
  repeat match goal with H : Forall _ (_ :: _) |- _ => apply Forall_cons in H as [? H] end.
  unfold setup_try.
  unfold console_log.
  apply say_first; [done|intros ?].
  eapply triple_bind; [apply unconnected_read|intros h].
  apply say_first; [by intros s [_ Hs]|intros ?].
  eapply triple_bind; [apply unconnected_read|intros usr].
  apply say_first; [by intros s [_ Hs]|intros ?].
  eapply triple_bind; [apply unconnected_read|intros c].
  eapply triple_bind with (R := fun a s => a = id /\ fst s = None /\ connected w0 1 (Some id, snd s)).
  { intros s [Hc Hs]. rewrite (unconnected_config s Hs) in Hc. subst c.
    pose proof (connect_spec s Hs) as Hx.
    destruct (lift (createConnection cfg) s) as [[a|e] s']; [done|by left]. }
  intros connection.
  eapply triple_bind with (R := fun _ s => connection = id /\ connected w0 1 s).
  { intros s (-> & Hs). split; [done|]. by apply (set_local_spec (fun _ _ => False)). }
  intros ?. apply triple_pure. intros ->.
  repeat (apply say_step; intros ?).
  apply query_step; [done|done|lia|intros ?].
  repeat (apply say_step; intros ?).
  apply query_step; [done|done|lia|intros ?].
  repeat (apply say_step; intros ?).
  apply query_step; [done|done|lia|intros ?].
  repeat (apply say_step; intros ?).
  apply query_step; [done|done|lia|intros ?].
  repeat (apply say_step; intros ?).
  apply query_step; [done|done|lia|intros ?].
  apply query_step; [done|done|lia|intros movies].
  repeat (apply say_step; intros ?).
  intros s Hs. by split.
Qed.

Lemma setup_catch_spec e :
  triple (failing w0) (setup_catch e) (fun b s => b = false /\ failing w0 s)
         (fun _ _ => False).
Proof.
  assert (forall l t a, triple (failing w0) (lift (say l t a)) (fun _ => failing w0)
                               (fun _ _ => False)) as Hsay.
  { intros l t a [c w] H. exact H. }
  unfold setup_catch, console_error.
  eapply triple_bind; [apply Hsay|intros ?].
  eapply triple_bind with (R := fun _ => failing w0).
  - repeat match goal with |- context [if ?b then _ else _] => destruct b end;
      (apply Hsay || (intros s Hs; exact Hs)).
  - intros _ s Hs. by split.
Qed.

Lemma setup_finally_spec b :
  triple (fun s => (b = true /\ connected w0 7 s) \/ (b = false /\ failing w0 s))
         setup_finally (fun _ s => finished w0 b (snd s)) (fun _ _ => False).
Proof.
  assert (forall k s, connected w0 k s ->
            match setup_finally s with
            | (Return _, s') => closed w0 k (snd s')
            | (Throw _, _) => False
            end) as Hend.
  { intros k [c w] (Hl & Hlog & Hs & Hn & Ho & Hkeep). simpl in *. subst c.
    unfold setup_finally, mbind, get_local, lift, end_connection, closed.
    cbn [fst snd db_log sessions next_conn mysqld env api sent date_now].
    by rewrite Hlog, Hs, app_assoc. }
  intros s [[-> Hs]|[-> [[Hl Hr]|(k & Hk & Hs)]]].
  - specialize (Hend 7%nat s Hs).
    destruct (setup_finally s) as [[[]|] s']; [|done]. right. exists 7%nat.
    split; [lia|done].
  - destruct s as [c w]. simpl in *. subst c. by left.
  - specialize (Hend k s Hs).
    destruct (setup_finally s) as [[[]|] s']; [|done]. right. exists k.
    split; [lia|done].
Qed.

(** Every run of [setupTestDatabase] returns, and ends as [finished]
    says. *)
Lemma setup_spec :
  triple (fun w => w = w0) setupTestDatabase (finished w0) (fun _ _ => False).
Proof.
  unfold setupTestDatabase. apply triple_scope.
  eapply triple_finally with
    (Q1 := fun b s => (b = true /\ connected w0 7 s) \/ (b = false /\ failing w0 s))
    (E1 := fun _ _ => False).
  - eapply triple_try_catch.
    + eapply triple_weaken; [apply setup_try_spec| |by left|done].
      intros [c w] [Hc Hw]. simpl in *. subst. by unfold unconnected, same_outside.
    + intros e. eapply triple_weaken; [apply setup_catch_spec|done|by right|done].
  - intros b. apply setup_finally_spec.
  - by intros e s [].
Qed.

End Setup.

Lemma setup_finishes w :
  exists b w', setupTestDatabase w = (Return b, w') /\ finished w b w'.
Proof.
  pose proof (setup_spec w w eq_refl) as H.
  destruct (setupTestDatabase w) as [[b|e] w']; [|done]. by exists b, w'.
Qed.

(** *** Runs without failures from outside *)

Section Quiet.
Variable w0 : world.
Hypothesis Hquiet : faults w0 = [].

Let id := next_conn w0.

Lemma ready_say l t a {B} (rest : unit -> M (option nat * world) B) Q E :
  (forall u, triple (ready w0) (rest u) Q E) ->
  triple (ready w0) (mbind (lift (say l t a)) rest) Q E.
Proof.
  intros Hrest. eapply triple_bind; [|exact Hrest]. intros [c w] H. exact H.
Qed.

Lemma ready_read {A B} (f : world -> A) (rest : A -> M (option nat * world) B) Q E :
  (forall a, triple (ready w0) (rest a) Q E) ->
  triple (ready w0) (mbind (lift (read f)) rest) Q E.
Proof.
  intros Hrest. eapply triple_bind; [|exact Hrest]. intros [c w] H. exact H.
Qed.

Lemma ready_connect {B} c (rest : nat -> M (option nat * world) B) Q E :
  triple (at_server id {| current_db := None |} (mysqld w0)) (rest id) Q E ->
  triple (ready w0)
         (mbind (lift (createConnection c))
                (fun connection => mbind (set_local (Some connection))
                                         (fun _ => rest connection))) Q E.
Proof.
  intros Hrest [l w] (Hl & Hf & Hsv & Hn). simpl in *.
  unfold mbind, lift, createConnection, set_local. simpl. rewrite Hf. simpl.
  rewrite Hn. apply Hrest. unfold at_server, id. simpl.
  by rewrite Hf, lookup_insert_eq.
Qed.

Lemma quiet_say ss sv l t a {B} (rest : unit -> M (option nat * world) B) Q E :
  (forall u, triple (at_server id ss sv) (rest u) Q E) ->
  triple (at_server id ss sv) (mbind (lift (say l t a)) rest) Q E.
Proof.
  intros Hrest. eapply triple_bind; [|exact Hrest]. intros [c w] H. exact H.
Qed.

Lemma quiet_query ss sv sql l ss' sv' {B} (rest : list answer -> M (option nat * world) B) Q E :
  exec_batch sql ss sv = (Ok l, ss', sv') ->
  triple (at_server id ss' sv') (rest l) Q E ->
  triple (at_server id ss sv) (mbind (lift (query id sql)) rest) Q E.
Proof.
  intros Hx Hrest [c w] (Hl & Hf & Hs & Hsv). simpl in *.
  unfold mbind, lift, query. simpl. rewrite Hf, Hs, Hsv, Hx. simpl.
  apply Hrest. unfold at_server. simpl. by rewrite ?Hf, lookup_insert_eq.
Qed.

Lemma quiet_query_fails ss sv sql e ss' sv' {B}
    (rest : list answer -> M (option nat * world) B) Q (E : exn -> _ -> Prop) :
  exec_batch sql ss sv = (Err e, ss', sv') ->
  (forall s, at_server id ss' sv' s -> E (DbError e) s) ->
  triple (at_server id ss sv) (mbind (lift (query id sql)) rest) Q E.
Proof.
  intros Hx HE [c w] (Hl & Hf & Hs & Hsv). simpl in *.
  unfold mbind, lift, query. simpl. rewrite Hf, Hs, Hsv, Hx. simpl.
  apply HE. unfold at_server. simpl. by rewrite ?Hf, lookup_insert_eq.
Qed.

(** The rest of the function once the [try] block is left at server [sv]
    with result [b]. *)
Lemma setup_leaves (b : bool) ss sv (body : M (option nat * world) bool) :
  triple (ready w0) body (fun r s => r = b /\ at_server id ss sv s)
         (fun _ s => b = false /\ at_server id ss sv s) ->
  exists w', scope None (finally (try_catch body setup_catch) setup_finally) w0 =
             (Return b, w') /\ mysqld w' = sv.
Proof.
  intros Hbody.
  assert (ready w0 (None, w0)) as Hr by done.
  unfold scope, finally, try_catch.
  specialize (Hbody (None, w0) Hr).
  destruct (body (None, w0)) as [[r|e] [c w]].
  - destruct Hbody as (-> & Hl & Hf & Hs & Hsv). simpl in *. subst c.
    unfold setup_finally, mbind, get_local, lift, end_connection. simpl.
    by eexists.
  - destruct Hbody as (-> & Hl & Hf & Hs & Hsv). simpl in *. subst c.
    unfold setup_catch, mbind, lift, console_error, say, ret. simpl.
    repeat match goal with |- context [if ?b then _ else _] => destruct b end;
      simpl; by eexists.
Qed.

(** When its six queries succeed, [setupTestDatabase] returns [true] and
    leaves the server that the last of them leaves. *)
Lemma setup_succeeds ss2 ss3 ss4 ss5 ss6 ss7 sv2 sv3 sv4 sv5 sv6 sv7 l1 l2 l3 l4 l5 l6 :
  exec_batch create_database_sql {| current_db := None |} (mysqld w0) = (Ok l1, ss2, sv2) ->
  exec_batch use_sql ss2 sv2 = (Ok l2, ss3, sv3) ->
  exec_batch create_tables_sql ss3 sv3 = (Ok l3, ss4, sv4) ->
  exec_batch clear_sql ss4 sv4 = (Ok l4, ss5, sv5) ->
  exec_batch insert_movies_sql ss5 sv5 = (Ok l5, ss6, sv6) ->
  exec_batch select_movies_sql ss6 sv6 = (Ok l6, ss7, sv7) ->
  exists w', setupTestDatabase w0 = (Return true, w') /\ mysqld w' = sv7.
Proof.
  intros H1 H2 H3 H4 H5 H6. apply (setup_leaves true ss7 sv7).
  unfold setup_try, console_log.
  apply ready_say; intros ?. apply ready_read; intros ?.
  apply ready_say; intros ?. apply ready_read; intros ?.
  apply ready_say; intros ?. apply ready_read; intros ?.
  apply ready_connect.
  repeat (apply quiet_say; intros ?). eapply quiet_query; [exact H1|].
  repeat (apply quiet_say; intros ?). eapply quiet_query; [exact H2|].
  repeat (apply quiet_say; intros ?). eapply quiet_query; [exact H3|].
  repeat (apply quiet_say; intros ?). eapply quiet_query; [exact H4|].
  repeat (apply quiet_say; intros ?). eapply quiet_query; [exact H5|].
  eapply quiet_query; [exact H6|].
  repeat (apply quiet_say; intros ?).
  intros s Hs. by split.
Qed.

(** When its third query fails, it returns [false]. *)
Lemma setup_fails_third ss2 ss3 ss4 sv2 sv3 sv4 l1 l2 e :
  exec_batch create_database_sql {| current_db := None |} (mysqld w0) = (Ok l1, ss2, sv2) ->
  exec_batch use_sql ss2 sv2 = (Ok l2, ss3, sv3) ->
  exec_batch create_tables_sql ss3 sv3 = (Err e, ss4, sv4) ->
  exists w', setupTestDatabase w0 = (Return false, w') /\ mysqld w' = sv4.
Proof.
  intros H1 H2 H3. apply (setup_leaves false ss4 sv4).
  unfold setup_try, console_log.
  apply ready_say; intros ?. apply ready_read; intros ?.
  apply ready_say; intros ?. apply ready_read; intros ?.
  apply ready_say; intros ?. apply ready_read; intros ?.
  apply ready_connect.
  repeat (apply quiet_say; intros ?). eapply quiet_query; [exact H1|].
  repeat (apply quiet_say; intros ?). eapply quiet_query; [exact H2|].
  repeat (apply quiet_say; intros ?). eapply quiet_query_fails; [exact H3|].
  intros s Hs. by split.
Qed.

End Quiet.

End ScriptFacts.

(** * Facts about the API test *)

Module ApiFacts.
Import Sql Schema Invariants Script Hoare SqlFacts ScriptFacts.

Lemma answered_snoc f reqs : forall hist r,
  answered f hist reqs -> rejection (f (hist ++ reqs)%list r) r = None ->
  answered f hist (reqs ++ [r]).
Proof.
  induction reqs as [|q reqs IH]; intros hist r Ha Hr; cbn [app answered] in *.
  - rewrite app_nil_r in Hr. by split.
  - destruct Ha as [Hq Ha]. split; [done|]. apply IH; [done|].
    by rewrite <- app_assoc.
Qed.


Section Api.
Variable w1 : world.

Lemma axios_step reqs r :
  triple (testing w1 reqs) (axios r)
         (fun rsp s => api w1 (sent w1 ++ reqs)%list r = Answer rsp /\
                       testing w1 (reqs ++ [r]) s)
         (fun e s => rejected w1 reqs r e s).
Proof.
  intros w ((Hsent & Hcon & Hapi & H1 & H2 & H3 & H4 & H5 & H6 & H7) & Hans).
  assert (trail w1 (reqs ++ [r])
            {| env := env w; mysqld := mysqld w; faults := faults w;
               sessions := sessions w; next_conn := next_conn w; db_log := db_log w;
               api := api w; sent := sent w ++ [r]; date_now := date_now w;
               console := console w |}) as Ht.
  { unfold trail.
    cbn [env mysqld faults sessions next_conn db_log api sent date_now console].
    rewrite Hsent, app_assoc. split; [reflexivity|]. split; [exact Hcon|]. tauto. }
  unfold axios.
  destruct (api w (sent w) r) as [rsp|msg] eqn:E; rewrite Hapi, Hsent in E.
  - destruct ((200 <=? status rsp) && (status rsp <? 300))%Z eqn:Es.
    + split; [done|]. split; [done|].
      apply answered_snoc; [done|]. unfold rejection. by rewrite E, Es.
    + split; [done|]. split; [done|]. unfold rejection. by rewrite E, Es.
  - split; [done|]. split; [done|]. unfold rejection. by rewrite E.
Qed.

Lemma testing_say reqs l t a (E : exn -> world -> Prop) :
  t <> report_heading ->
  triple (testing w1 reqs) (say l t a) (fun _ => testing w1 reqs) E.
Proof.
  intros Ht w ((Hsent & (entries & Hcon & Hq) & Hrest) & Hans).
  split; [|done]. split; [done|]. split; [|done].
  exists (entries ++ [Entry l t a])%list.
  cbn [say fst snd console]. rewrite Hcon, app_assoc. split; [done|].
  apply Forall_app. split; [done|]. by repeat constructor.
Qed.

Lemma testing_say_if reqs (b : bool) l t a l' t' a' (E : exn -> world -> Prop) :
  t <> report_heading -> t' <> report_heading ->
  triple (testing w1 reqs) (if b then say l t a else say l' t' a')
         (fun _ => testing w1 reqs) E.
Proof. intros. destruct b; by apply testing_say. Qed.

Lemma testing_now reqs (E : exn -> world -> Prop) :
  triple (testing w1 reqs) Date_now (fun t s => t = date_now w1 /\ testing w1 reqs s) E.
Proof. intros w H. split; [|done]. by destruct H as ((_ & _ & _ & -> & _) & _). Qed.

Lemma testing_get reqs v k :
  triple (testing w1 reqs) (get v k)
         (fun a s => a = prop v k /\ testing w1 reqs s) (broken w1).
Proof.
  intros w H. unfold get. destruct (nullish v); cbn.
  - left. by eexists _, _.
  - done.
Qed.

Lemma testing_get_first reqs v :
  triple (testing w1 reqs) (get_first v)
         (fun a s => a = first v /\ testing w1 reqs s) (broken w1).
Proof.
  intros w H. unfold get_first. destruct (nullish v); cbn.
  - left. by eexists _, _.
  - done.
Qed.

Lemma some_id_is_pure n l (w : world) :
  (exists b, some_id_is n l w = (Return b, w)) \/
  (exists m, some_id_is n l w = (Throw (TypeError m), w)).
Proof.
  induction l as [|x l IH]; cbn [some_id_is].
  - left. by exists false.
  - unfold mbind, get. destruct (nullish x); cbn.
    + right. by eexists.
    + destruct (is_number (prop x "id") n); [left; by exists true|exact IH].
Qed.

Lemma testing_some reqs v n :
  triple (testing w1 reqs) (some_with_id v n) (fun _ => testing w1 reqs) (broken w1).
Proof.
  intros w H.
  assert (forall m, broken w1 (TypeError m) w) as Hb.
  { intros m. left. by eexists _, _. }
  unfold some_with_id. destruct v; cbn; try apply Hb.
  destruct (some_id_is_pure n l w) as [[b ->]|[m ->]]; [done|apply Hb].
Qed.

Ltac differs := let H := fresh in intros H; vm_compute in H; discriminate H.

Ltac says := eapply triple_bind; [apply testing_say; differs|intros ?].

Ltac sends :=
  eapply triple_bind;
  [eapply triple_weaken;
   [apply axios_step|done|done|intros ? ? ?; right; by eexists _, _]
  |intros ?; apply triple_pure; intros ?].

Ltac reads :=
  eapply triple_bind;
  [first [apply testing_get|apply testing_get_first]|intros ?; apply triple_pure; intros ->].

Lemma test_try_spec :
  triple (testing w1 []) test_try (fun _ => completed w1) (broken w1).
Proof.
  unfold test_try, console_log, console_error, axios_post, axios_get, axios_delete, axios_put.
  says.
  eapply triple_bind; [apply testing_now|intros t; apply triple_pure; intros ->].
  says. sends. says. says. sends. says.
  reads.
  says. sends. says. says. sends. says. says.
  reads. reads. reads. reads. reads. reads.
  sends. says. says. sends. says. says. sends. says. sends. says.
  eapply triple_bind; [apply testing_some|intros still].
  eapply triple_bind; [apply testing_say_if; differs|intros ?].
  says. sends. says. says. sends. says.
  eapply triple_weaken; [apply testing_say; differs|done| |done].
  intros ? s Hs.
  match goal with
  | H1 : api w1 (sent w1 ++ [])%list _ = Answer ?r1,
    H4 : api w1 (sent w1 ++ (([] ++ _) ++ _) ++ _)%list _ = Answer ?r4 |- _ =>
    exists r1, r4; split; [|split]; [eexists; split; [reflexivity|exact H1]
                                    |eexists; split; [reflexivity|exact H4]
                                    |exact Hs]
  end.
Qed.

End Api.

Lemma testing_start w : testing w [] w.
Proof.
  split; [|done]. unfold trail. rewrite app_nil_r. split; [done|].
  split; [|tauto]. exists []. by rewrite app_nil_r.
Qed.

Lemma rejection_config o r e :
  rejection o r = Some e -> exists msg resp, e = AxiosError msg resp r.
Proof.
  unfold rejection. intros H. destruct o as [rsp|msg].
  - destruct ((200 <=? status rsp) && (status rsp <? 300))%Z; simplify_eq. by eexists _, _.
  - simplify_eq. by eexists _, _.
Qed.

Lemma failure_report_axios msg resp r :
  failure_report (AxiosError msg resp r) = axios_report msg resp r.
Proof. by destruct resp. Qed.

(** [testAPI] always returns: either its [try] block completed, or the
    block threw into a state [wm] and the [catch] block printed the
    report. *)
Lemma testAPI_spec w :
  exists w', testAPI w = (Return tt, w') /\
    (completed w w' \/
     exists e wm, broken w e wm /\
       w' = snd (say ERROR report_heading [failure_report e] wm)).
Proof.
  pose proof (test_try_spec w w (testing_start w)) as H.
  unfold testAPI, try_catch.
  destruct (test_try w) as [[[]|e] wm].
  - exists wm. split; [done|by left].
  - eexists. split; [reflexivity|]. right. by exists e, wm.
Qed.

(** What [testAPI] leaves untouched. *)
Lemma testAPI_frame w :
  let w' := snd (testAPI w) in
  mysqld w' = mysqld w /\ sessions w' = sessions w /\ db_log w' = db_log w /\
  next_conn w' = next_conn w /\ faults w' = faults w /\ env w' = env w.
Proof.
  destruct (testAPI_spec w) as (w' & -> & H). cbn [snd].
  assert (forall reqs wm, trail w reqs wm ->
            mysqld wm = mysqld w /\ sessions wm = sessions w /\ db_log wm = db_log w /\
            next_conn wm = next_conn w /\ faults wm = faults w /\ env wm = env w) as Ht.
  { intros reqs wm (_ & _ & _ & _ & ? & ? & ? & ? & ? & ?). tauto. }
  destruct H as [(r1 & r4 & _ & _ & Htr & _)|(e & wm & Hb & ->)].
  - by eapply Ht.
  - cbn [say snd mysqld sessions db_log next_conn faults env].
    destruct Hb as [(reqs & m & _ & Htr & _)|(pre & r & Htr & _)]; by eapply Ht.
Qed.

(** [runTests]: the setup, and then the API test or nothing. *)
Lemma runTests_spec w :
  exists b w2 w3,
    setupTestDatabase (announced w) = (Return b, w2) /\ finished (announced w) b w2 /\
    runTests w = (Return tt, w3) /\
    (if b then w3 = snd (testAPI (snd (console_log (nl ++ "Starting API tests...") [] w2)))
     else w3 = snd (console_log "Skipping API tests due to database setup failure" [] w2)).
Proof.
  destruct (setup_finishes (announced w)) as (b & w2 & Hs & Hf).
  exists b, w2. unfold runTests, mbind.
  change (console_log "Setting up test database..." [] w) with (Return tt, announced w).
  cbv iota. rewrite Hs. destruct b.
  - cbn [console_log say].
    match goal with |- context [testAPI ?x] =>
      destruct (testAPI_spec x) as (w3 & Ht & _); rewrite Ht end.
    exists w3. repeat (split; [done|]).
    unfold console_log, say. cbn [snd]. by rewrite Ht.
  - eexists. done.
Qed.

End ApiFacts.

(** * The model on concrete inputs *)

Module Checks.
Import Sql Schema Invariants Script Hoare Routes Examples.

Example like_is_a_prefix_test :
  like Binary "testuser%" (VStr "testuser_1700000000000") = true /\
  like Binary "testuser%" (VStr "testuser") = true /\
  like Binary "testuser%" (VStr "a_testuser") = false /\
  like Binary "testuser%" (VStr "TestUser_1") = false /\
  like CaseInsensitive "testuser%" (VStr "TestUser_1") = true /\
  like Binary "testuser%" VNull = false.
Proof. repeat split; reflexivity. Qed.

Example first_run_on_a_new_server :
  fst (setupTestDatabase fresh_world) = Return true /\
  map text (console (snd (setupTestDatabase fresh_world))) =
    [ "Attempting to connect to MySQL..."; "Using host:"; "Using user:";
      "Successfully connected to MySQL"; "Creating database if it doesn't exist...";
      "Switching to movie_recommendation_app database..."; "Creating tables...";
      "Clearing existing test data..."; "Inserting test movies..."; "Inserted movies:";
      "Database setup completed successfully" ] /\
  sessions (snd (setupTestDatabase fresh_world)) = ∅.
Proof. repeat split; vm_compute; reflexivity. Qed.

Example seeded_ids_start_at_one :
  exists db,
    databases (mysqld (snd (setupTestDatabase fresh_world))) !! app_db = Some db /\
    map (row_get "id") (rows_of "movies" db) = [VInt 1; VInt 2; VInt 3] /\
    rows_of "users" db = [] /\ rows_of "deletion_logs" db = [].
Proof. eexists. split; [vm_compute; reflexivity|]. repeat split; reflexivity. Qed.

Example refused_connection :
  let w := {| env := {[ "DB_HOST" := "db.internal" ]}; mysqld := new_server;
              faults := [Some ECONNREFUSED]; sessions := ∅; next_conn := 0;
              db_log := []; api := example_api; sent := []; date_now := 0;
              console := [] |} in
  fst (setupTestDatabase w) = Return false /\
  db_log (snd (setupTestDatabase w)) =
    [Connect {| host := "db.internal"; user := "root"; password := None;
                multipleStatements := true |} None] /\
  map text (console (snd (runTests w))) =
    [ "Setting up test database..."; "Attempting to connect to MySQL..."; "Using host:";
      "Using user:"; "Detailed database setup error:";
      "Connection refused. Please check if MySQL is running";
      "Skipping API tests due to database setup failure" ].
Proof. repeat split; vm_compute; reflexivity. Qed.

Example lost_connection_is_still_closed :
  let w := {| env := ∅; mysqld := new_server;
              faults := [None; None; None; Some PROTOCOL_CONNECTION_LOST];
              sessions := ∅; next_conn := 0; db_log := []; api := example_api;
              sent := []; date_now := 0; console := [] |} in
  fst (setupTestDatabase w) = Return false /\
  last (db_log (snd (setupTestDatabase w))) = Some (EndConnection 0) /\
  length (db_log (snd (setupTestDatabase w))) = 5%nat /\
  sessions (snd (setupTestDatabase w)) = ∅.
Proof. repeat split; vm_compute; reflexivity. Qed.

Example rejected_login :
  let w := {| env := ∅; mysqld := new_server; faults := []; sessions := ∅;
              next_conn := 0; db_log := [];
              api := fun hist r =>
                       if String.eqb (req_url r) "http://localhost:3000/login"
                       then Answer {| status := 401;
                                      data := JObj [("message", JStr "Invalid credentials")] |}
                       else example_api hist r;
              sent := []; date_now := 42; console := [] |} in
  map req_url (sent (snd (testAPI w))) =
    ["http://localhost:3000/users"; "http://localhost:3000/login"] /\
  last (console (snd (testAPI w))) =
    Some {| lvl := ERROR; text := report_heading;
            args := [JObj [("message", JStr "Invalid credentials");
                           ("status", JNum 401);
                           ("endpoint", JStr "http://localhost:3000/login");
                           ("method", JStr "post");
                           ("data", JObj [("username", JStr "testuser_42");
                                          ("password", JStr "password123")])]] |}.
Proof. split; vm_compute; reflexivity. Qed.

Example pages :
  page routes [] = Some LoginComponent /\
  page routes ["signup"] = Some SignupComponent /\
  page routes ["movies"; "1"] = None /\
  page routes ["admin"] = None.
Proof. repeat split; reflexivity. Qed.

End Checks.

(** * Facts about the route table *)

Module RoutesFacts.
Import Routes.

Lemma same_segments_eq a : forall b, same_segments a b = true -> a = b.
Proof.
  induction a as [|x a IH]; intros [|y b] H; try done.
  cbn [same_segments] in H. apply andb_true_iff in H as [Hx Hab].
  apply String.eqb_eq in Hx. f_equal; [done|by apply IH].
Qed.

(** A route without children accepts exactly the URL made of its own
    segments. *)
Lemma accepts_own r url : accepts url r = true -> url = segments (path r).
Proof.
  unfold accepts, consume. intros H.
  destruct (Nat.ltb_spec (length url) (length (segments (path r)))); [done|].
  destruct (match pathMatch r with
            | Some full => Nat.ltb (length (segments (path r))) (length url)
            | _ => false
            end); [done|].
  destruct (same_segments (segments (path r)) (firstn (length (segments (path r))) url))
    eqn:Es; [|done].
  apply same_segments_eq in Es.
  destruct (skipn (length (segments (path r))) url) eqn:Ek; [|done].
  rewrite <- (firstn_skipn (length (segments (path r))) url), Ek, app_nil_r. done.
Qed.

Lemma find_unique {A} (p : A -> bool) (l l' : list A) :
  (forall x y, In x l -> In y l -> p x = true -> p y = true -> x = y) ->
  Permutation l l' -> List.find p l' = List.find p l.
Proof.
  intros Hu Hp.
  destruct (List.find p l') as [y|] eqn:Ey; destruct (List.find p l) as [x|] eqn:Ex; try done.
  - apply find_some in Ey as [Hy Hpy]. apply find_some in Ex as [Hx Hpx].
    f_equal. apply Hu; try done. by eapply Permutation_in; [symmetry|].
  - apply find_some in Ey as [Hy Hpy].
    eapply find_none in Ex; [|by eapply Permutation_in; [symmetry|]]. congruence.
  - apply find_some in Ex as [Hx Hpx].
    eapply find_none in Ey; [|by eapply Permutation_in]. congruence.
Qed.

(** No URL is accepted by two routes of the table. *)
Lemma routes_disjoint url x y :
  In x routes -> In y routes -> accepts url x = true -> accepts url y = true -> x = y.
Proof.
  intros Hx Hy Ax Ay. apply accepts_own in Ax, Ay. rewrite Ax in Ay. clear Ax.
  unfold routes in Hx, Hy. cbn [In] in Hx, Hy.
  repeat destruct Hx as [<-|Hx]; try done;
    repeat destruct Hy as [<-|Hy]; try done; by vm_compute in Ay.
Qed.

Lemma recognize_perm table url :
  Permutation routes table -> recognize table url = recognize routes url.
Proof. intros Hp. apply find_unique; [|done]. apply routes_disjoint. Qed.

Lemma navigate_perm table fuel : forall url,
  Permutation routes table -> navigate fuel table url = navigate fuel routes url.
Proof.
  induction fuel as [|fuel IH]; intros url Hp; cbn [navigate]; rewrite recognize_perm by done.
  - done.
  - destruct (recognize routes url) as [r|]; [|done].
    destruct (redirectTo r); [by apply IH|done].
Qed.

End RoutesFacts.

(** * Further properties of the schema and of the script *)

Module FurtherFacts.
Import Sql Schema Invariants Script Hoare Routes Examples Further.
Import SqlFacts ScriptFacts ApiFacts RoutesFacts.

#[local] Arguments String.eqb !s1 !s2 : simpl nomatch.
#[local] Arguments Z.eqb !x !y : simpl nomatch.

(** *** Inserts under the constraints of the tables *)

Lemma existsb_same {A} (f g : A -> bool) (l : list A) :
  (forall x, f x = g x) -> existsb f l = existsb g l.
Proof. intros H. induction l as [|x l IH]; [done|]. cbn [existsb]. by rewrite H, IH. Qed.

Lemma same_key_one co c r r' :
  same_key co [c] r r' = sql_eqb co (row_get c r) (row_get c r').
Proof. unfold same_key. cbn [forallb]. apply andb_true_r. Qed.

Lemma same_key_two co c d r r' :
  same_key co [c; d] r r' =
  sql_eqb co (row_get c r) (row_get c r') && sql_eqb co (row_get d r) (row_get d r').
Proof. unfold same_key. cbn [forallb]. by rewrite andb_true_r. Qed.

Lemma insert_movie co clock tbls m title n :
  tbls !! "movies" = Some m -> t_def m = movies_def -> numbered m ->
  insert_row co clock tbls "movies" ["title"; "tmdb_id"] [VStr title; VInt n] =
  if has_number co "tmdb_id" n m
  then Err ER_DUP_ENTRY
  else Ok (<["movies" :=
              {| t_def := movies_def;
                 t_rows := t_rows m ++ [movie_row (t_auto_increment m) (VInt n) title clock];
                 t_auto_increment := t_auto_increment m + 1 |}]> tbls).
Proof.
  intros Ht Hd Hn. unfold insert_row. rewrite Ht. cbn [from_option bind]. rewrite Hd.
  cbn -[sql_eqb Z.add Z.max same_key next_auto].
  rewrite fresh_id by done. cbn [negb andb].
  rewrite (existsb_same _ (fun r => sql_eqb co (VInt n) (row_get "tmdb_id" r)))
    by (intros r; apply same_key_one).
  unfold has_number.
  destruct (existsb _ (t_rows m)); [done|]. cbn [negb andb guard bind].
  unfold next_auto. rewrite Hd. cbn -[Z.add Z.max].
  change (row_get "id" _) with (VInt (t_auto_increment m)).
  cbn -[Z.add Z.max]. by rewrite Z.max_r by lia.
Qed.

Lemma existsb_never {A} (f : A -> bool) (l : list A) :
  (forall x, f x = false) -> existsb f l = false.
Proof. intros H. induction l as [|x l IH]; [done|]. cbn [existsb]. by rewrite H, IH. Qed.

Lemma insert_movie_without_tmdb_id co clock tbls m title :
  tbls !! "movies" = Some m -> t_def m = movies_def -> numbered m ->
  insert_row co clock tbls "movies" ["title"] [VStr title] =
  Ok (<["movies" :=
         {| t_def := movies_def;
            t_rows := t_rows m ++ [movie_row (t_auto_increment m) VNull title clock];
            t_auto_increment := t_auto_increment m + 1 |}]> tbls).
Proof.
  intros Ht Hd Hn. unfold insert_row. rewrite Ht. cbn [from_option bind]. rewrite Hd.
  cbn -[sql_eqb Z.add Z.max same_key next_auto].
  rewrite fresh_id by done. cbn [negb andb].
  rewrite existsb_never by (intros r; by rewrite same_key_one).
  cbn [negb andb guard bind].
  unfold next_auto. rewrite Hd. cbn -[Z.add Z.max].
  change (row_get "id" _) with (VInt (t_auto_increment m)).
  cbn -[Z.add Z.max]. by rewrite Z.max_r by lia.
Qed.

Lemma insert_association co clock tbls u m um uid mid :
  tbls !! "users" = Some u -> tbls !! "movies" = Some m ->
  tbls !! "user_movies" = Some um -> t_def um = user_movies_def ->
  insert_row co clock tbls "user_movies" ["user_id"; "movie_id"] [VInt uid; VInt mid] =
  if paired co uid mid um then Err ER_DUP_ENTRY
  else if has_number co "id" uid u && has_number co "id" mid m
  then Ok (<["user_movies" :=
              {| t_def := user_movies_def;
                 t_rows := t_rows um ++ [association uid mid clock];
                 t_auto_increment := t_auto_increment um |}]> tbls)
  else Err ER_NO_REFERENCED_ROW_2.
Proof.
  intros Hu Hm Ht Hd. unfold insert_row. rewrite Ht. cbn [from_option bind]. rewrite Hd.
  cbn -[sql_eqb Z.add Z.max same_key next_auto has_parent].
  rewrite (existsb_same _ (fun r => sql_eqb co (VInt uid) (row_get "user_id" r) &&
                                    sql_eqb co (VInt mid) (row_get "movie_id" r)))
    by (intros r; apply same_key_two).
  fold (paired co uid mid um). destruct (paired co uid mid um); [done|].
  cbn [negb andb guard bind].
  unfold has_parent. cbn [fk_column fk_ref_table fk_ref_column].
  change (row_get "user_id" _) with (VInt uid).
  change (row_get "movie_id" _) with (VInt mid).
  rewrite Hu, Hm. cbn [is_null orb]. rewrite andb_true_r.
  fold (has_number co "id" uid u). fold (has_number co "id" mid m).
  destruct (has_number co "id" uid u && has_number co "id" mid m); [|done].
  cbn [guard bind]. unfold next_auto. rewrite Hd. done.
Qed.

(** *** [LIKE 'testuser%'] *)

Lemma like_testuser_chars co (l : list ascii) :
  like_chars co (list_ascii_of_string "testuser%") l =
  chars_eqb co (list_ascii_of_string "testuser") (firstn 8 l).
Proof.
  cbn [list_ascii_of_string].
  do 8 (destruct l as [|? l]; [reflexivity|];
        cbn [like_chars chars_eqb firstn Ascii.eqb Bool.eqb]; f_equal).
  cbn [firstn]. clear. induction l as [|a l IH]; [reflexivity|exact IH].
Qed.

Lemma chars_eqb_binary (a : list ascii) : forall b, chars_eqb Binary a b = true <-> a = b.
Proof.
  induction a as [|x a IH]; intros [|y b]; cbn [chars_eqb char_eqb]; try done.
  rewrite andb_true_iff, IH, Ascii.eqb_eq. split; [by intros [-> ->]|by intros [= -> ->]].
Qed.

Lemma chars_eqb_refl co (a : list ascii) : chars_eqb co a a = true.
Proof.
  induction a as [|x a IH]; [done|]. cbn [chars_eqb]. rewrite IH, andb_true_r.
  destruct co; cbn [char_eqb]; apply Ascii.eqb_refl.
Qed.

Lemma list_ascii_app (a b : string) :
  list_ascii_of_string (a ++ b) = (list_ascii_of_string a ++ list_ascii_of_string b)%list.
Proof.
  induction a as [|c a IH]; [done|].
  change (c :: list_ascii_of_string (a ++ b) = c :: (list_ascii_of_string a ++ list_ascii_of_string b)%list).
  by rewrite IH.
Qed.

(** *** The account of [setupTestDatabase] *)

Lemma catch_hint code :
  is_string (prop (json_of_exn (DbError code)) "code") "ER_ACCESS_DENIED_ERROR" =
    match code with ER_ACCESS_DENIED_ERROR => true | _ => false end /\
  is_string (prop (json_of_exn (DbError code)) "code") "ECONNREFUSED" =
    match code with ECONNREFUSED => true | _ => false end.
Proof. by destruct code. Qed.

Lemma later_none a : later 0 a = a.
Proof. by destruct a. Qed.

Lemma later_succ k a : later k (later 1 a) = later (S k) a.
Proof. unfold later. cbn [acc_queries acc_failure acc_answers acc_session acc_server]. f_equal. lia. Qed.

Lemma run_fault q qs fs ss sv last e :
  fault_at fs = Some e -> run (q :: qs) fs ss sv last = Account 1 (Some e) last ss sv.
Proof. intros H. cbn [run]. by rewrite H. Qed.

Lemma run_error q qs fs ss sv last e ss' sv' :
  fault_at fs = None -> exec_batch q ss sv = (Err e, ss', sv') ->
  run (q :: qs) fs ss sv last = Account 1 (Some e) last ss' sv'.
Proof. intros H Hx. cbn [run]. by rewrite H, Hx. Qed.

Lemma run_ok q qs fs ss sv last l ss' sv' :
  fault_at fs = None -> exec_batch q ss sv = (Ok l, ss', sv') ->
  run (q :: qs) fs ss sv last = later 1 (run qs (tail fs) ss' sv' l).
Proof. intros H Hx. cbn [run]. by rewrite H, Hx. Qed.

Lemma plan_queries id cfg :
  plan id cfg = Connect cfg (Some id) :: map (Query id) queries.
Proof. reflexivity. Qed.

Lemma take_plan id cfg k sql rest :
  drop k queries = sql :: rest ->
  take (S (S k)) (plan id cfg) = (take (S k) (plan id cfg) ++ [Query id sql])%list.
Proof.
  intros H. rewrite plan_queries. cbn [take app]. f_equal.
  rewrite <- !fmap_take.
  assert (queries !! k = Some sql) as Hk.
  { rewrite <- (Nat.add_0_r k), <- lookup_drop, H. done. }
  rewrite (take_S_r _ _ _ Hk). by rewrite fmap_app.
Qed.

Lemma connect_fault_at cfg w :
  createConnection cfg w =
  match fault_at (faults w) with
  | Some e =>
    (Throw (DbError e),
     after_db_call w (mysqld w) (sessions w) (next_conn w) (Connect cfg None))
  | None =>
    (Return (next_conn w),
     after_db_call w (mysqld w) (<[next_conn w := {| current_db := None |}]> (sessions w))
                   (S (next_conn w)) (Connect cfg (Some (next_conn w))))
  end.
Proof. unfold createConnection. by destruct (faults w) as [|[e|] ?]. Qed.

Lemma query_fault_at id sql w :
  query id sql w =
  match fault_at (faults w) with
  | Some e =>
    (Throw (DbError e),
     after_db_call w (mysqld w) (sessions w) (next_conn w) (Query id sql))
  | None =>
    match sessions w !! id with
    | None =>
      (Throw (DbError PROTOCOL_CONNECTION_LOST),
       after_db_call w (mysqld w) (sessions w) (next_conn w) (Query id sql))
    | Some ss =>
      let '(r, ss', sv') := exec_batch sql ss (mysqld w) in
      (match r with Ok l => Return l | Err e => Throw (DbError e) end,
       after_db_call w sv' (<[id := ss']> (sessions w)) (next_conn w) (Query id sql))
    end
  end.
Proof. unfold query. by destruct (faults w) as [|[e|] ?]. Qed.

Section Account.
Variable w0 : world.

Let id := next_conn w0.
Let cfg := connection_config w0.

Lemma amid_say c log ss n sv fs entries l t a (E : exn -> option nat * world -> Prop) :
  triple (amid w0 c log ss n sv fs entries) (lift (say l t a))
         (fun _ => amid w0 c log ss n sv fs (entries ++ [Entry l t a])) E.
Proof.
  intros [c' w] (Hc & Hl & Hss & Hn & Hsv & Hf & Hco & Ho).
  unfold lift, say, amid.
  cbn [snd fst console db_log sessions next_conn mysqld faults] in *.
  rewrite Hco, <- app_assoc. done.
Qed.

Lemma amid_env_or c log ss n sv fs entries key dflt (E : exn -> option nat * world -> Prop) :
  triple (amid w0 c log ss n sv fs entries) (lift (read (env_or key dflt)))
         (fun a s => a = env_or key dflt w0 /\ amid w0 c log ss n sv fs entries s) E.
Proof.
  intros [c' w] H. unfold lift, read. cbn [snd fst]. split; [|exact H].
  destruct H as (_ & _ & _ & _ & _ & _ & _ & He & _). cbn [snd] in He.
  unfold env_or. by rewrite He.
Qed.

Lemma amid_config c log ss n sv fs entries (E : exn -> option nat * world -> Prop) :
  triple (amid w0 c log ss n sv fs entries) (lift (read connection_config))
         (fun a s => a = cfg /\ amid w0 c log ss n sv fs entries s) E.
Proof.
  intros [c' w] H. unfold lift, read. cbn [snd fst]. split; [|exact H].
  destruct H as (_ & _ & _ & _ & _ & _ & _ & He & _). cbn [snd] in He.
  unfold cfg, connection_config, env_or. by rewrite He.
Qed.

Lemma off_line_connect entries :
  triple (off_line w0 [] (faults w0) entries) (lift (createConnection cfg))
         (fun c s => c = id /\ fault_at (faults w0) = None /\
                     at_call w0 None 1 {| current_db := None |} (mysqld w0)
                             (tail (faults w0)) entries s)
         (fun e s => exists c, fault_at (faults w0) = Some c /\ e = DbError c /\
                     off_line w0 [Connect cfg None] (tail (faults w0)) entries s).
Proof.
  intros [c w] (Hc & Hl & Hss & Hn & Hsv & Hf & Hco & Ho).
  unfold lift. rewrite connect_fault_at. cbn [snd fst] in *. rewrite Hf.
  rewrite app_nil_r in Hl.
  destruct (fault_at (faults w0)) as [e|];
    unfold at_call, off_line, amid;
    cbn [snd fst after_db_call db_log sessions next_conn mysqld faults console tail];
    rewrite ?Hl, ?Hss, ?Hn, ?Hf; try (exists e); repeat (split; [done|]); exact Ho.
Qed.

Lemma at_call_set_local entries (E : exn -> option nat * world -> Prop) :
  fault_at (faults w0) = None ->
  triple (at_call w0 None 1 {| current_db := None |} (mysqld w0) (tail (faults w0)) entries)
         (set_local (Some id)) (fun _ => querying w0 0 [] entries) E.
Proof.
  intros Hf [c w] (Hc & H). unfold set_local. split; [done|].
  eexists _, _, _. split; [split; [reflexivity|exact H]|].
  by rewrite later_none.
Qed.

Lemma querying_say k last entries l t a (E : exn -> option nat * world -> Prop) :
  triple (querying w0 k last entries) (lift (say l t a))
         (fun _ => querying w0 k last (entries ++ [Entry l t a])) E.
Proof.
  intros s (Hf & ss & sv & fs & Hat & Hacc).
  pose proof (amid_say _ _ _ _ _ _ _ l t a (fun _ _ => False) s Hat) as H.
  destruct (lift (say l t a) s) as [[[]|e] s'] eqn:Es; [|done].
  split; [done|]. by eexists _, _, _.
Qed.

Lemma querying_query k last entries sql rest :
  drop k queries = sql :: rest ->
  triple (querying w0 k last entries) (lift (query id sql))
         (fun l => querying w0 (S k) l entries)
         (fun e s => fault_at (faults w0) = None /\
            exists c fs,
              e = DbError c /\ acc_failure (setup_account w0) = Some c /\
              acc_queries (setup_account w0) = S k /\
              at_call w0 (Some id) (S (S k)) (acc_session (setup_account w0))
                      (acc_server (setup_account w0)) fs entries s).
Proof.
  intros Hd [c w] (Hq & ss & sv & fs & (Hc & Hl & Hss & Hn & Hsv & Hf & Hco & Ho) & Hacc).
  rewrite Hd in Hacc. rewrite Hacc.
  unfold lift. rewrite query_fault_at. cbn [snd fst] in *.
  rewrite Hf, Hss, lookup_insert_eq, Hsv.
  assert (db_log w ++ [Query id sql] =
          db_log w0 ++ take (S (S k)) (plan (next_conn w0) (connection_config w0)))%list as Hlog.
  { rewrite (take_plan _ _ _ _ _ Hd), Hl, <- app_assoc. done. }
  destruct (fault_at fs) as [e|] eqn:Ef.
  - split; [done|]. exists e, (tail fs). rewrite (run_fault _ _ _ _ _ _ e) by done.
    unfold later. cbn [acc_queries acc_failure acc_session acc_server].
    split; [done|]. split; [done|]. split; [lia|].
    unfold at_call, amid.
    cbn [snd fst after_db_call db_log sessions next_conn mysqld faults console tail].
    rewrite ?Hss, ?Hf. done.
  - destruct (exec_batch sql ss sv) as [[[l|e] ss'] sv'] eqn:Ex.
    + split; [done|]. exists ss', sv', (tail fs). split.
      * unfold at_call, amid.
        cbn [snd fst after_db_call db_log sessions next_conn mysqld faults console tail].
        rewrite ?Hss, ?insert_insert_eq, ?Hf. done.
      * rewrite Hacc, (run_ok _ _ _ _ _ _ l ss' sv') by done.
        rewrite later_succ. f_equal.
        replace (S k) with (k + 1)%nat by lia. by rewrite <- drop_drop, Hd.
    + split; [done|]. exists e, (tail fs).
      rewrite (run_error _ _ _ _ _ _ e ss' sv') by done.
      unfold later. cbn [acc_queries acc_failure acc_session acc_server].
      split; [done|]. split; [done|]. split; [lia|].
      unfold at_call, amid.
      cbn [snd fst after_db_call db_log sessions next_conn mysqld faults console tail].
      rewrite ?Hss, ?insert_insert_eq, ?Hf. done.
Qed.

Ltac tell := eapply triple_bind; [apply querying_say|intros ?].

Ltac call k :=
  eapply triple_bind;
  [eapply triple_weaken;
   [eapply (querying_query k); reflexivity|done|done
   |let Hf := fresh in let Ha := fresh in let Hq := fresh in let H := fresh in
    intros ? ? (Hf & ? & ? & -> & Ha & Hq & H);
    unfold halted; rewrite Hf; cbv zeta; rewrite Hq; eexists _, _;
    split; [reflexivity|]; split; [exact Ha|]; rewrite app_nil_r; exact H]
  |intros ?].

Lemma setup_try_account :
  triple (off_line w0 [] (faults w0) []) setup_try
         (fun b s => b = true /\
            querying w0 6 (acc_answers (setup_account w0))
              (setup_lines w0 ++ success_lines (results (acc_answers (setup_account w0)))) s)
         (halted w0 []).
Proof.
  unfold setup_try, console_log.
  eapply triple_bind; [apply amid_say|intros ?].
  eapply triple_bind; [apply amid_env_or|intros ?; apply triple_pure; intros ->].
  eapply triple_bind; [apply amid_say|intros ?].
  eapply triple_bind; [apply amid_env_or|intros ?; apply triple_pure; intros ->].
  eapply triple_bind; [apply amid_say|intros ?].
  eapply triple_bind; [apply amid_config|intros ?; apply triple_pure; intros ->].
  eapply triple_bind.
  { eapply triple_weaken; [apply off_line_connect|done|done|].
    intros e s (c & Hf & -> & H). unfold halted. rewrite Hf. split; [done|].
    rewrite app_nil_r. exact H. }
  intros ?. apply triple_pure. intros ->. apply triple_pure. intros Hf.
  eapply triple_bind; [by apply at_call_set_local|intros ?].
  tell. tell. call 0%nat. tell. call 1%nat. tell. call 2%nat. tell. call 3%nat. tell.
  call 4%nat.
  eapply triple_bind;
    [eapply triple_weaken;
     [eapply (querying_query 5); reflexivity|done|done
     |let Hf := fresh in let Ha := fresh in let Hq := fresh in let H := fresh in
      intros ? ? (Hf & ? & ? & -> & Ha & Hq & H);
      unfold halted; rewrite Hf; cbv zeta; rewrite Hq; eexists _, _;
      split; [reflexivity|]; split; [exact Ha|]; rewrite app_nil_r; exact H]
    |intros movies].
  tell. tell.
  intros s H. cbn [ret]. split; [done|].
  assert (acc_answers (setup_account w0) = movies) as ->; [|exact H].
  destruct H as (_ & ss & sv & fs & _ & ->). reflexivity.
Qed.

Lemma halted_say suffix e l t a :
  triple (halted w0 suffix e) (lift (say l t a))
         (fun _ => halted w0 (suffix ++ [Entry l t a]) e) (fun _ _ => False).
Proof.
  intros s H. unfold halted in *.
  destruct (fault_at (faults w0)) as [c0|].
  - destruct H as [He H].
    pose proof (amid_say _ _ _ _ _ _ _ l t a (fun _ _ => False) s H) as H'.
    destruct (lift (say l t a) s) as [[[]|?] s']; [|done].
    split; [done|]. rewrite app_assoc. exact H'.
  - destruct H as (c1 & fs & He & Ha & H).
    pose proof (amid_say _ _ _ _ _ _ _ l t a (fun _ _ => False) s H) as H'.
    destruct (lift (say l t a) s) as [[[]|?] s']; [|done].
    exists c1, fs. split; [done|]. split; [done|]. rewrite app_assoc. exact H'.
Qed.

Lemma setup_catch_account c suffix :
  triple (halted w0 suffix (DbError c)) (setup_catch (DbError c))
         (fun b s => b = false /\ halted w0 (suffix ++ error_lines c) (DbError c) s)
         (fun _ _ => False).
Proof.
  unfold setup_catch, console_error. destruct (catch_hint c) as [-> ->].
  eapply triple_bind; [apply halted_say|intros ?].
  eapply triple_bind with (R := fun _ => halted w0 (suffix ++ error_lines c) (DbError c)).
  - unfold error_lines, hint.
    destruct c; cbv iota;
      try (intros s H; exact H);
      (eapply triple_weaken;
       [apply halted_say|done
       |intros ? s H; rewrite <- app_assoc in H; exact H
       |intros ? ? HF; exact HF]).
  - intros ? s H. cbn [ret]. done.
Qed.

(** The [finally] block leaves the local variable behind. *)
Lemma setup_finally_amid c log ss n sv fs entries :
  triple (amid w0 c log ss n sv fs entries) setup_finally
         (fun _ s =>
            match c with
            | Some i =>
              amid w0 c (log ++ [EndConnection i]) (delete i ss) n sv fs entries s
            | None => amid w0 c log ss n sv fs entries s
            end)
         (fun _ _ => False).
Proof.
  intros [c' w] (Hc & Hl & Hss & Hn & Hsv & Hf & Hco & Ho).
  unfold setup_finally, mbind, get_local. cbn [fst snd] in *. subst c'.
  destruct c as [i|]; unfold lift, end_connection, ret, amid;
    cbn [fst snd db_log sessions next_conn mysqld faults console]; [|done].
  rewrite Hl, Hss, <- app_assoc. done.
Qed.

End Account.

(** Every run of [setupTestDatabase] ends as its account says. *)
Lemma setup_runs w :
  exists b w', setupTestDatabase w = (Return b, w') /\ accounted w b w'.
Proof.
  unfold setupTestDatabase, scope, finally, try_catch.
  assert (off_line w [] (faults w) [] (None, w)) as H0.
  { unfold off_line, amid. cbn [fst snd]. rewrite !app_nil_r. repeat split; done. }
  pose proof (setup_try_account w _ H0) as Ht.
  destruct (setup_try (None, w)) as [[b|e] s1].
  - destruct Ht as (-> & Hf & ss & sv & fs & Hat & Hacc).
    cbn [drop queries run] in Hacc. rewrite Hacc in Hat.
    pose proof (setup_finally_amid w _ _ _ _ _ _ _ _ Hat) as Hfin. cbv iota in Hfin.
    destruct (setup_finally s1) as [[[]|?] s2]; [|done].
    exists true, (snd s2). split; [done|].
    destruct Hfin as (_ & Hl & Hss & _ & Hsv & _ & Hco & Ho).
    unfold accounted. rewrite Hf. cbv zeta. rewrite Hacc.
    unfold account_lines, later.
    cbn [acc_queries acc_failure acc_answers acc_session acc_server Nat.add].
    rewrite delete_insert_eq in Hss. done.
  - assert (exists c, e = DbError c) as [c ->].
    { unfold halted in Ht. destruct (fault_at (faults w)).
      - destruct Ht as [-> _]. by eexists.
      - destruct Ht as (c & _ & -> & _). by eexists. }
    pose proof (setup_catch_account w c [] _ Ht) as Hc.
    destruct (setup_catch (DbError c) s1) as [[b|?] s2]; [|done].
    destruct Hc as (-> & Hc). unfold halted in Hc. unfold accounted.
    destruct (fault_at (faults w)) as [c0|].
    + destruct Hc as [Hc0 Hc]. injection Hc0 as <-.
      pose proof (setup_finally_amid w _ _ _ _ _ _ _ _ Hc) as Hfin. cbv iota in Hfin.
      destruct (setup_finally s2) as [[[]|?] s3]; [|done].
      exists false, (snd s3). split; [done|].
      destruct Hfin as (_ & Hl & Hss & _ & Hsv & _ & Hco & Ho). done.
    + destruct Hc as (c1 & fs & Hc1 & Hfail & Hc). injection Hc1 as <-.
      pose proof (setup_finally_amid w _ _ _ _ _ _ _ _ Hc) as Hfin. cbv iota in Hfin.
      destruct (setup_finally s2) as [[[]|?] s3]; [|done].
      exists false, (snd s3). split; [done|].
      destruct Hfin as (_ & Hl & Hss & _ & Hsv & _ & Hco & Ho).
      cbv zeta. unfold account_lines. rewrite Hfail.
      rewrite delete_insert_eq in Hss. done.
Qed.


(** *** What [testAPI] prints *)

Lemma some_id_is_has_id n l (w : world) :
  match some_id_is n l w with
  | (Return b, w') => b = has_id n (JArr l) /\ w' = w
  | (Throw _, w') => w' = w
  end.
Proof.
  induction l as [|m l IH]; [done|].
  cbn [some_id_is has_id existsb]. unfold mbind, get.
  destruct (nullish m) eqn:E; [done|]. unfold ret. cbn [has_id] in IH.
  destruct (is_number (prop m "id") n); [done|]. cbn [orb]. exact IH.
Qed.

Section Telling.
Variable w1 : world.

Lemma told_say reqs entries l t a (E : exn -> world -> Prop) :
  triple (told w1 reqs entries) (say l t a)
         (fun _ => told w1 reqs (entries ++ [Entry l t a])) E.
Proof.
  intros w (Hs & Hc & Ha & Hd). unfold say, told. cbn [sent console api date_now].
  split; [done|]. split; [|done]. by rewrite Hc, <- app_assoc.
Qed.

Lemma told_say_if reqs entries (b : bool) l t a l' t' a' (E : exn -> world -> Prop) :
  triple (told w1 reqs entries) (if b then say l t a else say l' t' a')
         (fun _ => told w1 reqs (entries ++ [if b then Entry l t a else Entry l' t' a'])) E.
Proof. destruct b; apply told_say. Qed.

Lemma told_now reqs entries (E : exn -> world -> Prop) :
  triple (told w1 reqs entries) Date_now
         (fun t s => t = date_now w1 /\ told w1 reqs entries s) E.
Proof. intros w H. unfold Date_now. split; [apply H|exact H]. Qed.

Lemma told_axios reqs entries r :
  triple (told w1 reqs entries) (axios r)
         (fun rsp s => replied w1 reqs r rsp /\ told w1 (reqs ++ [r]) entries s)
         (fun e s => rejection (api w1 (sent w1 ++ reqs)%list r) r = Some e /\
                     told w1 (reqs ++ [r]) entries s).
Proof.
  intros w (Hs & Hc & Ha & Hd). unfold axios, replied, rejection, accepted, told.
  rewrite Ha, Hs.
  destruct (api w1 (sent w1 ++ reqs)%list r) as [rsp|msg];
    [destruct ((200 <=? status rsp) && (status rsp <? 300))%Z eqn:E|];
    cbn [sent console api date_now]; rewrite <- ?app_assoc; done.
Qed.

Lemma told_get reqs entries v k :
  triple (told w1 reqs entries) (get v k)
         (fun a s => a = prop v k /\ nullish v = false /\ told w1 reqs entries s)
         (fun e s => e = TypeError ("Cannot read properties of " ++ to_string v ++
                                    " (reading '" ++ k ++ "')") /\
                     nullish v = true /\ told w1 reqs entries s).
Proof. intros w H. unfold get. destruct (nullish v); done. Qed.

Lemma told_get_first reqs entries v :
  triple (told w1 reqs entries) (get_first v)
         (fun a s => a = first v /\ nullish v = false /\ told w1 reqs entries s)
         (fun e s => e = TypeError ("Cannot read properties of " ++ to_string v ++
                                    " (reading '0')") /\
                     nullish v = true /\ told w1 reqs entries s).
Proof. intros w H. unfold get_first. destruct (nullish v); done. Qed.

Lemma told_some reqs entries v n :
  triple (told w1 reqs entries) (some_with_id v n)
         (fun b s => b = has_id n v /\ told w1 reqs entries s)
         (fun _ s => told w1 reqs entries s).
Proof.
  intros w H. unfold some_with_id.
  destruct v as [| | | | |l|]; try exact H.
  pose proof (some_id_is_has_id n l w) as Hl.
  destruct (some_id_is n l w) as [[b|e] w']; [destruct Hl as [-> ->]|subst w']; done.
Qed.

Ltac says := eapply triple_bind; [apply told_say|intros ?].

Ltac sends :=
  eapply triple_bind;
  [eapply triple_weaken;
   [apply told_axios|done|done
   |let H := fresh in intros ? ? [_ H]; cbn [app] in H; eexists _, _; exact H]
  |intros ?; apply triple_pure; intros ?].

Ltac reads :=
  eapply triple_bind;
  [eapply triple_weaken;
   [first [apply told_get|apply told_get_first]|done
   |let Ha := fresh in let H := fresh in intros ? ? (Ha & _ & H); exact (conj Ha H)
   |let H := fresh in intros ? ? (_ & _ & H); cbn [app] in H; eexists _, _; exact H]
  |intros ?; apply triple_pure; intros ->].

Lemma test_try_told :
  triple (told w1 [] []) test_try
         (fun _ s => exists rs,
            let reqs := scenario (date_now w1) (prop (shown rs 0) "userId")
                                 (first (shown rs 3)) in
            length rs = 10%nat /\ replies (api w1) (sent w1) reqs rs /\
            told w1 reqs (transcript rs) s)
         (fun _ => begun w1).
Proof.
  unfold test_try, console_log, console_error, axios_post, axios_get, axios_delete, axios_put.
  says.
  eapply triple_bind; [apply told_now|intros t; apply triple_pure; intros ->].
  says. sends. says. says. sends. says.
  reads.
  says. sends. says. says. sends. says. says.
  reads. reads. reads. reads. reads. reads.
  sends. says. says. sends. says. says. sends. says. sends. says.
  eapply triple_bind;
    [eapply triple_weaken;
     [apply told_some|done|done
     |let H := fresh in intros ? ? H; cbn [app] in H; eexists _, _; exact H]
    |intros still; apply triple_pure; intros ->].
  eapply triple_bind; [apply told_say_if|intros ?].
  says. sends. says. says. sends. says.
  eapply triple_weaken; [apply told_say|done| |intros ? ? HF; exact HF].
  intros ? s Hs.
  repeat match goal with H : replied _ _ _ _ |- _ => revert H end.
  unfold replied. cbn [app]. rewrite app_nil_r.
  intros [H1 A1] [H2 A2] [H3 A3] [H4 A4] [H5 A5] [H6 A6] [H7 A7] [H8 A8] [H9 A9] [H10 A10].
  match type of H1 with _ = Answer ?r1 =>
  match type of H2 with _ = Answer ?r2 =>
  match type of H3 with _ = Answer ?r3 =>
  match type of H4 with _ = Answer ?r4 =>
  match type of H5 with _ = Answer ?r5 =>
  match type of H6 with _ = Answer ?r6 =>
  match type of H7 with _ = Answer ?r7 =>
  match type of H8 with _ = Answer ?r8 =>
  match type of H9 with _ = Answer ?r9 =>
  match type of H10 with _ = Answer ?r10 =>
    exists [r1; r2; r3; r4; r5; r6; r7; r8; r9; r10]
  end end end end end end end end end end.
  split; [reflexivity|]. split; [|exact Hs].
  cbn [replies scenario shown lookup list_lookup]. rewrite <- ?app_assoc. cbn [app].
  tauto.
Qed.

End Telling.

(** *** Where [testAPI] stops *)

Lemma replies_snoc f reqs : forall hist rs r rsp,
  replies f hist reqs rs -> f (hist ++ reqs)%list r = Answer rsp -> accepted rsp = true ->
  replies f hist (reqs ++ [r]) (rs ++ [rsp]).
Proof.
  induction reqs as [|q reqs IH]; intros hist [|x rs] r rsp Hr Ha Hok;
    cbn [app replies] in *; try done.
  - rewrite app_nil_r in Ha. done.
  - destruct Hr as (Hq & Hx & Hr). split; [done|]. split; [done|].
    apply IH; [done| |done]. by rewrite <- app_assoc.
Qed.

Section Hearing.
Variable w1 : world.

Lemma heard_say n rs entries l t a (E : exn -> world -> Prop) :
  t <> report_heading ->
  triple (heard w1 n rs entries) (say l t a)
         (fun _ => heard w1 n rs (entries ++ [Entry l t a])) E.
Proof.
  intros Ht w (Hw & Hr & Hu).
  pose proof (told_say w1 _ _ l t a (fun _ _ => False) w Hw) as H.
  destruct (say l t a w) as [[[]|?] w'] eqn:Es; [|done].
  split; [done|]. split; [done|].
  apply Forall_app. split; [done|]. by repeat constructor.
Qed.

Lemma heard_say_if n rs entries (b : bool) l t a l' t' a' (E : exn -> world -> Prop) :
  t <> report_heading -> t' <> report_heading ->
  triple (heard w1 n rs entries) (if b then say l t a else say l' t' a')
         (fun _ => heard w1 n rs
                     (entries ++ [if b then Entry l t a else Entry l' t' a'])) E.
Proof. intros Ht Ht'. destruct b; by apply heard_say. Qed.

Lemma heard_now n rs entries (E : exn -> world -> Prop) :
  triple (heard w1 n rs entries) Date_now
         (fun t s => t = date_now w1 /\ heard w1 n rs entries s) E.
Proof. intros w H. unfold Date_now. split; [apply H|exact H]. Qed.

Lemma heard_axios n rs entries r :
  (n < 10)%nat ->
  (forall rsp, upto w1 (S n) (rs ++ [rsp]) = (upto w1 n rs ++ [r])%list) ->
  upto w1 (S n) rs = (upto w1 n rs ++ [r])%list ->
  triple (heard w1 n rs entries) (axios r)
         (fun rsp => heard w1 (S n) (rs ++ [rsp]) entries) (ended w1).
Proof.
  intros Hn Hnext Hnow w (Hw & Hr & Hu).
  pose proof (told_axios w1 _ _ r w Hw) as H.
  destruct (axios r w) as [[rsp|e] w'].
  - destruct H as [[Ha Hok] H]. unfold heard. rewrite Hnext.
    split; [done|]. split; [|done]. by apply replies_snoc.
  - destruct H as [Hrej H].
    destruct (rejection_config _ _ _ Hrej) as (msg & resp & ->).
    exists n, rs, entries. split; [done|]. split; [done|]. split; [done|].
    right. exists msg, resp, r. rewrite Hnow. done.
Qed.

Lemma heard_get n rs entries v k :
  (n < 10)%nat ->
  triple (heard w1 n rs entries) (get v k)
         (fun a s => a = prop v k /\ heard w1 n rs entries s) (ended w1).
Proof.
  intros Hn w (Hw & Hr & Hu). unfold get. destruct (nullish v); [|done].
  exists n, rs, entries. split; [done|]. split; [done|]. split; [done|].
  left. by eexists.
Qed.

Lemma heard_get_first n rs entries v :
  (n < 10)%nat ->
  triple (heard w1 n rs entries) (get_first v)
         (fun a s => a = first v /\ heard w1 n rs entries s) (ended w1).
Proof.
  intros Hn w (Hw & Hr & Hu). unfold get_first. destruct (nullish v); [|done].
  exists n, rs, entries. split; [done|]. split; [done|]. split; [done|].
  left. by eexists.
Qed.

Lemma heard_some n rs entries v k :
  (n < 10)%nat ->
  triple (heard w1 n rs entries) (some_with_id v k)
         (fun _ => heard w1 n rs entries) (ended w1).
Proof.
  intros Hn w (Hw & Hr & Hu).
  assert (forall m, ended w1 (TypeError m) w) as Hb.
  { intros m. exists n, rs, entries. split; [done|]. split; [done|]. split; [done|].
    left. by eexists. }
  unfold some_with_id. destruct v; cbn; try apply Hb.
  destruct (some_id_is_pure k l w) as [[b ->]|[m ->]]; [done|apply Hb].
Qed.

Ltac differs := let H := fresh in intros H; vm_compute in H; discriminate H.

Ltac says := eapply triple_bind; [apply heard_say; differs|intros ?].

Ltac sends k :=
  eapply triple_bind;
  [eapply (heard_axios k); [lia|intros ?; reflexivity|reflexivity]|intros ?].

Ltac reads k :=
  eapply triple_bind;
  [first [eapply (heard_get k)|eapply (heard_get_first k)]; lia
  |intros ?; apply triple_pure; intros ->].

Lemma test_try_heard :
  triple (heard w1 0 [] []) test_try
         (fun _ s => exists rs entries, heard w1 10 rs entries s)
         (ended w1).
Proof.
  unfold test_try, console_log, console_error, axios_post, axios_get, axios_delete, axios_put.
  says.
  eapply triple_bind; [apply heard_now|intros t; apply triple_pure; intros ->].
  says. sends 0%nat. says. says. sends 1%nat. says.
  reads 2%nat.
  says. sends 2%nat. says. says. sends 3%nat. says. says.
  reads 4%nat. reads 4%nat. reads 4%nat. reads 4%nat. reads 4%nat. reads 4%nat.
  sends 4%nat. says. says. sends 5%nat. says. says. sends 6%nat. says. sends 7%nat. says.
  eapply triple_bind; [eapply (heard_some 8); lia|intros still].
  eapply triple_bind; [apply heard_say_if; differs|intros ?].
  says. sends 8%nat. says. says. sends 9%nat. says.
  eapply triple_weaken; [apply heard_say; differs|done| |intros ? ? HF; exact HF].
  intros ? s Hs. eexists _, _. exact Hs.
Qed.

End Hearing.

Lemma heard_start w : heard w 0 [] [] w.
Proof.
  split; [|split; [done|constructor]]. unfold told, upto. cbn [take]. by rewrite !app_nil_r.
Qed.

Lemma told_start w : told w [] [] w.
Proof. unfold told. by rewrite !app_nil_r. Qed.

(** Whatever happens, [testAPI] sends its first request. *)
Lemma testAPI_begins w :
  exists rest, sent (snd (testAPI w)) = (sent w ++ create_user_request w :: rest)%list.
Proof.
  pose proof (test_try_told w w (told_start w)) as H.
  unfold testAPI, try_catch.
  destruct (test_try w) as [[[]|e] wm]; cbn [snd].
  - destruct H as (rs & _ & _ & Hs & _). cbn [scenario] in Hs. eexists. exact Hs.
  - destruct H as (reqs & entries & Hs & _). unfold test_catch, console_error, say.
    cbn [snd sent]. by exists reqs.
Qed.

(** A run in which nothing throws prints the transcript. *)
Lemma testAPI_transcript w :
  fst (test_try w) = Return tt ->
  exists w' rs,
    let reqs := scenario (date_now w) (prop (shown rs 0) "userId") (first (shown rs 3)) in
    testAPI w = (Return tt, w') /\ length rs = 10%nat /\
    sent w' = (sent w ++ reqs)%list /\ replies (api w) (sent w) reqs rs /\
    console w' = (console w ++ transcript rs)%list.
Proof.
  intros Hok.
  pose proof (test_try_told w w (told_start w)) as H.
  unfold testAPI, try_catch.
  destruct (test_try w) as [[[]|e] w']; [|done].
  destruct H as (rs & Hl & Hr & Hs & Hc & _).
  exists w', rs. done.
Qed.

(** *** A list of movies without a first element *)

Section EmptyList.
Variables (w : world) (r1 r2 r3 r4 : response).
Hypothesis H1 : replied w [] (create_user_request w) r1.
Hypothesis H2 : replied w [create_user_request w] (login_request w) r2.
Hypothesis H3 : replied w [create_user_request w; login_request w] list_users_request r3.
Hypothesis H4 :
  replied w [create_user_request w; login_request w; list_users_request]
          list_movies_request r4.
Hypothesis Hu : nullish (data r1) = false.
Hypothesis Hm : nullish (data r4) = false.
Hypothesis Hf : nullish (first (data r4)) = true.

Let message : string :=
  "Cannot read properties of " ++ to_string (first (data r4)) ++ " (reading 'tmdb_id')".

Ltac says := eapply triple_bind; [apply told_say|intros ?].

Ltac sends Hk :=
  eapply triple_bind;
  [eapply triple_weaken;
   [apply told_axios|done|done
   |let H := fresh in
    intros ? ? [H _]; exfalso; cbn [app] in H; unfold rejection in H;
    rewrite (proj1 Hk) in H; rewrite (proj2 Hk) in H; discriminate H]
  |let H := fresh in
   intros ?; apply triple_pure; intros [H _]; cbn [app] in H;
   rewrite (proj1 Hk) in H; injection H as <-].

Lemma test_try_empty_list :
  triple (told w [] []) test_try (fun _ _ => False)
         (fun e s => e = TypeError message /\
            exists entries,
              told w [create_user_request w; login_request w; list_users_request;
                      list_movies_request] entries s).
Proof.
  unfold replied, accepted, create_user_request, login_request, list_users_request,
    list_movies_request in *.
  unfold test_try, console_log, console_error, axios_post, axios_get, axios_delete, axios_put.
  says.
  eapply triple_bind; [apply told_now|intros t; apply triple_pure; intros ->].
  says. sends H1. says. says. sends H2. says.
  eapply triple_bind;
    [eapply triple_weaken;
     [apply told_get|done|intros ? ? (_ & _ & H); exact H
     |intros ? ? (_ & H & _); exfalso; rewrite Hu in H; discriminate H]
    |intros ?].
  says. sends H3. says. says. sends H4. says. says.
  eapply triple_bind;
    [eapply triple_weaken;
     [apply told_get_first|done|intros ? ? (Ha & _ & H); exact (conj Ha H)
     |intros ? ? (_ & H & _); exfalso; rewrite Hm in H; discriminate H]
    |intros ?; apply triple_pure; intros ->].
  eapply triple_bind with (R := fun _ _ => False); [|intros ? ? []].
  eapply triple_weaken; [apply told_get|done| |].
  - intros ? ? (_ & H & _). rewrite Hf in H. discriminate H.
  - intros ? s (-> & _ & H). split; [reflexivity|]. eexists. exact H.
Qed.

End EmptyList.

(** *** An answer to the creation of the user without a body *)

Section NoBody.
Variables (w : world) (r1 r2 : response).
Hypothesis H1 : replied w [] (create_user_request w) r1.
Hypothesis H2 : replied w [create_user_request w] (login_request w) r2.
Hypothesis Hu : nullish (data r1) = true.

Ltac says := eapply triple_bind; [apply told_say|intros ?].

Ltac sends Hk :=
  eapply triple_bind;
  [eapply triple_weaken;
   [apply told_axios|done|done
   |let H := fresh in
    intros ? ? [H _]; exfalso; cbn [app] in H; unfold rejection in H;
    rewrite (proj1 Hk) in H; rewrite (proj2 Hk) in H; discriminate H]
  |let H := fresh in
   intros ?; apply triple_pure; intros [H _]; cbn [app] in H;
   rewrite (proj1 Hk) in H; injection H as <-].

Lemma test_try_no_body :
  triple (told w [] []) test_try (fun _ _ => False)
         (fun e s => e = TypeError ("Cannot read properties of " ++ to_string (data r1) ++
                                    " (reading 'userId')") /\
            exists entries, told w [create_user_request w; login_request w] entries s).
Proof.
  unfold replied, accepted, create_user_request, login_request in *.
  unfold test_try, console_log, console_error, axios_post, axios_get, axios_delete, axios_put.
  says.
  eapply triple_bind; [apply told_now|intros t; apply triple_pure; intros ->].
  says. sends H1. says. says. sends H2. says.
  eapply triple_bind with (R := fun _ _ => False); [|intros ? ? []].
  eapply triple_weaken; [apply told_get|done| |].
  - intros ? ? (_ & H & _). rewrite Hu in H. discriminate H.
  - intros ? s (-> & _ & H). split; [reflexivity|]. eexists. exact H.
Qed.

End NoBody.

(** *** Runs of [setupTestDatabase] without failures from outside *)

Lemma quiet_setup w :
  faults w = [] -> script_state_on (mysqld w) ->
  exists w', setupTestDatabase w = (Return true, w') /\
             mysqld w' = with_database (mysqld w) app_db (reset_database (mysqld w)).
Proof.
  intros Hq Hst.
  destruct (six_queries (mysqld w) Hst) as (sv1 & sv3 & sv4 & H1 & H2 & H3 & H4 & H5 & H6).
  exact (setup_succeeds w Hq _ _ _ _ _ _ _ _ _ _ _ _ _ _ _ _ _ _ H1 H2 H3 H4 H5 H6).
Qed.

Lemma filter_twice {A} (p : A -> bool) (l : list A) :
  List.filter p (List.filter p l) = List.filter p l.
Proof.
  induction l as [|x l IH]; [done|]. cbn [List.filter].
  destruct (p x) eqn:E; [|done]. cbn [List.filter]. by rewrite E, IH.
Qed.

Lemma reset_again sv t :
  reset_database (at_time t (with_database sv app_db (reset_database sv))) =
  {| db_collation := db_collation (reset_database sv);
     db_tables :=
       <["movies" := {| t_def := movies_def; t_rows := seeded t 1; t_auto_increment := 4 |}]>
         (db_tables (reset_database sv));
     db_triggers := [after_movie_delete] |}.
Proof.
  unfold reset_database at 1. cbn [databases at_time with_database now].
  rewrite lookup_insert_eq.
  unfold reset_database. cbn [db_collation db_tables].
  change (five ?a ?b ?c ?d ?e !! "users") with (Some a).
  change (five ?a ?b ?c ?d ?e !! "user_moods") with (Some d).
  change (five ?a ?b ?c ?d ?e !! "deletion_logs") with (Some e).
  cbn [default with_rows t_rows t_def t_auto_increment]. unfold id.
  unfold with_rows. cbn [t_rows t_def t_auto_increment].
  by rewrite filter_twice, five_movies.
Qed.

Lemma reset_state sv : script_state_on sv -> script_state (reset_database sv).
Proof.
  intros Hst. unfold reset_database.
  set (old := match databases sv !! app_db with Some db => db_tables db | None => ∅ end).
  assert (script_schema old /\ forall t, old !! "deletion_logs" = Some t -> numbered t)
    as [Hs Hn].
  { unfold old. destruct (databases sv !! app_db) as [db|] eqn:E.
    - destruct (Hst db E) as (? & _ & ?). done.
    - split; [intros n t H|intros t H]; by rewrite lookup_empty in H. }
  split; [|split]; cbn [db_tables db_triggers].
  - apply five_schema; try done; cbn [with_rows t_def]; by apply script_def_default.
  - intros g Hg. apply list_elem_of_singleton in Hg as ->. by split; [|eexists].
  - change (five ?a ?b ?c ?d ?e !! "deletion_logs") with (Some e). intros t Ht. simplify_eq.
    destruct (old !! "deletion_logs") as [t|] eqn:E; cbn [default];
      [by apply Hn|apply numbered_new].
Qed.

Lemma reset_state_on sv t :
  script_state_on sv ->
  script_state_on (at_time t (with_database sv app_db (reset_database sv))).
Proof.
  intros Hst db Hd. cbn [at_time databases with_database] in Hd.
  rewrite lookup_insert_eq in Hd. simplify_eq. by apply reset_state.
Qed.

Lemma example_state : script_state_on example_server.
Proof.
  intros db H. unfold example_server in H. cbn [databases] in H.
  rewrite lookup_singleton_eq in H. simplify_eq.
  split; [by apply five_schema|]. split.
  - intros g Hg. apply list_elem_of_singleton in Hg as ->. by split; [|eexists].
  - intros t Ht. change (Some (new_table deletion_logs_def) = Some t) in Ht. simplify_eq.
    apply numbered_new.
Qed.

Lemma new_server_state : script_state_on new_server.
Proof. intros db H. unfold new_server in H. cbn [databases] in H. by rewrite lookup_empty in H. Qed.

(** *** [runTests] *)

Lemma runTests_order w :
  let w2 := snd (setupTestDatabase (announced w)) in
  let w3 := snd (runTests w) in
  db_log w3 = db_log w2 /\ mysqld w3 = mysqld w2 /\ sessions w3 = sessions w2 /\
  sent w2 = sent w /\
  (fst (setupTestDatabase (announced w)) = Return true ->
   exists rest, sent w3 = (sent w ++ create_user_request w :: rest)%list) /\
  (fst (setupTestDatabase (announced w)) = Return false -> sent w3 = sent w).
Proof.
  destruct (runTests_spec w) as (b & w2 & w3 & Hs & Hf & Hr & H3).
  rewrite Hs, Hr. cbn [snd fst].
  assert (sent w2 = sent w /\ date_now w2 = date_now w) as [Hsent Hnow].
  { destruct Hf as [(_ & _ & _ & _ & _ & _ & _ & H & H')
                   |(k & _ & _ & _ & _ & _ & (_ & _ & H & H') & _)]; done. }
  destruct b; subst w3.
  - set (w2' := snd (console_log (nl ++ "Starting API tests...") [] w2)).
    destruct (testAPI_frame w2') as (Hm & Hss & Hl & _).
    split; [exact Hl|]. split; [exact Hm|]. split; [exact Hss|]. split; [done|].
    split; [|done]. intros _.
    destruct (testAPI_begins w2') as (rest & Hb). exists rest. rewrite Hb.
    unfold create_user_request. cbn [w2' console_log say snd sent date_now].
    by rewrite Hsent, Hnow.
  - cbn [console_log say snd db_log mysqld sessions sent]. done.
Qed.

(** *** The pages of the route table *)

Lemma page_cases (url : list string) :
  page routes url =
  match url with
  | [] => Some LoginComponent
  | [s] => if String.eqb "login" s then Some LoginComponent
           else if String.eqb "signup" s then Some SignupComponent
           else if String.eqb "movies" s then Some MoviesComponent
           else None
  | _ => None
  end /\
  forall fuel, navigate (S fuel) routes url = page routes url.
Proof.
  destruct url as [|s [|s2 rest]].
  - split; [reflexivity|]. intros fuel. destruct fuel; reflexivity.
  - assert (forall fuel, navigate fuel routes [s] =
              if String.eqb "login" s then Some LoginComponent
              else if String.eqb "signup" s then Some SignupComponent
              else if String.eqb "movies" s then Some MoviesComponent
              else None) as H.
    { intros fuel. destruct fuel; cbv -[String.eqb];
        repeat (match goal with |- context [String.eqb ?p s] => destruct (String.eqb p s) end;
                try reflexivity). }
    split; [apply H|]. intros fuel. unfold page. by rewrite !H.
  - assert (forall fuel, navigate fuel routes (s :: s2 :: rest) = None) as H.
    { intros fuel. destruct fuel; cbv -[String.eqb];
        repeat (match goal with |- context [String.eqb ?p s] => destruct (String.eqb p s) end;
                try reflexivity). }
    split; [apply H|]. intros fuel. unfold page. by rewrite !H.
Qed.

Lemma survivors_moods co gone md :
  t_def md = user_moods_def ->
  survivors co "users" gone md =
  with_rows md (List.filter
    (fun r => negb (existsb (fun g => sql_eqb co (row_get "user_id" r) (row_get "id" g)) gone))
    (t_rows md)).
Proof.
  intros Hd. unfold survivors, orphaned, refs_to. rewrite Hd.
  cbn [user_moods_def td_foreign_keys List.filter fk_ref_table fk_column fk_ref_column existsb].
  replace (String.eqb "users" "users") with true by reflexivity.
  cbn [existsb fk_column fk_ref_column]. f_equal. apply filter_ext. intros r.
  by rewrite orb_false_r.
Qed.

Lemma string_of_list_ascii_app (a b : list ascii) :
  string_of_list_ascii (a ++ b) = string_of_list_ascii a ++ string_of_list_ascii b.
Proof. induction a as [|c a IH]; [done|]. cbn [app string_of_list_ascii]. by rewrite IH. Qed.

(** *** A reference to [movies] from outside the script *)

Lemma referenced_by_other_true tbls name n t :
  n <> name -> tbls !! n = Some t -> refs_to name t <> [] ->
  referenced_by_other tbls name = true.
Proof.
  intros Hn Ht Hr. unfold referenced_by_other. apply existsb_exists.
  exists (n, t). split.
  - apply list_elem_of_In, elem_of_map_to_list. exact Ht.
  - cbn [fst snd]. apply andb_true_iff. split.
    + apply negb_true_iff. by apply String.eqb_neq.
    + by destruct (refs_to name t).
Qed.

Lemma create_tables_blocked clock db u n t :
  db_tables db !! "users" = Some u -> is_Some (db_tables db !! "movies") ->
  referenced_by_other (db_tables db) "user_movies" = false ->
  n <> "movies" -> n <> "user_movies" -> db_tables db !! n = Some t ->
  refs_to "movies" t <> [] ->
  db_batch clock create_tables_sql db =
  (Err ER_FK_CANNOT_DROP_PARENT,
   match db_tables db !! "user_movies" with
   | Some _ =>
     {| db_collation := db_collation db;
        db_tables := delete "user_movies" (db_tables db);
        db_triggers := off_table "user_movies" (db_triggers db) |}
   | None => db
   end).
Proof.
  intros Hu [m Hm] Hum Hn1 Hn2 Ht Hr.
  unfold create_tables_sql. cbn [db_batch db_stmt].
  unfold create_table at 1. rewrite Hu. cbn [finish bind].
  unfold drop_table at 1.
  destruct (db_tables db !! "user_movies") as [um|] eqn:E.
  - rewrite Hum. cbn [negb guard bind finish].
    unfold drop_table at 1. cbn [db_tables].
    rewrite lookup_delete_ne by done. rewrite Hm.
    rewrite (referenced_by_other_true _ "movies" n t) by (by rewrite ?lookup_delete_ne).
    reflexivity.
  - cbn [finish bind]. unfold drop_table at 1. rewrite Hm.
    rewrite (referenced_by_other_true _ "movies" n t) by done.
    reflexivity.
Qed.

Lemma js_or_defined a d : nullish d = false -> nullish (js_or a d) = false.
Proof. intros Hd. unfold js_or. destruct (truthy a) eqn:E; [by destruct a|exact Hd]. Qed.

(** *** The six queries, state by state *)

Lemma found_state sv : script_state_on sv -> script_state (found sv).
Proof.
  intros Hst. unfold found. destruct (databases sv !! app_db) as [db|] eqn:E; cbn [default].
  - by apply Hst.
  - apply script_state_new.
Qed.

Lemma rows_of_default d (tbls : gmap string table) (n : string) :
  t_rows (default (new_table d) (tbls !! n)) =
  match tbls !! n with Some t => t_rows t | None => [] end.
Proof. by destruct (tbls !! n). Qed.

Lemma reset_found sv :
  reset_database sv =
  {| db_collation := db_collation (found sv);
     db_tables :=
       <["movies" := {| t_def := movies_def; t_rows := seeded (now sv) 1;
                        t_auto_increment := 4 |}]> (db_tables (cleared_database sv));
     db_triggers := [after_movie_delete] |}.
Proof.
  unfold cleared_database, other_users, rows_of. cbn [db_tables]. rewrite five_movies.
  unfold reset_database, found.
  destruct (databases sv !! app_db) as [db|]; cbn [default]; unfold id; [|reflexivity].
  by destruct (db_tables db !! "users").
Qed.

Lemma queries_in_turn sv :
  script_state_on sv ->
  let ss := {| current_db := Some app_db |} in
  let sv1 := with_database sv app_db (found sv) in
  let sv3 := with_database sv app_db (recreated_db (found sv) [after_movie_delete]) in
  let sv4 := with_database sv app_db (cleared_database sv) in
  let sv5 := with_database sv app_db (reset_database sv) in
  exec_batch create_database_sql {| current_db := None |} sv =
    (Ok [Done], {| current_db := None |}, sv1) /\
  exec_batch use_sql {| current_db := None |} sv1 = (Ok [Done], ss, sv1) /\
  exec_batch create_tables_sql ss sv1 =
    (Ok [Done; Done; Done; Done; Done; Done; Done; Done], ss, sv3) /\
  exec_batch clear_sql ss sv3 = (Ok [Done; Done; Done; Done], ss, sv4) /\
  exec_batch insert_movies_sql ss sv4 = (Ok [Done], ss, sv5) /\
  exec_batch select_movies_sql ss sv5 = (Ok [Rows (seeded (now sv) 1)], ss, sv5).
Proof.
  intros Hst. cbv zeta.
  set (ss := {| current_db := Some app_db |}).
  pose proof (found_state sv Hst) as H1.
  pose proof (recreated_provisioned (found sv) H1) as Hp.
  destruct (six_queries sv Hst) as (sv1' & sv3' & sv4' & E1 & E2 & E3 & E4 & E5 & E6).
  assert (sv1' = with_database sv app_db (found sv)) as ->.
  { rewrite create_database_batch in E1. by injection E1 as <-. }
  assert (sv3' = with_database sv app_db (recreated_db (found sv) [after_movie_delete]))
    as ->.
  { assert (Forall on_tables create_tables_sql) as Hon by (repeat constructor).
    rewrite (exec_batch_db _ ss _ app_db (found sv) Hon eq_refl (with_database_lookup _ _ _))
      in E3.
    rewrite create_tables_db in E3; [|by destruct H1|by apply script_state_placed].
    rewrite script_state_free, script_state_kept in E3 by done.
    cbn [fst snd app] in E3. rewrite with_database_twice in E3. by injection E3 as <-. }
  assert (sv4' = with_database sv app_db (cleared_database sv)) as ->.
  { erewrite clear_batch in E4; [|done|apply with_database_lookup|exact Hp|done|].
    2:{ destruct H1 as (Hs & _ & Hn).
        destruct (db_tables (found sv) !! "deletion_logs") as [t|] eqn:E; cbn [default];
          [by apply Hn|apply numbered_new]. }
    rewrite with_database_twice in E4. cbn [now with_database db_collation recreated_db] in E4.
    rewrite logged_nothing in E4 by (done || apply Hp).
    injection E4 as <-. unfold cleared_database, other_users, rows_of.
    by rewrite rows_of_default. }
  done.
Qed.

(** The account of a run on such a server in which nothing fails. *)
Lemma account_quiet w :
  faults w = [] -> script_state_on (mysqld w) ->
  setup_account w =
  Account 6 None [Rows (seeded (now (mysqld w)) 1)] {| current_db := Some app_db |}
          (with_database (mysqld w) app_db (reset_database (mysqld w))).
Proof.
  intros Hq Hst. unfold setup_account, queries. rewrite Hq. cbn [tail].
  destruct (queries_in_turn _ Hst) as (E1 & E2 & E3 & E4 & E5 & E6).
  erewrite run_ok; [|reflexivity|exact E1].
  erewrite run_ok; [|reflexivity|exact E2].
  erewrite run_ok; [|reflexivity|exact E3].
  erewrite run_ok; [|reflexivity|exact E4].
  erewrite run_ok; [|reflexivity|exact E5].
  erewrite run_ok; [|reflexivity|exact E6].
  reflexivity.
Qed.

(** The account of a run on such a server that is cut off at its fifth
    query, the seed. *)
Lemma account_cleared w e rest :
  faults w = ([None; None; None; None; None; Some e] ++ rest)%list ->
  script_state_on (mysqld w) ->
  setup_account w =
  Account 5 (Some e) [Done; Done; Done; Done] {| current_db := Some app_db |}
          (with_database (mysqld w) app_db (cleared_database (mysqld w))).
Proof.
  intros Hq Hst. unfold setup_account, queries. rewrite Hq. cbn [tail app].
  destruct (queries_in_turn _ Hst) as (E1 & E2 & E3 & E4 & E5 & E6).
  erewrite run_ok; [|reflexivity|exact E1].
  erewrite run_ok; [|reflexivity|exact E2].
  erewrite run_ok; [|reflexivity|exact E3].
  erewrite run_ok; [|reflexivity|exact E4].
  erewrite run_fault; [|reflexivity].
  reflexivity.
Qed.

(** The first three queries on a server whose application database, if
    there is one, holds tables of the script only. *)
Lemma run_three sv fs :
  (forall db, databases sv !! app_db = Some db ->
     script_schema (db_tables db) /\ triggers_placed db) ->
  fault_at fs = None -> fault_at (tail fs) = None -> fault_at (tail (tail fs)) = None ->
  run queries fs {| current_db := None |} sv [] =
  if name_taken (found sv)
  then Account 3 (Some ER_TRG_ALREADY_EXISTS) [Done] {| current_db := Some app_db |}
         (with_database sv app_db (recreated_db (found sv) (kept_triggers (found sv))))
  else later 3
         (run (drop 3 queries) (tail (tail (tail fs))) {| current_db := Some app_db |}
              (with_database sv app_db
                 (recreated_db (found sv) (kept_triggers (found sv) ++ [after_movie_delete])))
              [Done; Done; Done; Done; Done; Done; Done; Done]).
Proof.
  intros Hst F1 F2 F3.
  assert (script_schema (db_tables (found sv)) /\ triggers_placed (found sv)) as [Hs Hp].
  { unfold found. destruct (databases sv !! app_db) as [db|] eqn:E; cbn [default].
    - by apply Hst.
    - split; [by destruct (script_state_new (default_collation sv))|].
      intros g Hg. by apply elem_of_nil in Hg. }
  assert (Forall on_tables create_tables_sql) as Hon by (repeat constructor).
  pose proof (exec_batch_db create_tables_sql {| current_db := Some app_db |}
                (with_database sv app_db (found sv)) app_db (found sv) Hon eq_refl
                (with_database_lookup _ _ _)) as E3.
  rewrite create_tables_db in E3 by done. rewrite with_database_twice in E3.
  pose proof (create_database_batch {| current_db := None |} sv) as E1. fold (found sv) in E1.
  pose proof (use_batch {| current_db := None |} (with_database sv app_db (found sv))) as E2.
  rewrite with_database_lookup in E2. specialize (E2 (mk_is_Some _ _ eq_refl)).
  unfold queries.
  rewrite (run_ok _ _ _ _ _ _ _ _ _ F1 E1).
  rewrite (run_ok _ _ _ _ _ _ _ _ _ F2 E2).
  destruct (name_taken (found sv)); cbn [fst snd] in E3.
  - rewrite (run_error _ _ _ _ _ _ _ _ _ F3 E3). reflexivity.
  - rewrite (run_ok _ _ _ _ _ _ _ _ _ F3 E3). reflexivity.
Qed.

(** A run that gets its connection ends as the account of its queries
    says. *)
Lemma setup_by_account w a :
  fault_at (faults w) = None -> setup_account w = a ->
  exists w',
    setupTestDatabase w =
      (Return match acc_failure a with Some _ => false | None => true end, w') /\
    same_outside w w' /\
    db_log w' = (db_log w ++ take (S (acc_queries a)) (plan (next_conn w) (connection_config w))
                          ++ [EndConnection (next_conn w)])%list /\
    sessions w' = delete (next_conn w) (sessions w) /\
    mysqld w' = acc_server a /\
    console w' = (console w ++ account_lines w a)%list.
Proof.
  intros Hf Ha. destruct (setup_runs w) as (b & w' & Hs & Ho & H).
  rewrite Hf in H. cbv zeta in H. rewrite Ha in H. destruct H as (-> & H).
  exists w'. done.
Qed.

Lemma run_sends q qs fs ss sv last : (1 <= acc_queries (run (q :: qs) fs ss sv last))%nat.
Proof.
  cbn [run]. destruct (fault_at fs); [cbn; lia|].
  destruct (exec_batch q ss sv) as [[[l|e] ss'] sv']; cbn; lia.
Qed.

(** The account of a run that is cut off at its fourth query, on a server
    whose application database holds tables of the script only. *)
Lemma account_provisioned w e rest :
  (forall db, databases (mysqld w) !! app_db = Some db ->
     script_schema (db_tables db) /\ triggers_placed db) ->
  faults w = ([None; None; None; None; Some e] ++ rest)%list ->
  setup_account w =
  if name_taken (found (mysqld w))
  then Account 3 (Some ER_TRG_ALREADY_EXISTS) [Done] {| current_db := Some app_db |}
         (with_database (mysqld w) app_db
            (recreated_db (found (mysqld w)) (kept_triggers (found (mysqld w)))))
  else Account 4 (Some e) [Done; Done; Done; Done; Done; Done; Done; Done]
         {| current_db := Some app_db |}
         (with_database (mysqld w) app_db
            (recreated_db (found (mysqld w))
               (kept_triggers (found (mysqld w)) ++ [after_movie_delete]))).
Proof.
  intros Hst Hq. unfold setup_account. rewrite Hq. cbn [tail app].
  rewrite run_three by (exact Hst || reflexivity).
  destruct (name_taken (found (mysqld w))); [reflexivity|].
  cbn [drop queries tail]. erewrite run_fault; [|reflexivity]. reflexivity.
Qed.

(** The account of a run without failures from outside on such a server:
    it ends at the third query when the name of the trigger is taken, and
    goes on to the fourth when it is not. *)
Lemma account_trigger w :
  (forall db, databases (mysqld w) !! app_db = Some db ->
     script_schema (db_tables db) /\ triggers_placed db) ->
  faults w = [] ->
  if name_taken (found (mysqld w))
  then setup_account w =
       Account 3 (Some ER_TRG_ALREADY_EXISTS) [Done] {| current_db := Some app_db |}
         (with_database (mysqld w) app_db
            (recreated_db (found (mysqld w)) (kept_triggers (found (mysqld w)))))
  else (4 <= acc_queries (setup_account w))%nat.
Proof.
  intros Hst Hq. unfold setup_account. rewrite Hq. cbn [tail].
  rewrite run_three by (exact Hst || reflexivity).
  destruct (name_taken (found (mysqld w))); [reflexivity|].
  cbn [drop queries tail later acc_queries].
  match goal with |- context [run (?q :: ?qs) ?fs ?ss ?sv ?l] =>
    pose proof (run_sends q qs fs ss sv l) end.
  lia.
Qed.

(** *** What a complete account holds *)

Lemma on_db_session ss sv f a ss' sv' : on_db ss sv f = Ok (a, ss', sv') -> ss' = ss.
Proof.
  unfold on_db. destruct (current_db ss) as [n|]; cbn [from_option bind]; [|done].
  destruct (databases sv !! n) as [db|]; cbn [from_option bind]; [|done].
  destruct (f db) as [[? ?]|]; cbn [bind]; [|done]. by intros [= _ <- _].
Qed.

Lemma exec_stmt_session st ss sv a ss' sv' :
  on_tables st -> exec_stmt st ss sv = Ok (a, ss', sv') -> ss' = ss.
Proof. destruct st; try done; intros _; cbn [exec_stmt]; apply on_db_session. Qed.

Lemma exec_batch_session sts : forall ss sv r ss' sv',
  Forall on_tables sts -> exec_batch sts ss sv = (r, ss', sv') -> ss' = ss.
Proof.
  induction sts as [|st rest IH]; intros ss sv r ss' sv' Hf Hx; cbn [exec_batch] in Hx.
  - by injection Hx as _ <- _.
  - apply Forall_cons in Hf as [Hst Hf].
    destruct (exec_stmt st ss sv) as [[[a ss1] sv1]|e] eqn:E.
    + apply (exec_stmt_session _ _ _ _ _ _ Hst) in E as ->.
      destruct (exec_batch rest ss sv1) as [[r' ss2] sv2] eqn:E2.
      injection Hx as _ <- _. by eapply IH.
    + by injection Hx as _ <- _.
Qed.

Lemma use_answer ss sv l ss' sv' :
  exec_batch use_sql ss sv = (Ok l, ss', sv') -> ss' = {| current_db := Some app_db |}.
Proof.
  unfold use_sql. cbn [exec_batch exec_stmt].
  destruct (databases sv !! app_db); intros H; [|discriminate H].
  by injection H as _ <- _.
Qed.

Lemma select_answer ss sv l ss' sv' n :
  current_db ss = Some n ->
  exec_batch select_movies_sql ss sv = (Ok l, ss', sv') ->
  exists db t, databases sv' !! n = Some db /\ db_tables db !! "movies" = Some t /\
               l = [Rows (t_rows t)].
Proof.
  intros Hc. unfold select_movies_sql. cbn [exec_batch exec_stmt]. unfold on_db.
  rewrite Hc. cbn [from_option bind].
  destruct (databases sv !! n) as [db|] eqn:Ed; cbn [from_option bind]; [|done].
  destruct (db_tables db !! "movies") as [t|] eqn:Et; cbn [from_option bind fst snd]; [|done].
  intros [= <- <- <-]. exists db, t. by rewrite with_database_lookup.
Qed.

(** The account of the six queries: one that holds a failure ends at one
    of the six, and one that holds none has sent them all, and its answers
    are the rows that [movies] has in the end. *)
Lemma run_complete fs sv :
  let a := run queries fs {| current_db := None |} sv [] in
  match acc_failure a with
  | Some _ => (1 <= acc_queries a <= 6)%nat
  | None =>
    acc_queries a = 6%nat /\
    exists db t, databases (acc_server a) !! app_db = Some db /\
                 db_tables db !! "movies" = Some t /\
                 acc_answers a = [Rows (t_rows t)]
  end.
Proof.
  unfold queries. cbn [run].
  destruct (fault_at fs); [cbn; lia|].
  destruct (exec_batch create_database_sql _ sv) as [[[l1|?] ss1] sv1] eqn:E1; [|cbn; lia].
  destruct (fault_at (tail fs)); [cbn; lia|].
  destruct (exec_batch use_sql ss1 sv1) as [[[l2|?] ss2] sv2] eqn:E2; [|cbn; lia].
  destruct (fault_at (tail (tail fs))); [cbn; lia|].
  destruct (exec_batch create_tables_sql ss2 sv2) as [[[l3|?] ss3] sv3] eqn:E3; [|cbn; lia].
  destruct (fault_at (tail (tail (tail fs)))); [cbn; lia|].
  destruct (exec_batch clear_sql ss3 sv3) as [[[l4|?] ss4] sv4] eqn:E4; [|cbn; lia].
  destruct (fault_at (tail (tail (tail (tail fs))))); [cbn; lia|].
  destruct (exec_batch insert_movies_sql ss4 sv4) as [[[l5|?] ss5] sv5] eqn:E5; [|cbn; lia].
  destruct (fault_at (tail (tail (tail (tail (tail fs)))))); [cbn; lia|].
  destruct (exec_batch select_movies_sql ss5 sv5) as [[[l6|?] ss6] sv6] eqn:E6; [|cbn; lia].
  cbn [acc_failure acc_queries acc_server acc_answers]. split; [done|].
  apply use_answer in E2 as ->.
  apply exec_batch_session in E3 as ->; [|repeat constructor].
  apply exec_batch_session in E4 as ->; [|repeat constructor].
  apply exec_batch_session in E5 as ->; [|repeat constructor].
  exact (select_answer {| current_db := Some app_db |} _ _ _ _ app_db eq_refl E6).
Qed.

Lemma reset_tables sv :
  db_tables (reset_database sv) =
  five (with_rows (default (new_table users_def) (db_tables (found sv) !! "users"))
                  (other_users sv))
       {| t_def := movies_def; t_rows := seeded (now sv) 1; t_auto_increment := 4 |}
       (new_table user_movies_def)
       (with_rows (default (new_table user_moods_def) (db_tables (found sv) !! "user_moods")) [])
       (default (new_table deletion_logs_def) (db_tables (found sv) !! "deletion_logs")).
Proof. rewrite reset_found. cbn [db_tables cleared_database]. apply five_movies. Qed.

End FurtherFacts.

(** * The claims of the specification *)

Module Claims.
Import Sql Schema Invariants Script Hoare Routes Examples Further.
Import SqlFacts ScriptFacts ApiFacts RoutesFacts FurtherFacts.

Lemma filter_lengths {A} (p : A -> bool) (l : list A) :
  (length (List.filter p l) + length (List.filter (fun x => negb (p x)) l) = length l)%nat.
Proof. induction l as [|x l IH]; [done|]. cbn [List.filter]. destruct (p x); cbn; lia. Qed.

Lemma length_log_rows clock olds : forall start,
  length (log_rows clock start olds) = length olds.
Proof. induction olds as [|o olds IH]; intros start; [done|]. cbn. by rewrite IH. Qed.

Lemma example_provisioned :
  provisioned example_db example_users example_movies example_user_movies
              (new_table user_moods_def) (new_table deletion_logs_def).
Proof. by constructor. Qed.

Lemma example_keyed : Forall keyed (t_rows example_user_movies).
Proof. repeat constructor; done. Qed.

(** C1 (as amended).  On the provisioned schema, a [DELETE] statement on
    [user_movies] inserts exactly one [deletion_logs] row for each row it
    deletes, carrying that row's [user_id] and [movie_id]; the rows of
    [user_movies] that go by [ON DELETE CASCADE] when rows of [users] or of
    [movies] are deleted leave [deletion_logs] as it was, since cascaded
    foreign key actions do not activate triggers. *)
Theorem C1_deletes_and_the_audit_trigger
    (clock : Z) (db : database) (u m um md dl : table) (w : option cond) :
  provisioned db u m um md dl -> Forall keyed (t_rows um) -> numbered dl ->
  let co := db_collation db in
  (exists db',
     delete_from clock db "user_movies" w = Ok db' /\
     rows_of "user_movies" db' =
       List.filter (fun r => negb (selects co w r)) (t_rows um) /\
     rows_of "deletion_logs" db' =
       (t_rows dl ++
        log_rows clock (t_auto_increment dl) (List.filter (selects co w) (t_rows um)))%list /\
     length (log_rows clock (t_auto_increment dl) (List.filter (selects co w) (t_rows um))) =
       length (List.filter (selects co w) (t_rows um)) /\
     audited db db') /\
  (exists db',
     delete_from clock db "users" w = Ok db' /\
     rows_of "user_movies" db' =
       List.filter
         (fun r => negb (orphaned co "users" (List.filter (selects co w) (t_rows u)) um r))
         (t_rows um) /\
     rows_of "deletion_logs" db' = t_rows dl) /\
  (exists db',
     delete_from clock db "movies" w = Ok db' /\
     rows_of "user_movies" db' =
       List.filter
         (fun r => negb (orphaned co "movies" (List.filter (selects co w) (t_rows m)) um r))
         (t_rows um) /\
     rows_of "deletion_logs" db' = t_rows dl).
Proof.
  intros Hp Hk Hn co. split; [|split].
  - eexists. split; [by apply delete_user_movies|].
    unfold audited, rows_of. cbn [db_tables]. rewrite (prov_tables _ _ _ _ _ _ Hp).
    change (five ?a ?b ?c ?d ?e !! "user_movies") with (Some c).
    change (five ?a ?b ?c ?d ?e !! "deletion_logs") with (Some e).
    cbn [t_rows with_rows]. fold co.
    split; [done|]. split; [done|]. split; [apply length_log_rows|].
    rewrite length_app, length_log_rows.
    pose proof (filter_lengths (selects co w) (t_rows um)). lia.
  - eexists. split; [by apply delete_users|].
    unfold rows_of. cbn [db_tables].
    change (five ?a ?b ?c ?d ?e !! "user_movies") with (Some c).
    change (five ?a ?b ?c ?d ?e !! "deletion_logs") with (Some e).
    done.
  - eexists. split; [by apply delete_movies|].
    unfold rows_of. cbn [db_tables].
    change (five ?a ?b ?c ?d ?e !! "user_movies") with (Some c).
    change (five ?a ?b ?c ?d ?e !! "deletion_logs") with (Some e).
    done.
Qed.

(** C1, witness: deleting the one association of [example_db] by a
    [DELETE] on [user_movies] leaves one row in [deletion_logs]. *)
Lemma C1_witness :
  exists db',
    delete_from 5 example_db "user_movies" None = Ok db' /\
    rows_of "user_movies" db' = [] /\
    rows_of "deletion_logs" db' =
      [[("id", VInt 1); ("user_id", VInt 1); ("movie_id", VInt 1); ("deleted_at", VTime 5)]].
Proof.
  destruct (C1_deletes_and_the_audit_trigger 5 example_db _ _ _ _ _ None
              example_provisioned example_keyed (numbered_new _))
    as [(db' & Hd & Hum & Hdl & _) _].
  exists db'. split; [exact Hd|]. split; [exact Hum|exact Hdl].
Defined.

(** C1, counterexample to the claim as stated: deleting user 1 of
    [example_db] removes that user's association by cascade, and no row
    comes to [deletion_logs]. *)
Lemma C1_cascade_leaves_no_log :
  rows_of "user_movies" example_db = [saved] /\
  rows_of "deletion_logs" example_db = [] /\
  exists db',
    delete_from 5 example_db "users" (Some (CEq "id" (VInt 1))) = Ok db' /\
    rows_of "user_movies" db' = [] /\
    rows_of "deletion_logs" db' = [] /\
    ~ audited example_db db'.
Proof.
  split; [reflexivity|]. split; [reflexivity|].
  eexists. split; [vm_compute; reflexivity|].
  split; [reflexivity|]. split; [reflexivity|].
  intros H. vm_compute in H. discriminate H.
Qed.

(** C3 (as amended).  On a server whose application database, if there
    is one, holds tables of the script only, a run of [setupTestDatabase]
    that loses its connection at the fourth query ends after the third or
    at the fourth, returns [false], and leaves what the first three queries
    have made: the application's database, the one that was there or a new
    one, and no other database touched; [users], [user_moods] and
    [deletion_logs] as they were when they existed, and new and empty
    otherwise; [movies] and [user_movies] new and empty whatever they held.
    On a server that holds nothing but what the script puts there, the run
    in which nothing fails returns [true] and leaves [users] with its
    definition and its rows other than the test users, [movies] with the
    three rows of the seed numbered from 1, [user_movies] new,
    [user_moods] with its definition and no row, and [deletion_logs] as it
    was. *)
Theorem C3_provisioning (w : world) :
  let sv := mysqld w in
  let id := next_conn w in
  let cfg := connection_config w in
  let old := db_tables (found sv) in
  ((forall db, databases sv !! app_db = Some db ->
      script_schema (db_tables db) /\ triggers_placed db) ->
   forall e rest, faults w = ([None; None; None; None; Some e] ++ rest)%list ->
   exists w' db3,
     setupTestDatabase w = (Return false, w') /\
     db_log w' = (db_log w ++ take (if name_taken (found sv) then 4 else 5) (plan id cfg)
                           ++ [EndConnection id])%list /\
     databases (mysqld w') !! app_db = Some db3 /\
     (forall n, n <> app_db -> databases (mysqld w') !! n = databases sv !! n) /\
     db_collation db3 = db_collation (found sv) /\
     db_tables db3 =
       five (default (new_table users_def) (old !! "users"))
            (new_table movies_def)
            (new_table user_movies_def)
            (default (new_table user_moods_def) (old !! "user_moods"))
            (default (new_table deletion_logs_def) (old !! "deletion_logs"))) /\
  (script_state_on sv -> faults w = [] ->
   exists w' db5,
     setupTestDatabase w = (Return true, w') /\
     db_log w' = (db_log w ++ plan id cfg ++ [EndConnection id])%list /\
     databases (mysqld w') !! app_db = Some db5 /\
     (forall n, n <> app_db -> databases (mysqld w') !! n = databases sv !! n) /\
     db_collation db5 = db_collation (found sv) /\
     db_tables db5 =
       five (with_rows (default (new_table users_def) (old !! "users"))
               (List.filter
                  (fun r => negb (like (db_collation (found sv)) "testuser%"
                                       (row_get "username" r)))
                  (rows_of "users" (found sv))))
            {| t_def := movies_def; t_rows := seeded (now sv) 1; t_auto_increment := 4 |}
            (new_table user_movies_def)
            (with_rows (default (new_table user_moods_def) (old !! "user_moods")) [])
            (default (new_table deletion_logs_def) (old !! "deletion_logs"))).
Proof.
  intros sv id cfg old. split.
  - intros Hst e rest Hq.
    assert (fault_at (faults w) = None) as Hf by (by rewrite Hq).
    destruct (setup_by_account w _ Hf (account_provisioned w e rest Hst Hq))
      as (w' & Hs & _ & Hl & _ & Hsv & _).
    assert (script_schema (db_tables (found sv))) as Hsch.
    { unfold found. destruct (databases sv !! app_db) as [db|] eqn:E; cbn [default].
      - by apply Hst.
      - by destruct (script_state_new (default_collation sv)). }
    fold sv id cfg in Hs, Hl, Hsv.
    destruct (name_taken (found sv));
      cbn [acc_failure acc_queries acc_server] in Hs, Hl, Hsv;
      (eexists w', _; split; [exact Hs|]; split; [exact Hl|]; rewrite Hsv;
       split; [apply with_database_lookup|];
       split; [intros n Hn; by apply with_database_other|];
       split; [reflexivity|]; by apply recreated_five).
  - intros Hst Hq.
    assert (fault_at (faults w) = None) as Hf by (by rewrite Hq).
    destruct (setup_by_account w _ Hf (account_quiet w Hq Hst))
      as (w' & Hs & _ & Hl & _ & Hsv & _).
    cbn [acc_failure acc_queries acc_server] in Hs, Hl, Hsv.
    eexists w', _. split; [exact Hs|]. split; [exact Hl|]. rewrite Hsv.
    split; [apply with_database_lookup|].
    split; [intros n Hn; by apply with_database_other|].
    split; [by rewrite reset_found|]. apply reset_tables.
Qed.

Lemma example_server_schema db :
  databases example_server !! app_db = Some db ->
  script_schema (db_tables db) /\ triggers_placed db.
Proof.
  intros H. unfold example_server in H. cbn [databases] in H.
  rewrite lookup_singleton_eq in H. simplify_eq.
  split.
  - by apply five_schema.
  - intros g Hg. apply list_elem_of_singleton in Hg as ->. by eexists.
Qed.

(** C3, witness: on [example_server], with the connection lost at the
    fourth query, the two users are there after the run, and the
    association and the three movies are not. *)
Lemma C3_witness :
  exists w' db3,
    setupTestDatabase (interrupted 4) = (Return false, w') /\
    databases (mysqld w') !! app_db = Some db3 /\
    rows_of "users" db3 = [alice; tester] /\
    rows_of "movies" db3 = [] /\
    rows_of "user_movies" db3 = [].
Proof.
  destruct (proj1 (C3_provisioning (interrupted 4)) example_server_schema
              PROTOCOL_CONNECTION_LOST [] eq_refl)
    as (w' & db3 & Hs & _ & Hd & _ & _ & Ht).
  exists w', db3. split; [exact Hs|]. split; [exact Hd|].
  unfold rows_of. rewrite Ht. vm_compute. repeat split; reflexivity.
Defined.

(** C3, counterexample to the claim as stated: on [rated_db], where a
    table of another application refers to [movies], the run without
    failures from outside returns [false]; [user_movies], which was there,
    is dropped and not created again, and [movies] is not dropped: it keeps
    its three rows. *)
Lemma C3_foreign_reference_stops_it :
  faults rated_world = [] /\
  is_Some (db_tables rated_db !! "user_movies") /\
  exists w' db',
    setupTestDatabase rated_world = (Return false, w') /\
    databases (mysqld w') !! app_db = Some db' /\
    db_tables db' !! "user_movies" = None /\
    rows_of "movies" db' = seeded 0 1.
Proof.
  split; [reflexivity|]. split; [by eexists|].
  eexists _, _. split; [vm_compute; reflexivity|].
  split; [vm_compute; reflexivity|]. split; vm_compute; reflexivity.
Qed.

(** C5.  On a server that holds nothing but what the script puts there, a
    run of [setupTestDatabase] that loses its connection at the fifth
    query, the seed, leaves [user_movies], [user_moods] and [movies]
    without rows and [users] with exactly the rows whose [username] is not
    [LIKE 'testuser%'] under the collation of the database; the run in
    which nothing fails leaves the same and, in [movies], the three rows of
    the seed, with the three titles and the ids 278, 238 and 155.  The
    fifth and the sixth call of the plan are the two queries; and on any
    provisioned database, whatever its tables hold, the first of them
    empties [user_movies], [user_moods] and [movies] and removes from
    [users] the rows that match, and the second then stores the three
    rows. *)
Theorem C5_seed_and_reset (w : world) :
  let sv := mysqld w in
  let id := next_conn w in
  let cfg := connection_config w in
  let kept :=
    List.filter
      (fun r => negb (like (db_collation (found sv)) "testuser%" (row_get "username" r)))
      (rows_of "users" (found sv)) in
  (script_state_on sv ->
   forall e rest, faults w = ([None; None; None; None; None; Some e] ++ rest)%list ->
   exists w' db4,
     setupTestDatabase w = (Return false, w') /\
     db_log w' = (db_log w ++ take 6 (plan id cfg) ++ [EndConnection id])%list /\
     databases (mysqld w') !! app_db = Some db4 /\
     rows_of "user_movies" db4 = [] /\
     rows_of "user_moods" db4 = [] /\
     rows_of "users" db4 = kept /\
     rows_of "movies" db4 = []) /\
  (script_state_on sv -> faults w = [] ->
   exists w' db5,
     setupTestDatabase w = (Return true, w') /\
     db_log w' = (db_log w ++ plan id cfg ++ [EndConnection id])%list /\
     databases (mysqld w') !! app_db = Some db5 /\
     rows_of "user_movies" db5 = [] /\
     rows_of "user_moods" db5 = [] /\
     rows_of "users" db5 = kept /\
     rows_of "movies" db5 = seeded (now sv) 1 /\
     map (fun r => (row_get "title" r, row_get "tmdb_id" r)) (rows_of "movies" db5) =
       [ (VStr "The Shawshank Redemption", VInt 278);
         (VStr "The Godfather", VInt 238);
         (VStr "The Dark Knight", VInt 155) ]) /\
  plan id cfg !! 4%nat = Some (Query id clear_sql) /\
  plan id cfg !! 5%nat = Some (Query id insert_movies_sql) /\
  (forall (ss : session) (sv0 : server) (db : database) (u m um md dl : table),
     current_db ss = Some app_db -> databases sv0 !! app_db = Some db ->
     provisioned db u m um md dl -> Forall keyed (t_rows um) -> numbered dl ->
     exists sv1 sv2 db1 db2,
       exec_batch clear_sql ss sv0 = (Ok [Done; Done; Done; Done], ss, sv1) /\
       databases sv1 !! app_db = Some db1 /\
       rows_of "movies" db1 = [] /\
       exec_batch insert_movies_sql ss sv1 = (Ok [Done], ss, sv2) /\
       databases sv2 !! app_db = Some db2 /\
       rows_of "user_movies" db2 = [] /\
       rows_of "user_moods" db2 = [] /\
       rows_of "users" db2 =
         List.filter (fun r => negb (like (db_collation db) "testuser%" (row_get "username" r)))
                     (t_rows u) /\
       rows_of "movies" db2 = seeded (now sv0) (t_auto_increment m) /\
       map (fun r => (row_get "title" r, row_get "tmdb_id" r)) (rows_of "movies" db2) =
         [ (VStr "The Shawshank Redemption", VInt 278);
           (VStr "The Godfather", VInt 238);
           (VStr "The Dark Knight", VInt 155) ]).
Proof.
  intros sv id cfg kept. split; [|split; [|split; [reflexivity|split; [reflexivity|]]]].
  - intros Hst e rest Hq.
    assert (fault_at (faults w) = None) as Hf by (by rewrite Hq).
    destruct (setup_by_account w _ Hf (account_cleared w e rest Hq Hst))
      as (w' & Hs & _ & Hl & _ & Hsv & _).
    cbn [acc_failure acc_queries acc_server] in Hs, Hl, Hsv.
    eexists w', _. split; [exact Hs|]. split; [exact Hl|]. rewrite Hsv.
    split; [apply with_database_lookup|].
    unfold rows_of at 1 2 3 4. cbn [db_tables cleared_database].
    change (five ?a ?b ?c ?d ?e !! "user_movies") with (Some c).
    change (five ?a ?b ?c ?d ?e !! "user_moods") with (Some d).
    change (five ?a ?b ?c ?d ?e !! "users") with (Some a).
    change (five ?a ?b ?c ?d ?e !! "movies") with (Some b).
    done.
  - intros Hst Hq.
    assert (fault_at (faults w) = None) as Hf by (by rewrite Hq).
    destruct (setup_by_account w _ Hf (account_quiet w Hq Hst))
      as (w' & Hs & _ & Hl & _ & Hsv & _).
    cbn [acc_failure acc_queries acc_server] in Hs, Hl, Hsv.
    eexists w', _. split; [exact Hs|]. split; [exact Hl|]. rewrite Hsv.
    split; [apply with_database_lookup|].
    unfold rows_of at 1 2 3 4 5. rewrite reset_tables.
    change (five ?a ?b ?c ?d ?e !! "user_movies") with (Some c).
    change (five ?a ?b ?c ?d ?e !! "user_moods") with (Some d).
    change (five ?a ?b ?c ?d ?e !! "users") with (Some a).
    change (five ?a ?b ?c ?d ?e !! "movies") with (Some b).
    done.
  - intros ss sv0 db u m um md dl Hc Hd Hp Hk Hn.
    eexists _, _, _, _.
    split; [by eapply clear_batch|].
    split; [apply with_database_lookup|].
    split; [reflexivity|].
    split.
    { eapply seed_batch; [done|apply with_database_lookup|reflexivity|apply Hp|reflexivity]. }
    split; [apply with_database_lookup|].
    unfold rows_of. cbn [db_tables].
    change (five ?a ?b ?c ?d ?e !! "user_movies") with (Some c).
    change (five ?a ?b ?c ?d ?e !! "user_moods") with (Some d).
    change (five ?a ?b ?c ?d ?e !! "users") with (Some a).
    change (five ?a ?b ?c ?d ?e !! "movies") with (Some b).
    done.
Qed.

(** C5, witness: after the run on [example_server] the user [alice] is
    there and the user [TestUser_1] is not, the collation of the database
    being case-insensitive; and [movies] has three rows. *)
Lemma C5_witness :
  exists w' db5,
    setupTestDatabase (world_on example_server) = (Return true, w') /\
    databases (mysqld w') !! app_db = Some db5 /\
    rows_of "users" db5 = [alice] /\
    length (rows_of "movies" db5) = 3%nat.
Proof.
  destruct (proj1 (proj2 (C5_seed_and_reset (world_on example_server))) example_state eq_refl)
    as (w' & db5 & Hs & _ & Hd & _ & _ & Hu & Hm & _).
  exists w', db5. split; [exact Hs|]. split; [exact Hd|].
  rewrite Hu, Hm. split; reflexivity.
Defined.

(** C7.  Every run of [setupTestDatabase] returns.  Its calls to the
    database are either the one refused attempt to connect, or an opened
    connection, some of the planned queries on it, and last of all the end
    of that connection, which is then no longer among the sessions.  After
    [runTests], no session is open that was not open before. *)
Theorem C7_connection_is_released (w : world) :
  let id := next_conn w in
  let cfg := connection_config w in
  (exists b w',
     setupTestDatabase w = (Return b, w') /\
     ((b = false /\ db_log w' = (db_log w ++ [Connect cfg None])%list /\
       sessions w' = sessions w) \/
      (exists k, (1 <= k <= 7)%nat /\
         db_log w' = (db_log w ++ take k (plan id cfg) ++ [EndConnection id])%list /\
         sessions w' = delete id (sessions w) /\ sessions w' !! id = None))) /\
  (forall c, is_Some (sessions (snd (runTests w)) !! c) -> is_Some (sessions w !! c)).
Proof.
  intros id cfg. split.
  - destruct (setup_finishes w) as (b & w' & Hs & Hf). exists b, w'. split; [done|].
    destruct Hf as [(-> & Hlog & Hss & _)|(k & Hk & _ & Hlog & Hss & _)].
    + left. done.
    + right. exists k. repeat (split; [done|]). rewrite Hss. apply lookup_delete_eq.
  - intros c.
    destruct (runTests_spec w) as (b & w2 & w3 & _ & Hf & -> & H3). cbn [snd].
    assert (is_Some (sessions w2 !! c) -> is_Some (sessions w !! c)) as H2.
    { destruct Hf as [(_ & _ & -> & _)|(k & _ & _ & _ & -> & _)]; [done|].
      destruct (decide (next_conn (announced w) = c)) as [->|Hne].
      - rewrite lookup_delete_eq. by intros [? ?].
      - by rewrite lookup_delete_ne. }
    destruct b; subst w3; [|exact H2].
    destruct (testAPI_frame (snd (console_log (nl ++ "Starting API tests...") [] w2)))
      as (_ & -> & _). exact H2.
Qed.


(** C4 (as amended).  In a run without failures from outside, on a server
    whose application database holds nothing but what the script itself
    puts there, [setupTestDatabase] returns [true], leaves the trigger in
    place, and leaves the database again in such a state, and [runTests]
    goes on to the API test and sends its first request: so a second run
    succeeds as the first did.  On a
    database that holds tables of the script only, the third query fails on
    [CREATE TRIGGER] exactly when a trigger of that name sits on a table
    that the query does not drop: then that query is the last call before
    the connection is closed, the error printed is [ER_TRG_ALREADY_EXISTS],
    [setupTestDatabase] returns [false] and [runTests] sends no request;
    otherwise the run goes on to its fourth query. *)
Theorem C4_repeated_provisioning (w : world) :
  faults w = [] ->
  let id := next_conn w in
  let cfg := connection_config w in
  (script_state_on (mysqld w) ->
     (exists w',
        setupTestDatabase w = (Return true, w') /\
        mysqld w' = with_database (mysqld w) app_db (reset_database (mysqld w)) /\
        db_triggers (reset_database (mysqld w)) = [after_movie_delete] /\
        script_state_on (mysqld w')) /\
     (exists rest,
        sent (snd (runTests w)) =
        (sent w ++
         Request "post" (API_URL ++ "/users")
           (JObj [("username", JStr ("testuser_" ++ string_of_Z (date_now w)));
                  ("password", JStr "password123")]) :: rest)%list)) /\
  (forall db,
     databases (mysqld w) !! app_db = Some db ->
     script_schema (db_tables db) -> triggers_placed db ->
     exists b w' k,
       setupTestDatabase w = (Return b, w') /\
       db_log w' = (db_log w ++ take k (plan id cfg) ++ [EndConnection id])%list /\
       if name_taken db
       then b = false /\ k = 4%nat /\
            console w' = (console w ++ take 7 (setup_lines w) ++
                          error_lines ER_TRG_ALREADY_EXISTS)%list /\
            sent (snd (runTests w)) = sent w
       else (5 <= k)%nat).
Proof.
  intros Hq id cfg. split.
  - intros Hst. split.
    + destruct (quiet_setup w Hq Hst) as (w' & Hs & Hsv).
      exists w'. split; [done|]. split; [done|]. split; [done|].
      rewrite Hsv. intros db Hd. rewrite with_database_lookup in Hd. simplify_eq.
      by apply reset_state.
    + destruct (runTests_order w) as (_ & _ & _ & _ & Ht & _). apply Ht.
      destruct (quiet_setup (announced w) Hq Hst) as (w' & -> & _). done.
  - intros db Hd Hs Hp.
    assert (forall v, faults v = [] -> mysqld v = mysqld w ->
              fault_at (faults v) = None /\
              if name_taken db
              then setup_account v =
                   Account 3 (Some ER_TRG_ALREADY_EXISTS) [Done] {| current_db := Some app_db |}
                     (with_database (mysqld v) app_db (recreated_db db (kept_triggers db)))
              else (4 <= acc_queries (setup_account v))%nat) as Hacc.
    { intros v Hvq Hv. split; [by rewrite Hvq|].
      assert (found (mysqld v) = db) as Hfd by (unfold found; by rewrite Hv, Hd).
      pose proof (account_trigger v) as Ha. rewrite Hfd in Ha. apply Ha; [|done].
      intros db' Hd'. rewrite Hv, Hd in Hd'. by simplify_eq. }
    destruct (Hacc w Hq eq_refl) as [Hf Ha].
    destruct (name_taken db).
    + destruct (setup_by_account w _ Hf Ha) as (w' & Hsw & _ & Hl & _ & _ & Hco).
      exists false, w', 4%nat. split; [exact Hsw|]. split; [exact Hl|].
      split; [done|]. split; [done|]. split; [exact Hco|].
      destruct (runTests_order w) as (_ & _ & _ & _ & _ & Hno). apply Hno.
      destruct (Hacc (announced w) Hq eq_refl) as [Hf' Ha'].
      destruct (setup_by_account _ _ Hf' Ha') as (v' & -> & _). done.
    + destruct (setup_by_account w _ Hf eq_refl) as (w' & Hsw & _ & Hl & _).
      eexists _, w', _. split; [exact Hsw|]. split; [exact Hl|]. lia.
Qed.

(** C4, witness: the first run on a new server returns [true] and leaves
    the database in a state of the script; on a database where a trigger of
    the script's name sits on [users], the run returns [false] after its
    third query and no request is sent. *)
Lemma C4_witness :
  (exists w',
     setupTestDatabase fresh_world = (Return true, w') /\ script_state_on (mysqld w')) /\
  (exists w',
     setupTestDatabase squatted_world = (Return false, w') /\
     db_log w' =
       (take 4 (plan 0 (connection_config squatted_world)) ++ [EndConnection 0])%list) /\
  sent (snd (runTests squatted_world)) = [].
Proof.
  split; [|split].
  - destruct (proj1 (proj1 (C4_repeated_provisioning fresh_world eq_refl)
                       FurtherFacts.new_server_state))
      as (w' & H & _ & _ & Hs).
    exists w'. split; [exact H|exact Hs].
  - destruct (proj2 (C4_repeated_provisioning squatted_world eq_refl) squatted_db)
      as (b & w' & k & Hs & Hl & Hk).
    + reflexivity.
    + apply five_schema; reflexivity.
    + intros g Hg. apply list_elem_of_singleton in Hg as ->. by eexists.
    + change (name_taken squatted_db) with true in Hk. cbv iota in Hk.
      destruct Hk as (-> & -> & _). exists w'. split; [exact Hs|exact Hl].
  - destruct (proj2 (C4_repeated_provisioning squatted_world eq_refl) squatted_db)
      as (b & w' & k & _ & _ & Hk).
    + reflexivity.
    + apply five_schema; reflexivity.
    + intros g Hg. apply list_elem_of_singleton in Hg as ->. by eexists.
    + change (name_taken squatted_db) with true in Hk. cbv iota in Hk.
      destruct Hk as (_ & _ & _ & Hsent). exact Hsent.
Defined.

(** C4, counterexample to the claim as stated: after one whole run of the
    script the trigger exists, and the second run of [setupTestDatabase]
    returns [true] all the same, and [runTests] goes on to send the
    requests of the API test. *)
Lemma C4_second_run_succeeds :
  (exists db, databases (mysqld second_world) !! app_db = Some db /\
              db_triggers db = [after_movie_delete]) /\
  fst (setupTestDatabase second_world) = Return true /\
  length (sent (snd (runTests second_world))) = 10%nat.
Proof.
  split; [|split].
  - eexists. split; [vm_compute; reflexivity|reflexivity].
  - vm_compute. reflexivity.
  - vm_compute. reflexivity.
Qed.

(** C6.  [testAPI] always returns.  The requests it has sent are the
    first of the scenario, each sent once and in order, and one of three
    things has happened.  All ten were answered with a 2xx status and
    nothing threw.  Or, after fewer than ten answered requests, the script
    read a property of [undefined] or [null] and threw a [TypeError]:
    nothing was sent after that, and the console ends with the one report
    of the run, which holds the message of the error and no status, URL,
    method or body.  Or the next request of the scenario was sent and axios
    rejected it: nothing was sent after it, and the console ends with the
    one report of the run, which holds the message, the status, the URL,
    the method and the body of that request.  And [setupTestDatabase]
    having returned [false], [runTests] sends nothing. *)
Theorem C6_first_failure_ends_the_test (w : world) :
  (exists w' n rs entries,
     let steps := scenario (date_now w) (prop (shown rs 0) "userId") (first (shown rs 3)) in
     let reqs := take n steps in
     testAPI w = (Return tt, w') /\
     replies (api w) (sent w) reqs rs /\
     Forall (fun en => text en <> report_heading) entries /\
     ((n = 10%nat /\ fst (test_try w) = Return tt /\
       sent w' = (sent w ++ reqs)%list /\
       console w' = (console w ++ entries)%list) \/
      ((n < 10)%nat /\
       exists m,
         fst (test_try w) = Throw (TypeError m) /\
         sent w' = (sent w ++ reqs)%list /\
         console w' = (console w ++ entries ++
                       [Entry ERROR report_heading [type_error_report m]])%list) \/
      ((n < 10)%nat /\
       exists msg resp r,
         fst (test_try w) = Throw (AxiosError msg resp r) /\
         take (S n) steps = (reqs ++ [r])%list /\
         rejection (api w (sent w ++ reqs)%list r) r = Some (AxiosError msg resp r) /\
         sent w' = (sent w ++ reqs ++ [r])%list /\
         console w' = (console w ++ entries ++
                       [Entry ERROR report_heading [axios_report msg resp r]])%list /\
         axios_report msg resp r =
           JObj [("message",
                  js_or (match resp with Some x => opt (data x) "message" | None => JUndefined end)
                        (JStr msg));
                 ("status", match resp with Some x => JNum (status x) | None => JUndefined end);
                 ("endpoint", JStr (req_url r));
                 ("method", JStr (req_method r));
                 ("data", req_data r)]))) /\
  (exists b w2,
     setupTestDatabase (announced w) = (Return b, w2) /\
     (if b then True else sent (snd (runTests w)) = sent w)).
Proof.
  split.
  - pose proof (test_try_heard w w (heard_start w)) as H.
    unfold testAPI, try_catch.
    destruct (test_try w) as [[[]|e] wm].
    + destruct H as (rs & entries & (Hs & Hc & _) & Hr & Hu).
      exists wm, 10%nat, rs, entries. cbv zeta.
      split; [done|]. split; [exact Hr|]. split; [exact Hu|]. left. done.
    + destruct H as (n & rs & entries & Hn & Hr & Hu &
                     [(m & -> & Hs & Hc & _)|(msg & resp & r & -> & Hup & Hrej & Hs & Hc & _)]).
      * eexists _, n, rs, entries. cbv zeta.
        split; [reflexivity|]. split; [exact Hr|]. split; [exact Hu|].
        right. left. split; [done|]. exists m. split; [done|].
        cbn [snd test_catch console_error say sent console]. split; [exact Hs|].
        rewrite Hc, <- app_assoc. reflexivity.
      * eexists _, n, rs, entries. cbv zeta.
        split; [reflexivity|]. split; [exact Hr|]. split; [exact Hu|].
        right. right. split; [done|]. exists msg, resp, r. split; [done|].
        split; [exact Hup|]. split; [exact Hrej|].
        cbn [snd test_catch console_error say sent console].
        split; [by rewrite Hs, Hup|]. split; [|reflexivity].
        by rewrite Hc, failure_report_axios, <- app_assoc.
  - destruct (runTests_spec w) as (b & w2 & w3 & Hs & Hf & -> & H3).
    exists b, w2. split; [done|]. destruct b; [done|]. cbn [snd]. subst w3.
    cbn [console_log say snd sent].
    destruct Hf as [(_ & _ & _ & _ & _ & _ & _ & -> & _)
                   |(k & _ & _ & _ & _ & _ & (_ & _ & -> & _) & _)]; done.
Qed.

(** C2 (as amended).  In a run of [testAPI] in which no step throws, the
    requests are, in this order: create the user [testuser_<timestamp>]
    with [password123], log in, list the users, list the movies, add the
    first movie of that list to the user, fetch the user's movies, delete
    the association with movie 1, fetch the user's movies again, set the
    password to [newpassword456], log in with the new password; each is
    answered, and nothing is sent after the login with the new password. *)
Theorem C2_requests_of_a_successful_run (w : world) :
  fst (test_try w) = Return tt ->
  exists w' r1 r4,
    let reqs := scenario (date_now w) (prop (data r1) "userId") (first (data r4)) in
    testAPI w = (Return tt, w') /\
    sent w' = (sent w ++ reqs)%list /\
    returned w reqs 0 r1 /\ returned w reqs 3 r4 /\
    answered (api w) (sent w) reqs.
Proof.
  intros Hok.
  pose proof (test_try_spec w w (testing_start w)) as H.
  unfold testAPI, try_catch.
  destruct (test_try w) as [[[]|e] w']; [|done].
  destruct H as (r1 & r4 & H1 & H4 & (Hs & _) & Ha).
  exists w', r1, r4. done.
Qed.

(** C2, witness: against [example_api] no step throws, and the ten
    requests are those of the scenario for user 7 and the listed movie. *)
Lemma C2_witness :
  exists w',
    testAPI fresh_world = (Return tt, w') /\
    sent w' = scenario 1700000000000 (JNum 7) example_movie.
Proof.
  destruct (C2_requests_of_a_successful_run fresh_world eq_refl)
    as (w' & r1 & r4 & Ht & Hs & (q1 & Hq1 & H1) & (q4 & Hq4 & H4) & _).
  exists w'. split; [exact Ht|].
  cbn [scenario lookup list_lookup] in Hq1, Hq4.
  injection Hq1 as <-. injection Hq4 as <-.
  vm_compute in H1. injection H1 as <-.
  vm_compute in H4. injection H4 as <-.
  exact Hs.
Defined.

(** C2, counterexample to the claim as stated: in the successful run
    against [example_api] the script lists the users, which the claim does
    not mention, and its last request is the login with the new password:
    it never tries the old one again. *)
Lemma C2_no_login_with_the_old_password :
  let sent_ := sent (snd (testAPI fresh_world)) in
  fst (test_try fresh_world) = Return tt /\
  sent_ = scenario 1700000000000 (JNum 7) example_movie /\
  sent_ <> specified_scenario 1700000000000 (JNum 7) example_movie /\
  sent_ !! 2%nat = Some (Request "get" "http://localhost:3000/users" JUndefined) /\
  last sent_ =
    Some (Request "post" "http://localhost:3000/login"
            (JObj [("username", JStr "testuser_1700000000000");
                   ("password", JStr "newpassword456")])) /\
  length sent_ = 10%nat.
Proof.
  cbv zeta. split; [vm_compute; reflexivity|]. split; [vm_compute; reflexivity|].
  split; [intros H; vm_compute in H; discriminate H|].
  split; [vm_compute; reflexivity|]. split; vm_compute; reflexivity.
Qed.

(** C9.  The table has four entries, for the paths [''], [login],
    [signup] and [movies]; [''] redirects to [login] under full matching
    and the others carry the three components; no path occurs twice; and
    the page that a URL leads to is the same for every ordering of the
    table. *)
Theorem C9_route_table :
  map path routes = [""; "login"; "signup"; "movies"] /\
  map (fun r => (redirectTo r, pathMatch r, component_of r)) routes =
    [ (Some "login", Some full, None);
      (None, None, Some LoginComponent);
      (None, None, Some SignupComponent);
      (None, None, Some MoviesComponent) ] /\
  NoDup (map path routes) /\
  page routes [] = Some LoginComponent /\
  page routes ["login"] = Some LoginComponent /\
  page routes ["signup"] = Some SignupComponent /\
  page routes ["movies"] = Some MoviesComponent /\
  (forall table url, Permutation routes table -> page table url = page routes url).
Proof.
  repeat (split; [reflexivity|]). split; [|repeat (split; [reflexivity|])].
  - apply (bool_decide_unpack _). by vm_compute.
  - intros table url Hp. by apply navigate_perm.
Qed.

(** C9, witness: the reversed table leads where the table leads. *)
Lemma C9_witness :
  page reversed_routes ["movies"] = page routes ["movies"] /\
  page reversed_routes [] = page routes [].
Proof.
  assert (Permutation routes reversed_routes) as Hp by apply Permutation_rev.
  destruct C9_route_table as (_ & _ & _ & _ & _ & _ & _ & H).
  split; apply H; exact Hp.
Defined.

Lemma logged_provisioned :
  provisioned logged_db example_users example_movies
    {| t_def := user_movies_def; t_rows := []; t_auto_increment := 1 |}
    (new_table user_moods_def)
    {| t_def := deletion_logs_def; t_rows := [log_row 1 5 saved]; t_auto_increment := 2 |}.
Proof. by constructor. Qed.

(** C10.  [deletion_logs] is declared without foreign keys; no statement
    of the script drops it or deletes from it; so after [runTests] the
    table (where it existed, without foreign keys) is still there with its
    old rows first.  And its rows outlive what they name: deleting every
    user of [logged_db] leaves the logged row of user 1 in place. *)
Theorem C10_deletion_logs_only_grow (w : world) :
  td_foreign_keys deletion_logs_def = [] /\
  Forall (Forall spares_logs)
    [create_database_sql; use_sql; create_tables_sql; clear_sql; insert_movies_sql;
     select_movies_sql] /\
  logs_kept_on (mysqld w) (mysqld (snd (setupTestDatabase w))) /\
  logs_kept_on (mysqld w) (mysqld (snd (runTests w))) /\
  (exists db',
     delete_from 9 logged_db "users" None = Ok db' /\
     rows_of "users" db' = [] /\
     rows_of "deletion_logs" db' =
       [[("id", VInt 1); ("user_id", VInt 1); ("movie_id", VInt 1); ("deleted_at", VTime 5)]]).
Proof.
  assert (forall v, logs_kept_on (mysqld v) (mysqld (snd (setupTestDatabase v)))) as Hsetup.
  { intros v. destruct (setup_finishes v) as (b & w' & -> & Hf). cbn [snd].
    destruct Hf as [(_ & _ & _ & _ & -> & _)|(k & _ & _ & _ & _ & _ & _ & Hk)];
      [apply logs_kept_on_refl|done]. }
  split; [reflexivity|]. split; [apply script_spares|]. split; [apply Hsetup|]. split.
  - destruct (runTests_spec w) as (b & w2 & w3 & Hs & _ & -> & H3). cbn [snd].
    pose proof (Hsetup (announced w)) as Hk. rewrite Hs in Hk. cbn [snd] in Hk.
    destruct b; subst w3; [|exact Hk].
    destruct (testAPI_frame (snd (console_log (nl ++ "Starting API tests...") [] w2)))
      as (-> & _). exact Hk.
  - eexists. split; [by apply (delete_users 9 logged_db _ _ _ _ _ logged_provisioned)|].
    split; reflexivity.
Qed.

End Claims.

(** * Further properties *)

Module Properties.
Import Sql Schema Invariants Script Hoare Routes Examples Further.
Import SqlFacts ScriptFacts ApiFacts RoutesFacts FurtherFacts.

(** ** The schema *)

(** X1.  [users.username] is [UNIQUE].  For a name and a password that
    fit their columns, [VARCHAR(255)] both, and a next [AUTO_INCREMENT]
    value that fits [INT], an [INSERT INTO users (username, password)]
    fails with a duplicate-entry error when a user has that name under the
    collation, and stores the row otherwise, with the next
    [AUTO_INCREMENT] value as [id] and the clock as [created_at]. *)
Theorem X1_usernames_are_unique (co : collation) (clock : Z) (tbls : gmap string table)
    (u : table) (name pw : string) :
  tbls !! "users" = Some u -> t_def u = users_def -> numbered u ->
  given_fit users_def ["username"; "password"] [VStr name; VStr pw] = true ->
  fits INT (VInt (t_auto_increment u)) = true ->
  insert_row co clock tbls "users" ["username"; "password"] [VStr name; VStr pw] =
  if existsb (fun r => sql_eqb co (VStr name) (row_get "username" r)) (t_rows u)
  then Err ER_DUP_ENTRY
  else Ok (<["users" :=
              {| t_def := users_def;
                 t_rows := t_rows u ++ [user_row (t_auto_increment u) name pw clock];
                 t_auto_increment := t_auto_increment u + 1 |}]> tbls).
Proof.
  intros Ht Hd Hn _ _. unfold insert_row. rewrite Ht. cbn [from_option bind]. rewrite Hd.
  cbn -[sql_eqb Z.add Z.max same_key next_auto].
  rewrite fresh_id by done. cbn [negb andb].
  rewrite (existsb_same _ (fun r => sql_eqb co (VStr name) (row_get "username" r)))
    by (intros r; apply same_key_one).
  destruct (existsb _ (t_rows u)); [done|]. cbn [negb andb guard bind].
  unfold next_auto. rewrite Hd. cbn -[Z.add Z.max].
  change (row_get "id" _) with (VInt (t_auto_increment u)).
  cbn -[Z.add Z.max]. by rewrite Z.max_r by lia.
Qed.

Lemma example_users_numbered : numbered example_users.
Proof.
  intros r n Hr Hn. cbn [example_users t_rows t_auto_increment] in *.
  apply elem_of_cons in Hr as [->|Hr]; [|apply list_elem_of_singleton in Hr as ->];
    vm_compute in Hn; simplify_eq; lia.
Qed.

(** X1, witness: in [example_db], whose collation ignores case, there is
    no room for a second [ALICE], and [bob] becomes user 3. *)
Lemma X1_witness :
  insert_row CaseInsensitive 9 (db_tables example_db) "users" ["username"; "password"]
             [VStr "ALICE"; VStr "x"] = Err ER_DUP_ENTRY /\
  exists tbls,
    insert_row CaseInsensitive 9 (db_tables example_db) "users" ["username"; "password"]
               [VStr "bob"; VStr "x"] = Ok tbls /\
    t_rows <$> tbls !! "users" = Some [alice; tester; user_row 3 "bob" "x" 9].
Proof.
  split.
  - rewrite (X1_usernames_are_unique CaseInsensitive 9 (db_tables example_db) example_users
               "ALICE" "x" eq_refl eq_refl example_users_numbered eq_refl eq_refl).
    reflexivity.
  - eexists. split.
    + rewrite (X1_usernames_are_unique CaseInsensitive 9 (db_tables example_db) example_users
                 "bob" "x" eq_refl eq_refl example_users_numbered eq_refl eq_refl).
      reflexivity.
    + rewrite lookup_insert_eq. reflexivity.
Defined.

(** X2.  [user_movies] has the primary key [(user_id, movie_id)] and a
    foreign key to each parent.  For ids that fit their [INT] columns:
    where the user and the movie exist, the pair is stored once and a
    second insert of it is a duplicate-entry error; where the user or the
    movie is missing, a new pair is refused for want of the referenced
    row. *)
Theorem X2_associations_need_their_user_and_movie (co : collation) (clock : Z)
    (tbls : gmap string table) (u m um : table) (uid mid : Z) :
  tbls !! "users" = Some u -> tbls !! "movies" = Some m ->
  tbls !! "user_movies" = Some um -> t_def um = user_movies_def ->
  given_fit user_movies_def ["user_id"; "movie_id"] [VInt uid; VInt mid] = true ->
  let inserted :=
    insert_row co clock tbls "user_movies" ["user_id"; "movie_id"] [VInt uid; VInt mid] in
  (has_number co "id" uid u && has_number co "id" mid m = true ->
   inserted =
     if paired co uid mid um then Err ER_DUP_ENTRY
     else Ok (<["user_movies" :=
                 {| t_def := user_movies_def;
                    t_rows := t_rows um ++ [association uid mid clock];
                    t_auto_increment := t_auto_increment um |}]> tbls)) /\
  (has_number co "id" uid u && has_number co "id" mid m = false ->
   paired co uid mid um = false -> inserted = Err ER_NO_REFERENCED_ROW_2).
Proof.
  intros Hu Hm Ht Hd _ inserted. unfold inserted.
  rewrite (insert_association co clock tbls u m um uid mid Hu Hm Ht Hd).
  split; [intros ->; done|intros -> ->; done].
Qed.

(** X2, witness: in [example_db] user 2 may save movie 1, user 1 has it
    already, and nobody may save movie 9. *)
Lemma X2_witness :
  (exists tbls,
     insert_row CaseInsensitive 9 (db_tables example_db) "user_movies"
                ["user_id"; "movie_id"] [VInt 2; VInt 1] = Ok tbls /\
     t_rows <$> tbls !! "user_movies" = Some [saved; association 2 1 9]) /\
  insert_row CaseInsensitive 9 (db_tables example_db) "user_movies"
             ["user_id"; "movie_id"] [VInt 1; VInt 1] = Err ER_DUP_ENTRY /\
  insert_row CaseInsensitive 9 (db_tables example_db) "user_movies"
             ["user_id"; "movie_id"] [VInt 1; VInt 9] = Err ER_NO_REFERENCED_ROW_2.
Proof.
  pose proof (fun uid mid =>
    X2_associations_need_their_user_and_movie CaseInsensitive 9 (db_tables example_db)
      example_users example_movies example_user_movies uid mid
      eq_refl eq_refl eq_refl eq_refl) as H.
  split; [|split].
  - eexists. split; [rewrite (proj1 (H 2 1 eq_refl) eq_refl); reflexivity|].
    rewrite lookup_insert_eq. reflexivity.
  - rewrite (proj1 (H 1 1 eq_refl) eq_refl). reflexivity.
  - exact (proj2 (H 1 9 eq_refl) eq_refl eq_refl).
Defined.

(** X3.  [movies.tmdb_id] is [UNIQUE] but not [NOT NULL].  For a title
    that fits [VARCHAR(255)] and a next [AUTO_INCREMENT] value that fits
    [INT]: an insert with a [tmdb_id] that fits [INT] and that a movie has
    is a duplicate-entry error, one with a new such [tmdb_id] is stored,
    and a movie without [tmdb_id] is always stored, however many such
    movies there are. *)
Theorem X3_tmdb_ids_are_unique_where_given (co : collation) (clock : Z)
    (tbls : gmap string table) (m : table) (title : string) :
  tbls !! "movies" = Some m -> t_def m = movies_def -> numbered m ->
  given_fit movies_def ["title"] [VStr title] = true ->
  fits INT (VInt (t_auto_increment m)) = true ->
  (forall n,
     given_fit movies_def ["title"; "tmdb_id"] [VStr title; VInt n] = true ->
     insert_row co clock tbls "movies" ["title"; "tmdb_id"] [VStr title; VInt n] =
     if has_number co "tmdb_id" n m
     then Err ER_DUP_ENTRY
     else Ok (<["movies" :=
                 {| t_def := movies_def;
                    t_rows := t_rows m ++ [movie_row (t_auto_increment m) (VInt n) title clock];
                    t_auto_increment := t_auto_increment m + 1 |}]> tbls)) /\
  insert_row co clock tbls "movies" ["title"] [VStr title] =
    Ok (<["movies" :=
           {| t_def := movies_def;
              t_rows := t_rows m ++ [movie_row (t_auto_increment m) VNull title clock];
              t_auto_increment := t_auto_increment m + 1 |}]> tbls).
Proof.
  intros Ht Hd Hn _ _. split.
  - intros n _. by apply insert_movie.
  - by apply insert_movie_without_tmdb_id.
Qed.

Lemma example_movies_numbered : numbered example_movies.
Proof.
  intros r n Hr Hn. cbn [example_movies t_rows t_auto_increment seeded] in *.
  repeat (apply elem_of_cons in Hr as [->|Hr]; [vm_compute in Hn; simplify_eq; lia|]).
  by apply elem_of_nil in Hr.
Qed.

(** X3, witness: in [example_db] a second movie with the id 278 is
    refused, and two movies without [tmdb_id] are stored one after the
    other. *)
Lemma X3_witness :
  insert_row CaseInsensitive 9 (db_tables example_db) "movies" ["title"; "tmdb_id"]
             [VStr "Again"; VInt 278] = Err ER_DUP_ENTRY /\
  exists tbls tbls',
    insert_row CaseInsensitive 9 (db_tables example_db) "movies" ["title"] [VStr "One"] =
      Ok tbls /\
    insert_row CaseInsensitive 9 tbls "movies" ["title"] [VStr "Two"] = Ok tbls' /\
    map (fun r => (row_get "id" r, row_get "tmdb_id" r)) <$> (t_rows <$> tbls' !! "movies") =
      Some [(VInt 1, VInt 278); (VInt 2, VInt 238); (VInt 3, VInt 155);
            (VInt 4, VNull); (VInt 5, VNull)].
Proof.
  destruct (X3_tmdb_ids_are_unique_where_given CaseInsensitive 9 (db_tables example_db)
              example_movies "Again" eq_refl eq_refl example_movies_numbered
              eq_refl eq_refl) as [H _].
  split; [rewrite (H 278 eq_refl); reflexivity|].
  eexists _, _. split; [|split].
  - vm_compute. reflexivity.
  - vm_compute. reflexivity.
  - vm_compute. reflexivity.
Defined.

(** X4.  [user_moods] follows its user and nothing else: a [DELETE] on
    [users] removes, by cascade, exactly the moods whose [user_id] is the
    [id] of a deleted user, and a [DELETE] on [movies] leaves every mood in
    place. *)
Theorem X4_moods_go_with_their_user (clock : Z) (db : database) (u m um md dl : table)
    (w : option cond) :
  provisioned db u m um md dl ->
  let co := db_collation db in
  let gone := List.filter (selects co w) (t_rows u) in
  (exists db',
     delete_from clock db "users" w = Ok db' /\
     rows_of "users" db' = List.filter (fun r => negb (selects co w r)) (t_rows u) /\
     rows_of "user_moods" db' =
       List.filter
         (fun r => negb (existsb (fun g => sql_eqb co (row_get "user_id" r) (row_get "id" g))
                                 gone))
         (t_rows md)) /\
  (forall w', exists db',
     delete_from clock db "movies" w' = Ok db' /\ rows_of "user_moods" db' = t_rows md).
Proof.
  intros Hp co gone. split.
  - eexists. split; [by apply (delete_users clock db u m um md dl Hp)|].
    unfold rows_of. cbn [db_tables].
    change (five ?a ?b ?c ?d ?e !! "users") with (Some a).
    change (five ?a ?b ?c ?d ?e !! "user_moods") with (Some d).
    split; [done|]. by rewrite survivors_moods by apply Hp.
  - intros w'. eexists. split; [by apply (delete_movies clock db u m um md dl Hp)|].
    unfold rows_of. cbn [db_tables].
    by change (five ?a ?b ?c ?d ?e !! "user_moods") with (Some d).
Qed.

Lemma moody_provisioned :
  provisioned moody_db example_users example_movies example_user_movies example_moods
              (new_table deletion_logs_def).
Proof. by constructor. Qed.

(** X4, witness: deleting user 1 of [moody_db] leaves the mood of user 2. *)
Lemma X4_witness :
  exists db',
    delete_from 9 moody_db "users" (Some (CEq "id" (VInt 1))) = Ok db' /\
    rows_of "users" db' = [tester] /\
    rows_of "user_moods" db' = [mood_of 2 2 "tense"].
Proof.
  destruct (X4_moods_go_with_their_user 9 moody_db _ _ _ _ _ (Some (CEq "id" (VInt 1)))
              moody_provisioned) as [(db' & Hd & Hu & Hm) _].
  exists db'. split; [exact Hd|]. split; [exact Hu|exact Hm].
Defined.

(** X5.  The users that [testAPI] creates are deleted by the next run of
    [setupTestDatabase].  Whatever happens, the first request of [testAPI]
    asks for the user [testuser_<timestamp>].  In a run of
    [setupTestDatabase] without failures from outside, on a database that
    holds what the script puts there and under whose collation that name is
    [LIKE 'testuser%'], the users that are left are exactly the old ones
    whose names the pattern does not select, so none of them has that
    name.  Under the binary and the case-insensitive collation of the model
    the pattern selects every such name, and under the binary one exactly
    the names that begin with [testuser]. *)
Theorem X5_test_users_match_the_pattern (v w : world) (db : database) :
  let name := "testuser_" ++ string_of_Z (date_now v) in
  faults w = [] -> script_state_on (mysqld w) ->
  databases (mysqld w) !! app_db = Some db ->
  like (db_collation db) "testuser%" (VStr name) = true ->
  (exists rest,
     sent (snd (testAPI v)) =
     (sent v ++
      Request "post" (API_URL ++ "/users")
        (JObj [("username", JStr name); ("password", JStr "password123")]) :: rest)%list) /\
  (exists w' db',
     setupTestDatabase w = (Return true, w') /\
     databases (mysqld w') !! app_db = Some db' /\
     (forall r, r ∈ rows_of "users" db' <->
                r ∈ rows_of "users" db /\
                like (db_collation db) "testuser%" (row_get "username" r) = false) /\
     (forall r, r ∈ rows_of "users" db' -> row_get "username" r <> VStr name)) /\
  (forall t,
     like Binary "testuser%" (VStr ("testuser_" ++ string_of_Z t)) = true /\
     like CaseInsensitive "testuser%" (VStr ("testuser_" ++ string_of_Z t)) = true) /\
  (forall s, like Binary "testuser%" (VStr s) = true <-> exists rest, s = "testuser" ++ rest).
Proof.
  intros name Hq Hst Hd Hlike. split; [|split; [|split]].
  - exact (testAPI_begins v).
  - destruct (quiet_setup w Hq Hst) as (w' & Hs & Hm).
    exists w', (reset_database (mysqld w)). split; [exact Hs|].
    rewrite Hm. split; [apply with_database_lookup|].
    assert (found (mysqld w) = db) as Hf by (unfold found; by rewrite Hd).
    assert (forall r, r ∈ rows_of "users" (reset_database (mysqld w)) <->
                      r ∈ rows_of "users" db /\
                      like (db_collation db) "testuser%" (row_get "username" r) = false)
      as Hrows.
    { intros r. unfold rows_of at 1. rewrite reset_tables.
      change (five ?a ?b ?c ?d ?e !! "users") with (Some a).
      cbn [with_rows t_rows]. unfold other_users. rewrite Hf.
      rewrite !list_elem_of_In, filter_In, negb_true_iff. reflexivity. }
    split; [exact Hrows|].
    intros r Hr Hn. apply Hrows in Hr as [_ Hr]. rewrite Hn, Hlike in Hr. discriminate Hr.
  - intros t. unfold like. rewrite !like_testuser_chars. split; apply chars_eqb_refl.
  - intros s. unfold like. rewrite like_testuser_chars, chars_eqb_binary. split.
    + intros H. exists (string_of_list_ascii (skipn 8 (list_ascii_of_string s))).
      rewrite <- (string_of_list_ascii_of_string s) at 1.
      rewrite <- (firstn_skipn 8 (list_ascii_of_string s)) at 1.
      rewrite <- H. by rewrite string_of_list_ascii_app.
    + intros [rest ->]. reflexivity.
Qed.

(** X5, witness: [example_db], whose collation ignores case, has the user
    [TestUser_1]; after the run that user is gone. *)
Lemma X5_witness :
  tester ∈ rows_of "users" example_db /\
  exists w' db',
    setupTestDatabase (world_on example_server) = (Return true, w') /\
    databases (mysqld w') !! app_db = Some db' /\
    tester ∉ rows_of "users" db'.
Proof.
  split; [change (tester ∈ [alice; tester]); repeat constructor|].
  destruct (X5_test_users_match_the_pattern fresh_world (world_on example_server) example_db
              eq_refl example_state eq_refl)
    as (_ & (w' & db' & Hs & Hd & Hrows & _) & _).
  - vm_compute. reflexivity.
  - exists w', db'. split; [exact Hs|]. split; [exact Hd|].
    intros Hin. apply Hrows in Hin as [_ Hin]. vm_compute in Hin. discriminate Hin.
Defined.

(** ** [setupTestDatabase] *)

(** X6.  Provisioning goes past the audit trigger: in a run without
    failures from outside, on a database that holds what the script puts
    there, the rows of [user_movies] are gone afterwards, dropped with
    their table, and [deletion_logs] has the rows it had, not one more. *)
Theorem X6_provisioning_drops_associations_unlogged (w : world) (db : database) :
  faults w = [] -> script_state_on (mysqld w) ->
  databases (mysqld w) !! app_db = Some db ->
  exists w' db',
    setupTestDatabase w = (Return true, w') /\
    databases (mysqld w') !! app_db = Some db' /\
    rows_of "user_movies" db' = [] /\
    rows_of "deletion_logs" db' = rows_of "deletion_logs" db.
Proof.
  intros Hq Hst Hd. destruct (quiet_setup w Hq Hst) as (w' & Hs & Hm).
  exists w', (reset_database (mysqld w)). split; [exact Hs|].
  rewrite Hm. split; [apply with_database_lookup|]. split; [reflexivity|].
  unfold rows_of, reset_database. rewrite Hd. cbn [db_tables].
  change (five ?a ?b ?c ?d ?e !! "deletion_logs") with (Some e).
  by destruct (db_tables db !! "deletion_logs").
Qed.

(** X6, witness: on [example_server], where user 1 has saved movie 1,
    the run leaves no association and an empty log. *)
Lemma X6_witness :
  rows_of "user_movies" example_db = [saved] /\
  exists w' db',
    setupTestDatabase (world_on example_server) = (Return true, w') /\
    databases (mysqld w') !! app_db = Some db' /\
    rows_of "user_movies" db' = [] /\
    rows_of "deletion_logs" db' = [].
Proof.
  split; [reflexivity|].
  exact (X6_provisioning_drops_associations_unlogged (world_on example_server) example_db
           eq_refl example_state eq_refl).
Defined.

(** X7.  Provisioning can be repeated: after a run without failures from
    outside, a second such run, at whatever time [t] the server then
    shows, returns [true] again and leaves every table but [movies], and
    the trigger, exactly as the first run left them; [movies] holds the
    three seeded rows again, numbered from 1, now stamped [t]. *)
Theorem X7_provisioning_is_repeatable (w v : world) (t : Z) :
  faults w = [] -> script_state_on (mysqld w) ->
  faults v = [] -> mysqld v = at_time t (mysqld (snd (setupTestDatabase w))) ->
  exists db1 db2 v',
    databases (mysqld v) !! app_db = Some db1 /\
    setupTestDatabase v = (Return true, v') /\
    databases (mysqld v') !! app_db = Some db2 /\
    (forall n, n <> "movies" -> db_tables db2 !! n = db_tables db1 !! n) /\
    db_triggers db2 = db_triggers db1 /\
    rows_of "movies" db1 = seeded (now (mysqld w)) 1 /\
    rows_of "movies" db2 = seeded t 1.
Proof.
  intros Hq Hst Hqv Hv. destruct (quiet_setup w Hq Hst) as (w' & Hs & Hm).
  rewrite Hs in Hv. cbn [snd] in Hv. rewrite Hm in Hv.
  assert (script_state_on (mysqld v)) as Hstv by (rewrite Hv; by apply reset_state_on).
  destruct (quiet_setup v Hqv Hstv) as (v' & Hsv & Hmv).
  exists (reset_database (mysqld w)), (reset_database (mysqld v)), v'.
  split; [rewrite Hv; apply with_database_lookup|]. split; [exact Hsv|].
  split; [rewrite Hmv; apply with_database_lookup|].
  rewrite Hv, reset_again. cbn [db_tables db_triggers].
  split; [intros n Hn; by rewrite lookup_insert_ne|]. split; [reflexivity|].
  split; [reflexivity|]. unfold rows_of. cbn [db_tables]. by rewrite lookup_insert_eq.
Qed.

(** X7, witness: the second run on a new server, at time 99. *)
Lemma X7_witness :
  exists db2 v',
    setupTestDatabase
      (world_on (at_time 99 (mysqld (snd (setupTestDatabase fresh_world))))) =
      (Return true, v') /\
    databases (mysqld v') !! app_db = Some db2 /\
    rows_of "movies" db2 = seeded 99 1.
Proof.
  destruct (X7_provisioning_is_repeatable fresh_world
              (world_on (at_time 99 (mysqld (snd (setupTestDatabase fresh_world))))) 99
              eq_refl new_server_state eq_refl eq_refl)
    as (db1 & db2 & v' & _ & Hs & Hd & _ & _ & _ & Hm).
  exists db2, v'. split; [exact Hs|]. split; [exact Hd|exact Hm].
Defined.

(** X8.  The console tells how far [setupTestDatabase] got.  It always
    returns.  When the connection is refused, it returns [false], and the
    console has the three lines that precede the attempt, the error with
    the code of that refusal, and a hint if the code is the access-denied
    or the connection-refused one.  Otherwise its queries are sent one
    after the other until one fails, from outside or on the server, and
    the connection is closed after the last that was sent.  When one has
    failed, it returns [false], and the console has the progress lines that
    precede that query, then the error with the code of that failure, then
    the hint if there is one, and nothing after.  When none has failed, all
    six were sent, it returns [true], and the console has the nine
    progress lines, with the host and the user it connected with, then the
    rows that [movies] holds in the database that the run leaves, then the
    line of success. *)
Theorem X8_console_of_the_setup (w : world) :
  let id := next_conn w in
  let cfg := connection_config w in
  exists b w',
    setupTestDatabase w = (Return b, w') /\
    match fault_at (faults w) with
    | Some c =>
      b = false /\
      db_log w' = (db_log w ++ [Connect cfg None])%list /\
      console w' = (console w ++ take 3 (setup_lines w) ++ error_lines c)%list
    | None =>
      let a := setup_account w in
      db_log w' = (db_log w ++ take (S (acc_queries a)) (plan id cfg)
                            ++ [EndConnection id])%list /\
      mysqld w' = acc_server a /\
      match acc_failure a with
      | Some c =>
        b = false /\ (1 <= acc_queries a <= 6)%nat /\
        console w' = (console w ++ take (lines_before (S (acc_queries a))) (setup_lines w)
                              ++ error_lines c)%list
      | None =>
        b = true /\ acc_queries a = 6%nat /\
        exists db t,
          databases (mysqld w') !! app_db = Some db /\
          db_tables db !! "movies" = Some t /\
          console w' = (console w ++ setup_lines w ++
                        success_lines (JArr (map json_of_row (t_rows t))))%list
      end
    end.
Proof.
  intros id cfg. destruct (setup_runs w) as (b & w' & Hs & _ & H).
  exists b, w'. split; [exact Hs|].
  destruct (fault_at (faults w)) as [c|].
  - destruct H as (-> & Hl & _ & _ & Hc). done.
  - cbv zeta in H. destruct H as (-> & Hl & _ & Hsv & Hc).
    cbv zeta. split; [exact Hl|]. split; [exact Hsv|].
    pose proof (run_complete (tail (faults w)) (mysqld w)) as Ha.
    cbv zeta in Ha. fold (setup_account w) in Ha. unfold account_lines in Hc.
    destruct (acc_failure (setup_account w)) as [c|].
    + done.
    + destruct Ha as (Hq & db & t & Hd & Ht & Hans).
      split; [done|]. split; [done|]. exists db, t. rewrite Hsv.
      split; [exact Hd|]. split; [exact Ht|]. by rewrite Hc, Hans.
Qed.

(** X8, witness: on [squatted_world] the third query fails, and the
    console ends with the error of the trigger after seven progress
    lines. *)
Lemma X8_witness :
  exists w',
    setupTestDatabase squatted_world = (Return false, w') /\
    console w' = (take 7 (setup_lines squatted_world) ++
                  error_lines ER_TRG_ALREADY_EXISTS)%list.
Proof.
  destruct (X8_console_of_the_setup squatted_world) as (b & w' & Hs & H).
  change (fault_at (faults squatted_world)) with (@None err_code) in H. cbv iota zeta in H.
  destruct H as (_ & _ & H).
  assert (setup_account squatted_world =
          Account 3 (Some ER_TRG_ALREADY_EXISTS) [Done] {| current_db := Some app_db |}
                  (acc_server (setup_account squatted_world))) as Ha.
  { vm_compute. reflexivity. }
  rewrite Ha in H. cbn [acc_failure acc_queries] in H. destruct H as (-> & _ & Hc).
  exists w'. split; [exact Hs|exact Hc].
Defined.

(** ** A reference to [movies] from outside the script *)

(** X9.  A foreign key into [movies] from a table that is not the
    script's breaks provisioning half way.  In a run without failures from
    outside, on a database that has [users] and [movies] and a further
    table that refers to [movies], the third query fails on
    [DROP TABLE IF EXISTS movies], which MySQL refuses for a referenced
    table; [user_movies] has been dropped by then and is not created again;
    [setupTestDatabase] returns [false]. *)
Theorem X9_foreign_reference_blocks_provisioning (w : world) (db : database) (u : table)
    (n : string) (t : table) :
  faults w = [] -> databases (mysqld w) !! app_db = Some db ->
  db_tables db !! "users" = Some u -> is_Some (db_tables db !! "movies") ->
  referenced_by_other (db_tables db) "user_movies" = false ->
  n <> "movies" -> n <> "user_movies" -> db_tables db !! n = Some t ->
  refs_to "movies" t <> [] ->
  exists sv' w' db',
    exec_batch create_tables_sql {| current_db := Some app_db |} (mysqld w) =
      (Err ER_FK_CANNOT_DROP_PARENT, {| current_db := Some app_db |}, sv') /\
    setupTestDatabase w = (Return false, w') /\ mysqld w' = sv' /\
    databases sv' !! app_db = Some db' /\
    db_tables db' !! "user_movies" = None /\
    db_tables db' !! "movies" = db_tables db !! "movies".
Proof.
  intros Hq Hd Hu Hm Hum Hn1 Hn2 Ht Hr.
  assert (Forall on_tables create_tables_sql) as Hon by (repeat constructor).
  pose proof (exec_batch_db create_tables_sql {| current_db := Some app_db |}
                (mysqld w) app_db db Hon eq_refl Hd) as Hx.
  rewrite (create_tables_blocked _ db u n t) in Hx by done. cbn [fst snd] in Hx.
  pose proof (create_database_batch {| current_db := None |} (mysqld w)) as H1.
  rewrite Hd in H1. cbn [default] in H1. rewrite with_database_same in H1 by done.
  pose proof (use_batch {| current_db := None |} (mysqld w) (mk_is_Some _ _ Hd)) as H2.
  destruct (setup_fails_third w Hq _ _ _ _ _ _ _ _ _ H1 H2 Hx) as (w' & Hs & Hw).
  eexists _, w', _. split; [exact Hx|]. split; [exact Hs|]. split; [exact Hw|].
  split; [apply with_database_lookup|].
  destruct (db_tables db !! "user_movies") as [um|] eqn:E; cbn [db_tables].
  - split; [apply lookup_delete_eq|by rewrite lookup_delete_ne].
  - done.
Qed.

(** X9, witness: [rated_db], in which a table [ratings] refers to
    [movies]. *)
Lemma X9_witness :
  exists w' db',
    setupTestDatabase rated_world = (Return false, w') /\
    databases (mysqld w') !! app_db = Some db' /\
    db_tables db' !! "user_movies" = None /\
    t_rows <$> db_tables db' !! "movies" = Some (seeded 0 1).
Proof.
  destruct (X9_foreign_reference_blocks_provisioning rated_world rated_db example_users
              "ratings" (new_table ratings_def))
    as (sv' & w' & db' & _ & Hs & Hw & Hd & Hum & Hm).
  - reflexivity.
  - vm_compute. reflexivity.
  - vm_compute. reflexivity.
  - exists example_movies. vm_compute. reflexivity.
  - vm_compute. reflexivity.
  - intros H. discriminate H.
  - intros H. discriminate H.
  - vm_compute. reflexivity.
  - intros H. vm_compute in H. discriminate H.
  - exists w', db'. rewrite Hw. split; [exact Hs|]. split; [exact Hd|].
    split; [exact Hum|]. rewrite Hm. vm_compute. reflexivity.
Defined.

(** ** [runTests] *)

(** X10.  [runTests] is done with the database before it turns to the
    service: after [setupTestDatabase] has returned, the script makes no
    call to the database; and the first request of the API test, the
    creation of [testuser_<timestamp>], is sent exactly when
    [setupTestDatabase] has returned [true]. *)
Theorem X10_api_tests_follow_the_setup (w : world) :
  let w2 := snd (setupTestDatabase (announced w)) in
  let w3 := snd (runTests w) in
  db_log w3 = db_log w2 /\
  ((exists rest,
      sent w3 =
      (sent w ++
       Request "post" (API_URL ++ "/users")
         (JObj [("username", JStr ("testuser_" ++ string_of_Z (date_now w)));
                ("password", JStr "password123")]) :: rest)%list) <->
   fst (setupTestDatabase (announced w)) = Return true).
Proof.
  intros w2 w3.
  destruct (runTests_order w) as (Hl & _ & _ & _ & Ht & Hf).
  split; [exact Hl|]. split.
  - intros [rest Hr].
    destruct (setup_finishes (announced w)) as (b & w' & Hb & _).
    rewrite Hb in *. cbn [fst] in *. destruct b; [reflexivity|].
    fold w3 in Hf. rewrite (Hf eq_refl) in Hr.
    apply (f_equal length) in Hr. rewrite length_app in Hr. cbn [length] in Hr. lia.
  - exact Ht.
Qed.

(** ** [testAPI] *)

(** X11.  A list of movies without a first element ends the test as a
    rejected request does.  When the first four requests are answered and
    the list of movies has no element 0, [testAPI] sends nothing more: the
    read of [movieToAdd.tmdb_id] throws, and the report that ends the
    console carries the message of that [TypeError] and no status,
    endpoint, method or data. *)
Theorem X11_empty_movie_list_ends_the_test (w : world) (r1 r2 r3 r4 : response) :
  replied w [] (create_user_request w) r1 ->
  replied w [create_user_request w] (login_request w) r2 ->
  replied w [create_user_request w; login_request w] list_users_request r3 ->
  replied w [create_user_request w; login_request w; list_users_request]
          list_movies_request r4 ->
  nullish (data r1) = false -> nullish (data r4) = false ->
  nullish (first (data r4)) = true ->
  exists w',
    testAPI w = (Return tt, w') /\
    sent w' = (sent w ++ [create_user_request w; login_request w; list_users_request;
                          list_movies_request])%list /\
    last (console w') =
      Some (Entry ERROR report_heading
              [type_error_report
                 ("Cannot read properties of " ++ to_string (first (data r4)) ++
                  " (reading 'tmdb_id')")]).
Proof.
  intros H1 H2 H3 H4 Hu Hm Hf.
  pose proof (test_try_empty_list w r1 r2 r3 r4 H1 H2 H3 H4 Hu Hm Hf w (told_start w)) as H.
  unfold testAPI, try_catch.
  destruct (test_try w) as [[[]|e] wm]; [done|].
  destruct H as (-> & entries & Hs & _).
  eexists. split; [reflexivity|]. unfold test_catch, console_error, say. cbn [snd sent console].
  split; [exact Hs|]. by rewrite last_snoc.
Qed.

(** X11, witness: against a service with an empty catalogue. *)
Lemma X11_witness :
  exists w',
    testAPI (with_api empty_catalogue_api fresh_world) = (Return tt, w') /\
    map req_url (sent w') =
      [ "http://localhost:3000/users"; "http://localhost:3000/login";
        "http://localhost:3000/users"; "http://localhost:3000/movies" ] /\
    last (console w') =
      Some (Entry ERROR report_heading
              [type_error_report "Cannot read properties of undefined (reading 'tmdb_id')"]).
Proof.
  destruct (X11_empty_movie_list_ends_the_test (with_api empty_catalogue_api fresh_world)
              {| status := 201; data := JObj [("userId", JNum 7)] |}
              {| status := 200; data := JObj [("message", JStr "ok")] |}
              {| status := 200; data := JArr [] |}
              {| status := 200; data := JArr [] |})
    as (w' & Ht & Hs & Hc); try (split; reflexivity); try reflexivity.
  exists w'. split; [exact Ht|]. split; [by rewrite Hs|exact Hc].
Defined.

(** X12.  [testAPI] does not look at the [userId] it is given.  When the
    answer to the creation of the user is an object without [userId], a run
    in which nothing throws sends its five requests about the user to
    [/user/undefined/...]. *)
Theorem X12_missing_user_id_goes_unnoticed (w : world) (r1 : response) :
  fst (test_try w) = Return tt ->
  replied w [] (create_user_request w) r1 ->
  prop (data r1) "userId" = JUndefined ->
  exists w',
    testAPI w = (Return tt, w') /\
    map (fun r => (req_method r, req_url r)) (drop (length (sent w)) (sent w')) =
      [ ("post", "http://localhost:3000/users");
        ("post", "http://localhost:3000/login");
        ("get", "http://localhost:3000/users");
        ("get", "http://localhost:3000/movies");
        ("post", "http://localhost:3000/user/undefined/movies");
        ("get", "http://localhost:3000/user/undefined/movies");
        ("delete", "http://localhost:3000/user/undefined/movies/1");
        ("get", "http://localhost:3000/user/undefined/movies");
        ("put", "http://localhost:3000/user/undefined/password");
        ("post", "http://localhost:3000/login") ].
Proof.
  intros Hok [H1 _] Hu.
  destruct (testAPI_transcript w Hok) as (w' & rs & Ht & Hl & Hs & Hr & _).
  exists w'. split; [exact Ht|]. rewrite Hs, drop_app_length.
  destruct rs as [|r1' rs]; [done|].
  cbn [scenario replies] in Hr. destruct Hr as (H1' & _).
  rewrite app_nil_r in H1. unfold create_user_request in H1.
  rewrite H1 in H1'. injection H1' as <-.
  change (shown (r1 :: rs) 0) with (data r1). rewrite Hu. reflexivity.
Qed.

(** X12, witness: against a service that answers the creation of the user
    with a message alone. *)
Lemma X12_witness :
  exists w',
    testAPI (with_api anonymous_api fresh_world) = (Return tt, w') /\
    map (fun r => (req_method r, req_url r)) (sent w') =
      [ ("post", "http://localhost:3000/users");
        ("post", "http://localhost:3000/login");
        ("get", "http://localhost:3000/users");
        ("get", "http://localhost:3000/movies");
        ("post", "http://localhost:3000/user/undefined/movies");
        ("get", "http://localhost:3000/user/undefined/movies");
        ("delete", "http://localhost:3000/user/undefined/movies/1");
        ("get", "http://localhost:3000/user/undefined/movies");
        ("put", "http://localhost:3000/user/undefined/password");
        ("post", "http://localhost:3000/login") ].
Proof.
  destruct (X12_missing_user_id_goes_unnoticed (with_api anonymous_api fresh_world)
              {| status := 201; data := JObj [("message", JStr "created")] |})
    as (w' & Ht & Hs); [reflexivity|split; reflexivity|reflexivity|].
  exists w'. split; [exact Ht|exact Hs].
Defined.

(** X13.  A run of [testAPI] in which nothing throws prints the
    transcript: the body of each response after the request it answers,
    and one verdict on the deletion, an error line when the list fetched
    after the deletion still has an element whose [id] is the number 1 and
    a line of success otherwise.  The verdict does not end the run: in
    both cases the password is updated, the new login is made, and the
    last line announces that all tests have completed. *)
Theorem X13_transcript_of_a_passing_run (w : world) :
  fst (test_try w) = Return tt ->
  exists w' rs,
    let reqs := scenario (date_now w) (prop (shown rs 0) "userId") (first (shown rs 3)) in
    testAPI w = (Return tt, w') /\ length rs = 10%nat /\
    sent w' = (sent w ++ reqs)%list /\ replies (api w) (sent w) reqs rs /\
    console w' = (console w ++ transcript rs)%list /\
    transcript rs !! 16%nat =
      Some (if has_id 1 (shown rs 7)
            then Entry ERROR "Test failed: Movie was not deleted." []
            else Entry LOG "Test passed: Movie successfully deleted." []) /\
    last (transcript rs) =
      Some (Entry LOG (nl ++ "=== All tests completed successfully ===") []).
Proof.
  intros Hok. destruct (testAPI_transcript w Hok) as (w' & rs & Ht & Hl & Hs & Hr & Hc).
  exists w', rs. repeat (split; [done|]). split; reflexivity.
Qed.

(** X13, witness: against [example_api], which shows every user's list as
    empty, the verdict is the line of success. *)
Lemma X13_witness :
  exists w',
    testAPI fresh_world = (Return tt, w') /\
    length (console w') = 22%nat /\
    console w' !! 16%nat = Some (Entry LOG "Test passed: Movie successfully deleted." []).
Proof.
  destruct (X13_transcript_of_a_passing_run fresh_world eq_refl)
    as (w' & rs & Ht & Hl & _ & Hr & Hc & Hv & _).
  exists w'. split; [exact Ht|].
  cbn [fresh_world world_on console app] in Hc. rewrite Hc. split; [reflexivity|].
  rewrite Hv.
  destruct rs as [|r1 [|r2 [|r3 [|r4 [|r5 [|r6 [|r7 [|r8 rs]]]]]]]]; try discriminate Hl.
  cbn [replies scenario shown lookup list_lookup] in Hr.
  destruct Hr as (H1 & _ & _ & _ & _ & _ & _ & _ & _ & _ & _ & _ & _ & _ & H8 & _).
  vm_compute in H1. injection H1 as <-.
  vm_compute in H8. injection H8 as <-.
  reflexivity.
Defined.

(** X14.  [testAPI] reads the [userId] only after it has logged in.  When
    the creation of the user is answered with a 2xx status and a body that
    is [null] or [undefined], the login is still sent; the read of
    [createUserResponse.data.userId] then throws, no further request is
    sent, and the report carries the message of that [TypeError] alone. *)
Theorem X14_user_id_is_read_after_the_login (w : world) (r1 r2 : response) :
  replied w [] (create_user_request w) r1 ->
  replied w [create_user_request w] (login_request w) r2 ->
  nullish (data r1) = true ->
  exists w',
    testAPI w = (Return tt, w') /\
    sent w' = (sent w ++ [create_user_request w; login_request w])%list /\
    last (console w') =
      Some (Entry ERROR report_heading
              [type_error_report
                 ("Cannot read properties of " ++ to_string (data r1) ++
                  " (reading 'userId')")]).
Proof.
  intros H1 H2 Hu.
  pose proof (test_try_no_body w r1 r2 H1 H2 Hu w (told_start w)) as H.
  unfold testAPI, try_catch.
  destruct (test_try w) as [[[]|e] wm]; [done|].
  destruct H as (-> & entries & Hs & _).
  eexists. split; [reflexivity|]. unfold test_catch, console_error, say. cbn [snd sent console].
  split; [exact Hs|]. by rewrite last_snoc.
Qed.

(** X14, witness: against a service that answers the creation of the user
    with [null]. *)
Lemma X14_witness :
  exists w',
    testAPI (with_api silent_api fresh_world) = (Return tt, w') /\
    map req_url (sent w') = ["http://localhost:3000/users"; "http://localhost:3000/login"] /\
    last (console w') =
      Some (Entry ERROR report_heading
              [type_error_report "Cannot read properties of null (reading 'userId')"]).
Proof.
  destruct (X14_user_id_is_read_after_the_login (with_api silent_api fresh_world)
              {| status := 201; data := JNull |}
              {| status := 200; data := JObj [("message", JStr "ok")] |})
    as (w' & Ht & Hs & Hc); try (split; reflexivity); try reflexivity.
  exists w'. split; [exact Ht|]. split; [by rewrite Hs|exact Hc].
Defined.

(** X15.  The details that [testAPI] sends with the movie have
    defaults: the body of its fifth request takes [movieId] from the
    [tmdb_id] of the first listed movie and the title as it is, and sends
    an overview, a poster path and a vote average that are never [null] or
    [undefined]: a value that is missing or falsy goes out as [''], [''] and
    [0]. *)
Theorem X15_details_have_defaults (w : world) :
  fst (test_try w) = Return tt ->
  exists w' rs body,
    let movie := first (shown rs 3) in
    let details := prop body "movieDetails" in
    testAPI w = (Return tt, w') /\
    replies (api w) (sent w) (drop (length (sent w)) (sent w')) rs /\
    drop (length (sent w)) (sent w') !! 4%nat =
      Some (Request "post"
              (API_URL ++ "/user/" ++ to_string (prop (shown rs 0) "userId") ++ "/movies")
              body) /\
    prop body "movieId" = prop movie "tmdb_id" /\
    prop details "title" = prop movie "title" /\
    prop details "overview" =
      (if truthy (prop movie "overview") then prop movie "overview" else JStr "") /\
    prop details "poster_path" =
      (if truthy (prop movie "poster_path") then prop movie "poster_path" else JStr "") /\
    prop details "vote_average" =
      (if truthy (prop movie "vote_average") then prop movie "vote_average" else JNum 0) /\
    nullish (prop details "overview") = false /\
    nullish (prop details "poster_path") = false /\
    nullish (prop details "vote_average") = false.
Proof.
  intros Hok. destruct (testAPI_transcript w Hok) as (w' & rs & Ht & Hl & Hs & Hr & _).
  eexists w', rs, _. cbv zeta. split; [exact Ht|].
  rewrite Hs, drop_app_length. split; [exact Hr|]. split; [reflexivity|].
  cbn [prop field String.eqb Ascii.eqb Bool.eqb]. unfold js_or.
  repeat (split; [reflexivity|]).
  repeat split; by apply (js_or_defined _ _).
Qed.

(** X15, witness: a first movie that has a title and a [tmdb_id] and
    nothing else. *)
Lemma X15_witness :
  exists w',
    testAPI (with_api bare_api fresh_world) = (Return tt, w') /\
    req_data <$> sent w' !! 4%nat =
      Some (JObj [("movieId", JNum 155);
                  ("movieDetails",
                   JObj [("title", JStr "The Dark Knight"); ("overview", JStr "");
                         ("poster_path", JStr ""); ("vote_average", JNum 0)])]).
Proof.
  destruct (X15_details_have_defaults (with_api bare_api fresh_world))
    as (w' & rs & body & Ht & _); [vm_compute; reflexivity|].
  exists w'. split; [exact Ht|].
  apply (f_equal snd) in Ht. cbn [snd] in Ht. rewrite <- Ht. vm_compute. reflexivity.
Defined.

(** ** The route table *)

(** X16.  The table leads to a page from four URLs and from no other:
    [/] and [/login] lead to the login page, [/signup] and [/movies] to
    theirs; a URL with another first segment, with a segment in another
    case, or with more than one segment, leads nowhere.  And the redirect
    of [''] is followed once: one redirect is as good as the thirty-one
    that the router allows. *)
Theorem X16_pages_of_the_routes (url : list string) (c : component) :
  (page routes url = Some c <->
   (c = LoginComponent /\ (url = [] \/ url = ["login"])) \/
   (c = SignupComponent /\ url = ["signup"]) \/
   (c = MoviesComponent /\ url = ["movies"])) /\
  (forall fuel, navigate (S fuel) routes url = page routes url).
Proof.
  destruct (page_cases url) as [Hp Hf]. split; [|exact Hf].
  rewrite Hp. split.
  - destruct url as [|s [|s2 rest]]; [intros [= <-]; left; split; [done|by left]| |done].
    destruct (String.eqb_spec "login" s) as [<-|_];
      [intros [= <-]; left; split; [done|by right]|].
    destruct (String.eqb_spec "signup" s) as [<-|_]; [intros [= <-]; right; by left|].
    destruct (String.eqb_spec "movies" s) as [<-|_]; [intros [= <-]; right; by right|done].
  - intros [[-> [->| ->]]|[[-> ->]|[-> ->]]]; reflexivity.
Qed.

End Properties.
